(** * Simple YouTube audio/video downloader: command assembly and progress parsing

    A shallow embedding of [DownloadWorker.build_cmd], [DownloadWorker.run] and
    of the form validation of [DarkBlackUI] (file thehonoredonethe320kba.py),
    with the properties of the specification proved about them.

    Python strings are modelled by [string]; a character stands for the code
    point of the same number (0..255).  The predicates and case mappings below
    are the ones of CPython on that range. *)

From Stdlib Require Import ZArith List String Ascii Bool Lia.
From Stdlib Require Import Numbers.DecimalString.
Import ListNotations.

Open Scope string_scope.
Open Scope Z_scope.
Open Scope list_scope.

(** ** Python string primitives *)

Module PyStr.

Definition code (c : ascii) : Z := Z.of_N (N_of_ascii c).

Definition chr (n : Z) : ascii := ascii_of_N (Z.to_N n).

Definition between (lo n hi : Z) : bool := (lo <=? n) && (n <=? hi).

(** [str.isspace] on one character; the class [\s] of [re] is the same set. *)
Definition isspace (c : ascii) : bool :=
  let n := code c in
  between 9 n 13 || between 28 n 32 || (n =? 133) || (n =? 160).

(** The class [\d] of [re]: decimal digits. *)
Definition is_decimal (c : ascii) : bool := between 48 (code c) 57.

(** [str.isdigit] on one character: the decimal digits and the superscripts
    two, three and one. *)
Definition isdigit_char (c : ascii) : bool :=
  let n := code c in
  between 48 n 57 || (n =? 178) || (n =? 179) || (n =? 185).

Definition lower_char (c : ascii) : ascii :=
  let n := code c in
  if between 65 n 90 || (between 192 n 222 && negb (n =? 215))
  then chr (n + 32) else c.

(** Three characters (181, 223, 255) have an upper case outside the range
    0..255; they are left as they are, which never yields an ASCII letter
    either. *)
Definition upper_char (c : ascii) : ascii :=
  let n := code c in
  if between 97 n 122 || (between 224 n 254 && negb (n =? 247))
  then chr (n - 32) else c.

Fixpoint map_string (f : ascii -> ascii) (s : string) : string :=
  match s with
  | EmptyString => EmptyString
  | String c r => String (f c) (map_string f r)
  end.

Definition lower : string -> string := map_string lower_char.
Definition upper : string -> string := map_string upper_char.

Fixpoint forall_string (p : ascii -> bool) (s : string) : bool :=
  match s with
  | EmptyString => true
  | String c r => p c && forall_string p r
  end.

(** Truth value of a string: non-empty. *)
Definition truthy (s : string) : bool :=
  match s with EmptyString => false | String _ _ => true end.

(** [str.isdigit]: non-empty and digits only. *)
Definition isdigit (s : string) : bool := truthy s && forall_string isdigit_char s.

Fixpoint lstrip (s : string) : string :=
  match s with
  | EmptyString => EmptyString
  | String c r => if isspace c then lstrip r else s
  end.

Fixpoint rstrip (s : string) : string :=
  match s with
  | EmptyString => EmptyString
  | String c r =>
      match rstrip r with
      | EmptyString => if isspace c then EmptyString else String c EmptyString
      | r' => String c r'
      end
  end.

Definition strip (s : string) : string := rstrip (lstrip s).

Fixpoint startswith (s p : string) {struct p} : bool :=
  match p, s with
  | EmptyString, _ => true
  | String a p', String b s' => Ascii.eqb a b && startswith s' p'
  | String _ _, EmptyString => false
  end.

(** [s[1:]] *)
Definition tail (s : string) : string :=
  match s with EmptyString => EmptyString | String _ r => r end.

(** [c in s] for a character [c] *)
Fixpoint contains_char (c : ascii) (s : string) : bool :=
  match s with
  | EmptyString => false
  | String a r => Ascii.eqb a c || contains_char c r
  end.

(** [sep.join(l)] *)
Fixpoint join (sep : string) (l : list string) : string :=
  match l with
  | [] => EmptyString
  | [x] => x
  | x :: r => (x ++ sep ++ join sep r)%string
  end.

(** [str(n)] for an integer of at most 4300 digits; over that limit [str]
    raises ValueError, which [Raising.str] writes out. *)
Definition str_of_int (n : Z) : string := NilZero.string_of_int (Z.to_int n).

(** [x in l] for a list of strings *)
Definition mem (x : string) (l : list string) : bool :=
  existsb (String.eqb x) l.

(** [d.get(k)] on a dictionary given by its items *)
Fixpoint dict_get (d : list (string * string)) (k : string) : option string :=
  match d with
  | [] => None
  | (k', v) :: r => if String.eqb k k' then Some v else dict_get r k
  end.

End PyStr.

(** ** Conversion of a decimal literal to a binary64 float, and [int] of it *)

Module PyFloat.

(** A non-negative float: [Finite m e] is [m * 2^e]. *)
Inductive pyfloat : Type :=
| Finite (m e : Z)
| Infinity.

Fixpoint digits_value (acc : Z) (s : string) : Z :=
  match s with
  | EmptyString => acc
  | String c r => digits_value (10 * acc + (PyStr.code c - 48)) r
  end.

(** Splits [s] at its first dot. *)
Fixpoint split_dot (s : string) : string * option string :=
  match s with
  | EmptyString => (EmptyString, None)
  | String c r =>
      if Ascii.eqb c "."%char then (EmptyString, Some r)
      else let '(i, f) := split_dot r in (String c i, f)
  end.

Definition nonempty_digits (s : string) : bool :=
  PyStr.truthy s && PyStr.forall_string PyStr.is_decimal s.

(** The literal as a fraction [n / d]; [None] when [s] is not of the shape
    digits or digits.digits (the only shapes the progress pattern captures). *)
Definition decimal_fraction (s : string) : option (Z * Z) :=
  match split_dot s with
  | (i, None) =>
      if nonempty_digits i then Some (digits_value 0 i, 1) else None
  | (i, Some f) =>
      if nonempty_digits i && nonempty_digits f
      then Some (digits_value 0 (i ++ f)%string, 10 ^ Z.of_nat (String.length f))
      else None
  end.

Definition round_half_even (num den : Z) : Z :=
  let q := num / den in
  let r := num mod den in
  if 2 * r <? den then q
  else if den <? 2 * r then q + 1
  else if Z.even q then q else q + 1.

(** [floor (log2 (n / d))] for [n, d > 0] *)
Definition floor_log2_ratio (n d : Z) : Z :=
  let g := Z.log2 n - Z.log2 d in
  let above := if 0 <=? g then d * 2 ^ g <=? n else d <=? n * 2 ^ (- g) in
  if above then g else g - 1.

(** Round to nearest, ties to even, with 53 bits of precision, the smallest
    exponent -1074 and overflow to infinity from [2^1024] on. *)
Definition of_fraction (n d : Z) : pyfloat :=
  if n =? 0 then Finite 0 0
  else
    let e := Z.max (floor_log2_ratio n d - 52) (-1074) in
    let m := if 0 <=? e then round_half_even n (d * 2 ^ e)
             else round_half_even (n * 2 ^ (- e)) d in
    if (0 <=? e) && (2 ^ 1024 <=? m * 2 ^ e) then Infinity else Finite m e.

(** [float(s)]; [None] stands for [ValueError]. *)
Definition float (s : string) : option pyfloat :=
  match decimal_fraction s with
  | Some (n, d) => Some (of_fraction n d)
  | None => None
  end.

(** [int(x)]: truncation; [None] stands for [OverflowError]. *)
Definition int (x : pyfloat) : option Z :=
  match x with
  | Finite m e => Some (if 0 <=? e then m * 2 ^ e else Z.quot m (2 ^ (- e)))
  | Infinity => None
  end.

End PyFloat.

(** ** The download worker *)

Module Worker.

Definition VIDEO_QUALITIES : list string :=
  ["Best"; "8K"; "4K"; "1440p"; "1080p"; "720p"; "480p"; "360p"].

Definition QUALITY_TO_HEIGHT : list (string * string) :=
  [("8K", "4320"); ("4K", "2160"); ("1440p", "1440"); ("1080p", "1080");
   ("720p", "720"); ("480p", "480"); ("360p", "360")].

Definition VIDEO_CONTAINERS : list string := ["mp4"; "webm"].
Definition AUDIO_FORMATS : list string := ["mp3"; "m4a"; "opus"; "ogg"; "flac"; "wav"].
Definition AUDIO_BITRATES : list string := ["128"; "192"; "256"; "320"].
Definition DEFAULT_TEMPLATE : string := "%(title)s.%(ext)s".

(** Signals emitted by the worker ([progress], [log_line], [finished]) and
    its calls on the outside world, in program order. *)
Inductive event : Type :=
| Mkdir
| Popen (cmd : list string)
| Terminate
| Wait
| progress (percent : Z)
| log_line (line : string)
| finished (success : bool) (msg : string).

(** One step of the iteration over [proc.stdout]: a line, together with the
    value of the flag [_stop] at the time the loop body tests it, or an
    exception raised by the read. *)
Inductive read : Type :=
| Line (stop : bool) (text : string)
| ReadError (msg : string).

(** What the outside world answers during one run: the exception of [mkdir]
    and of [Popen] if any, the output of the process and its exit code.  The
    process of a world closes its output and exits; [Raising.child] tells
    of the ones that do not. *)
Record world : Type := {
  mkdir_error : option string;
  popen_error : option string;
  stdout : list read;
  returncode : Z
}.

(** *** The progress pattern [\[download\]\s+(\d+(?:\.\d+)?)%] *)

Fixpoint drop_prefix (p s : string) : option string :=
  match p, s with
  | EmptyString, _ => Some s
  | String a p', String b s' => if Ascii.eqb a b then drop_prefix p' s' else None
  | String _ _, EmptyString => None
  end.

(** The longest prefix of characters in the class [p], and the rest. *)
Fixpoint span (p : ascii -> bool) (s : string) : string * string :=
  match s with
  | EmptyString => (EmptyString, EmptyString)
  | String c r =>
      if p c then let '(a, b) := span p r in (String c a, b)
      else (EmptyString, s)
  end.

(** A match of the pattern at the start of [s]: its group 1.  Both repetitions
    are greedy; giving characters back never helps, since what follows a
    repetition here cannot start with a character of its class. *)
Definition pat_match (s : string) : option string :=
  match drop_prefix "[download]" s with
  | None => None
  | Some s1 =>
      let '(ws, s2) := span PyStr.isspace s1 in
      if negb (PyStr.truthy ws) then None
      else
        let '(d1, s3) := span PyStr.is_decimal s2 in
        if negb (PyStr.truthy d1) then None
        else
          let with_fraction :=
            match s3 with
            | String c s4 =>
                if Ascii.eqb c "."%char then
                  let '(d2, s5) := span PyStr.is_decimal s4 in
                  if PyStr.truthy d2 && PyStr.startswith s5 "%"
                  then Some (d1 ++ "." ++ d2)%string else None
                else None
            | EmptyString => None
            end in
          match with_fraction with
          | Some g => Some g
          | None => if PyStr.startswith s3 "%" then Some d1 else None
          end
  end.

(** [pat.search(line)]: the match at the leftmost position that has one. *)
Fixpoint pat_search (s : string) : option string :=
  match pat_match s with
  | Some g => Some g
  | None =>
      match s with
      | EmptyString => None
      | String _ r => pat_search r
      end
  end.

(** The body of the loop for one line that is not cancelled. *)
Definition on_line (text : string) : list event :=
  let line := PyStr.rstrip text in
  log_line line ::
  match pat_search line with
  | Some g =>
      match PyFloat.float g with
      | Some x =>
          match PyFloat.int x with
          | Some percent => [progress (Z.min (Z.max percent 0) 100)]
          | None => []
          end
      | None => []
      end
  | None => []
  end.

(** The loop over the output; the boolean tells whether the loop ran to the
    end of the output ([true]) or [run] returned from inside it. *)
Fixpoint read_loop (out : list read) : list event * bool :=
  match out with
  | [] => ([], true)
  | ReadError e :: _ => ([finished false ("Error during download: " ++ e)], false)
  | Line stop text :: rest =>
      if stop then ([Terminate; finished false "Download canceled."], false)
      else let '(evs, eof) := read_loop rest in (on_line text ++ evs, eof)
  end.

Definition after_loop (ret : Z) : list event :=
  if ret =? 0 then [progress 100; finished true "Download completed."]
  else [finished false ("yt-dlp exited with code " ++ PyStr.str_of_int ret ++ ".")].

(** The double quote character *)
Definition dquote : ascii := ascii_of_N 34.

(** How [run] prints one argument of the command. *)
Definition quote (c : string) : string :=
  if PyStr.contains_char " "%char c
  then String dquote (c ++ String dquote EmptyString) else c.

Section WithPath.

(** The path type of [out_dir], with [path_str d s] for [str(d / s)], and the
    interpreter path [sys.executable]. *)
Variable Path : Type.
Variable path_str : Path -> string -> string.
Variable sys_executable : string.

Record DownloadConfig : Type := {
  url : string;
  mode : string;
  video_quality : string;
  video_container : string;
  audio_format : string;
  audio_bitrate : string;
  sample_rate : string;
  channels : string;
  mp3_normalize : bool;
  flac_comp_level : Z;
  ogg_quality : string;
  aac_profile : string;
  out_dir : Path;
  allow_playlist : bool;
  force_single : bool;
  name_template : string;
  ffmpeg_extra : string;
  meta_artist : string;
  meta_album : string;
  meta_title_override : string
}.

Variable cfg : DownloadConfig.

(** The transcoder arguments [ff_args], as the statements of [build_cmd]
    extend the list one after the other. *)
Definition build_ff_args : list string :=
  let ff_args := [] in
  let ff_args :=
    if PyStr.truthy (PyStr.strip (meta_artist cfg))
    then ff_args ++ ["-metadata"; ("artist=" ++ PyStr.strip (meta_artist cfg))%string]
    else ff_args in
  let ff_args :=
    if PyStr.truthy (PyStr.strip (meta_album cfg))
    then ff_args ++ ["-metadata"; ("album=" ++ PyStr.strip (meta_album cfg))%string]
    else ff_args in
  let ff_args :=
    if PyStr.truthy (PyStr.strip (meta_title_override cfg))
    then ff_args ++ ["-metadata"; ("title=" ++ PyStr.strip (meta_title_override cfg))%string]
    else ff_args in
  let ff_args :=
    if (mode cfg =? "audio")%string then
      let fmt := PyStr.lower (audio_format cfg) in
      let ff_args :=
        if (fmt =? "mp3")%string && mp3_normalize cfg
        then ff_args ++ ["-filter:a"; "loudnorm"] else ff_args in
      let ff_args :=
        if (fmt =? "flac")%string
        then ff_args ++ ["-compression_level"; PyStr.str_of_int (flac_comp_level cfg)]
        else ff_args in
      let ff_args :=
        if PyStr.mem fmt ["ogg"; "opus"] then
          let q := PyStr.lower (ogg_quality cfg) in
          if PyStr.startswith q "q" then ff_args ++ ["-q:a"; PyStr.tail q]
          else ff_args
        else ff_args in
      let ff_args :=
        if (fmt =? "m4a")%string then
          let profile := PyStr.upper (aac_profile cfg) in
          if (profile =? "LC")%string then ff_args ++ ["-profile:a"; "aac_low"]
          else if (profile =? "HE")%string then ff_args ++ ["-profile:a"; "aac_he"]
          else ff_args
        else ff_args in
      let ff_args :=
        if PyStr.truthy (sample_rate cfg) && PyStr.isdigit (sample_rate cfg)
        then ff_args ++ ["-ar"; sample_rate cfg] else ff_args in
      let ff_args :=
        if PyStr.truthy (channels cfg) && PyStr.mem (channels cfg) ["mono"; "stereo"]
        then ff_args ++ ["-ac"; if (channels cfg =? "mono")%string then "1" else "2"]
        else ff_args in
      ff_args
    else ff_args in
  let ff_args :=
    if PyStr.truthy (PyStr.strip (ffmpeg_extra cfg))
    then ff_args ++ [PyStr.strip (ffmpeg_extra cfg)] else ff_args in
  ff_args.

Definition build_cmd : list string :=
  let cmd := [sys_executable; "-m"; "yt_dlp"; "--newline"] in
  let cmd :=
    cmd ++ [if allow_playlist cfg && negb (force_single cfg)
            then "--yes-playlist" else "--no-playlist"] in
  let out_template :=
    if PyStr.truthy (PyStr.strip (meta_title_override cfg))
    then path_str (out_dir cfg) (PyStr.strip (meta_title_override cfg) ++ ".%(ext)s")
    else path_str (out_dir cfg)
           (if PyStr.truthy (name_template cfg) then name_template cfg
            else DEFAULT_TEMPLATE) in
  let cmd := cmd ++ ["-o"; out_template] in
  let ff_args := build_ff_args in
  let cmd :=
    match ff_args with
    | [] => cmd
    | _ :: _ => cmd ++ ["--postprocessor-args"; PyStr.join " " ff_args]
    end in
  let cmd :=
    if (mode cfg =? "audio")%string then
      cmd ++ ["-f"; "bestaudio/best";
              "--extract-audio";
              "--audio-format"; PyStr.lower (audio_format cfg);
              "--audio-quality"; (audio_bitrate cfg ++ "k")%string]
    else
      let cont := PyStr.lower (video_container cfg) in
      let qual := video_quality cfg in
      if (qual =? "Best")%string then
        cmd ++ ["-f"; "bestvideo+bestaudio/best"; "--merge-output-format"; cont]
      else
        let h := PyStr.dict_get QUALITY_TO_HEIGHT qual in
        let selector :=
          match h with
          | Some (String _ _ as h) =>
              ("bestvideo[height<=" ++ h ++ "]+bestaudio/best[height<=" ++ h ++ "]")%string
          | _ => "bestvideo+bestaudio/best"
          end in
        cmd ++ ["-f"; selector; "--merge-output-format"; cont] in
  cmd ++ [PyStr.strip (url cfg)].

Variable w : world.

Definition run : list event :=
  if negb (PyStr.truthy (PyStr.strip (url cfg))) then
    [finished false "URL is required."]
  else
    match mkdir_error w with
    | Some e => [Mkdir; finished false ("Cannot create output folder: " ++ e)]
    | None =>
        let cmd := build_cmd in
        [Mkdir; log_line "Command:"; log_line (PyStr.join " " (map quote cmd));
         Popen cmd] ++
        match popen_error w with
        | Some e => [finished false ("Failed to start yt-dlp: " ++ e)]
        | None =>
            let '(evs, eof) := read_loop (stdout w) in
            if eof then evs ++ Wait :: after_loop (returncode w) else evs
        end
    end.

End WithPath.

Arguments url {Path}.
Arguments mode {Path}.
Arguments video_quality {Path}.
Arguments video_container {Path}.
Arguments audio_format {Path}.
Arguments audio_bitrate {Path}.
Arguments sample_rate {Path}.
Arguments channels {Path}.
Arguments mp3_normalize {Path}.
Arguments flac_comp_level {Path}.
Arguments ogg_quality {Path}.
Arguments aac_profile {Path}.
Arguments out_dir {Path}.
Arguments allow_playlist {Path}.
Arguments force_single {Path}.
Arguments name_template {Path}.
Arguments ffmpeg_extra {Path}.
Arguments meta_artist {Path}.
Arguments meta_album {Path}.
Arguments meta_title_override {Path}.
Arguments build_ff_args {Path}.
Arguments build_cmd {Path}.
Arguments run {Path}.

End Worker.

(** ** The form: validation, configuration and the handler of [finished] *)

Module UI.

(** What the window shows: message boxes, lines appended to the log view and
    the enabling of the controls.  Progress bar resets and tab switches are
    left out. *)
Inductive ui_event : Type :=
| critical (title msg : string)
| information (title msg : string)
| append_log (text : string)
| toggle_controls (running : bool).

Section WithPath.

Variable Path : Type.
Variable path_str : Path -> string -> string.
Variable sys_executable : string.

(** The texts and states of the widgets that [validate_inputs] and
    [build_config] read. *)
Record form : Type := {
  url_edit : string;
  mode_combo : string;
  video_quality_combo : string;
  video_container_combo : string;
  audio_format_combo : string;
  audio_bitrate_combo : string;
  sample_rate_combo : string;
  channels_combo : string;
  mp3_norm_check : bool;
  flac_slider : Z;
  ogg_combo : string;
  m4a_combo : string;
  out_dir : Path;
  allow_playlist : bool;
  force_single : bool;
  template_edit : string;
  ffmpeg_args : string;
  meta_artist : string;
  meta_album : string;
  meta_title : string
}.

Definition set_template_edit (f : form) (t : string) : form :=
  {| url_edit := url_edit f; mode_combo := mode_combo f;
     video_quality_combo := video_quality_combo f;
     video_container_combo := video_container_combo f;
     audio_format_combo := audio_format_combo f;
     audio_bitrate_combo := audio_bitrate_combo f;
     sample_rate_combo := sample_rate_combo f;
     channels_combo := channels_combo f;
     mp3_norm_check := mp3_norm_check f; flac_slider := flac_slider f;
     ogg_combo := ogg_combo f; m4a_combo := m4a_combo f; out_dir := out_dir f;
     allow_playlist := allow_playlist f; force_single := force_single f;
     template_edit := t;
     ffmpeg_args := ffmpeg_args f; meta_artist := meta_artist f;
     meta_album := meta_album f; meta_title := meta_title f |}.

(** [inl msg]: the error box with [msg] is shown and [False] returned;
    [inr f']: [True] is returned, the form being [f'] afterwards. *)
Definition validate_inputs (f : form) : string + form :=
  let url := PyStr.strip (url_edit f) in
  if negb (PyStr.truthy url) then inl "URL is required."
  else if negb (PyStr.startswith url "http://" || PyStr.startswith url "https://")
  then inl "URL must start with http:// or https://"
  else
    let mode := PyStr.lower (mode_combo f) in
    let checked :=
      if (mode =? "video")%string then
        if negb (PyStr.mem (video_quality_combo f) Worker.VIDEO_QUALITIES)
        then Some "Invalid video quality."
        else if negb (PyStr.mem (video_container_combo f) Worker.VIDEO_CONTAINERS)
        then Some "Invalid container."
        else None
      else
        if negb (PyStr.mem (audio_format_combo f) Worker.AUDIO_FORMATS)
        then Some "Invalid audio format."
        else if negb (PyStr.mem (audio_bitrate_combo f) Worker.AUDIO_BITRATES)
        then Some "Invalid bitrate."
        else None in
    match checked with
    | Some msg => inl msg
    | None =>
        if negb (PyStr.truthy (PyStr.strip (template_edit f)))
           && negb (PyStr.truthy (PyStr.strip (meta_title f)))
        then inr (set_template_edit f Worker.DEFAULT_TEMPLATE)
        else inr f
    end.

Definition build_config (f : form) : Worker.DownloadConfig Path :=
  {| Worker.url := PyStr.strip (url_edit f);
     Worker.mode := PyStr.lower (mode_combo f);
     Worker.video_quality := video_quality_combo f;
     Worker.video_container := PyStr.lower (video_container_combo f);
     Worker.audio_format := PyStr.lower (audio_format_combo f);
     Worker.audio_bitrate := audio_bitrate_combo f;
     Worker.sample_rate := PyStr.strip (sample_rate_combo f);
     Worker.channels := channels_combo f;
     Worker.mp3_normalize := mp3_norm_check f;
     Worker.flac_comp_level := flac_slider f;
     Worker.ogg_quality := ogg_combo f;
     Worker.aac_profile := m4a_combo f;
     Worker.out_dir := out_dir f;
     Worker.allow_playlist := allow_playlist f;
     Worker.force_single := force_single f;
     Worker.name_template :=
       (if PyStr.truthy (PyStr.strip (template_edit f))
        then PyStr.strip (template_edit f) else Worker.DEFAULT_TEMPLATE);
     Worker.ffmpeg_extra := PyStr.strip (ffmpeg_args f);
     Worker.meta_artist := PyStr.strip (meta_artist f);
     Worker.meta_album := PyStr.strip (meta_album f);
     Worker.meta_title_override := PyStr.strip (meta_title f) |}.

(** The summary that [start_download] writes to the log. *)
Definition summary (cfg : Worker.DownloadConfig Path) : list ui_event :=
  [append_log "=== Summary ===";
   append_log ("URL: " ++ Worker.url cfg);
   append_log ("Mode: " ++ Worker.mode cfg)] ++
  (if (Worker.mode cfg =? "audio")%string then
     [append_log ("Audio: " ++ Worker.audio_format cfg ++ " @ "
                    ++ Worker.audio_bitrate cfg ++ "k")] ++
     (if PyStr.truthy (Worker.sample_rate cfg)
      then [append_log ("Sample rate: " ++ Worker.sample_rate cfg ++ " Hz")]
      else []) ++
     (if PyStr.truthy (Worker.channels cfg)
         && negb (Worker.channels cfg =? "auto")%string
      then [append_log ("Channels: " ++ Worker.channels cfg)] else [])
   else
     [append_log ("Video: " ++ Worker.video_quality cfg ++ " in "
                    ++ Worker.video_container cfg)]) ++
  (if PyStr.truthy (Worker.meta_artist cfg)
   then [append_log ("Artist: " ++ Worker.meta_artist cfg)] else []) ++
  (if PyStr.truthy (Worker.meta_album cfg)
   then [append_log ("Album: " ++ Worker.meta_album cfg)] else []) ++
  (if PyStr.truthy (Worker.meta_title_override cfg)
   then [append_log ("Title override: " ++ Worker.meta_title_override cfg)]
   else []) ++
  (if PyStr.truthy (Worker.ffmpeg_extra cfg)
   then [append_log ("FFmpeg extra: " ++ Worker.ffmpeg_extra cfg)] else []) ++
  [append_log "================"].

(** [start_download]: what the window does itself, and the events of the
    worker it starts (none when the inputs are refused: no worker is
    created).  The worker is the only place where a process is launched. *)
Definition start_download (f : form) (w : Worker.world)
  : list ui_event * list Worker.event :=
  match validate_inputs f with
  | inl msg => ([critical "Error" msg], [])
  | inr f' =>
      let cfg := build_config f' in
      (toggle_controls true :: summary cfg,
       Worker.run path_str sys_executable cfg w)
  end.

End WithPath.

Arguments url_edit {Path}.
Arguments mode_combo {Path}.
Arguments video_quality_combo {Path}.
Arguments video_container_combo {Path}.
Arguments audio_format_combo {Path}.
Arguments audio_bitrate_combo {Path}.
Arguments sample_rate_combo {Path}.
Arguments channels_combo {Path}.
Arguments mp3_norm_check {Path}.
Arguments flac_slider {Path}.
Arguments ogg_combo {Path}.
Arguments m4a_combo {Path}.
Arguments out_dir {Path}.
Arguments allow_playlist {Path}.
Arguments force_single {Path}.
Arguments template_edit {Path}.
Arguments ffmpeg_args {Path}.
Arguments meta_artist {Path}.
Arguments meta_album {Path}.
Arguments meta_title {Path}.
Arguments set_template_edit {Path}.
Arguments validate_inputs {Path}.
Arguments build_config {Path}.
Arguments summary {Path}.
Arguments start_download {Path}.

(** The slot connected to [finished]. *)
Definition on_finished (success : bool) (msg : string) : list ui_event :=
  [append_log msg; toggle_controls false] ++
  (if success then
     [information "Done" "Download completed successfully.";
      append_log "Download finished successfully."]
   else
     [critical "Error" msg; append_log ("Error: " ++ msg)]).

End UI.

(** ** Vocabulary of the specification *)

Module Spec.

Section WithPath.

Variable Path : Type.
Variable cfg : Worker.DownloadConfig Path.

(** A metadata pair of the transcoder arguments, present when the value is
    not blank. *)
Definition metadata_tokens (key value : string) : list string :=
  if PyStr.truthy (PyStr.strip value)
  then ["-metadata"; (key ++ "=" ++ PyStr.strip value)%string] else [].

Definition fmt : string := PyStr.lower (Worker.audio_format cfg).

Definition loudness_tokens : list string :=
  if (fmt =? "mp3")%string && Worker.mp3_normalize cfg
  then ["-filter:a"; "loudnorm"] else [].

Definition compression_tokens : list string :=
  if (fmt =? "flac")%string
  then ["-compression_level"; PyStr.str_of_int (Worker.flac_comp_level cfg)]
  else [].

Definition quality_tokens : list string :=
  if ((fmt =? "ogg") || (fmt =? "opus"))%string
     && PyStr.startswith (PyStr.lower (Worker.ogg_quality cfg)) "q"
  then ["-q:a"; PyStr.tail (PyStr.lower (Worker.ogg_quality cfg))] else [].

Definition profile_tokens : list string :=
  if (fmt =? "m4a")%string then
    if (PyStr.upper (Worker.aac_profile cfg) =? "LC")%string
    then ["-profile:a"; "aac_low"]
    else if (PyStr.upper (Worker.aac_profile cfg) =? "HE")%string
    then ["-profile:a"; "aac_he"] else []
  else [].

Definition sample_rate_tokens : list string :=
  if PyStr.isdigit (Worker.sample_rate cfg)
  then ["-ar"; Worker.sample_rate cfg] else [].

Definition channel_tokens : list string :=
  if (Worker.channels cfg =? "mono")%string then ["-ac"; "1"]
  else if (Worker.channels cfg =? "stereo")%string then ["-ac"; "2"]
  else [].

Definition audio_tokens : list string :=
  loudness_tokens ++ compression_tokens ++ quality_tokens ++ profile_tokens
  ++ sample_rate_tokens ++ channel_tokens.

Definition extra_tokens : list string :=
  if PyStr.truthy (PyStr.strip (Worker.ffmpeg_extra cfg))
  then [PyStr.strip (Worker.ffmpeg_extra cfg)] else [].

(** The transcoder arguments in the order the specification gives. *)
Definition ordered_ff_args : list string :=
  metadata_tokens "artist" (Worker.meta_artist cfg)
  ++ metadata_tokens "album" (Worker.meta_album cfg)
  ++ metadata_tokens "title" (Worker.meta_title_override cfg)
  ++ (if (Worker.mode cfg =? "audio")%string then audio_tokens else [])
  ++ extra_tokens.

Variable cfg' : Worker.DownloadConfig Path.

(** Agreement of two configurations on the fields used in both modes, on the
    video fields and on the audio fields. *)
Definition same_common : Prop :=
  Worker.url cfg = Worker.url cfg'
  /\ Worker.out_dir cfg = Worker.out_dir cfg'
  /\ Worker.allow_playlist cfg = Worker.allow_playlist cfg'
  /\ Worker.force_single cfg = Worker.force_single cfg'
  /\ Worker.name_template cfg = Worker.name_template cfg'
  /\ Worker.ffmpeg_extra cfg = Worker.ffmpeg_extra cfg'
  /\ Worker.meta_artist cfg = Worker.meta_artist cfg'
  /\ Worker.meta_album cfg = Worker.meta_album cfg'
  /\ Worker.meta_title_override cfg = Worker.meta_title_override cfg'.

Definition same_video : Prop :=
  Worker.video_quality cfg = Worker.video_quality cfg'
  /\ Worker.video_container cfg = Worker.video_container cfg'.

Definition same_audio : Prop :=
  Worker.audio_format cfg = Worker.audio_format cfg'
  /\ Worker.audio_bitrate cfg = Worker.audio_bitrate cfg'
  /\ Worker.sample_rate cfg = Worker.sample_rate cfg'
  /\ Worker.channels cfg = Worker.channels cfg'
  /\ Worker.mp3_normalize cfg = Worker.mp3_normalize cfg'
  /\ Worker.flac_comp_level cfg = Worker.flac_comp_level cfg'
  /\ Worker.ogg_quality cfg = Worker.ogg_quality cfg'
  /\ Worker.aac_profile cfg = Worker.aac_profile cfg'.

End WithPath.

Arguments metadata_tokens key value : clear implicits.
Arguments fmt {Path}.
Arguments loudness_tokens {Path}.
Arguments compression_tokens {Path}.
Arguments quality_tokens {Path}.
Arguments profile_tokens {Path}.
Arguments sample_rate_tokens {Path}.
Arguments channel_tokens {Path}.
Arguments audio_tokens {Path}.
Arguments extra_tokens {Path}.
Arguments ordered_ff_args {Path}.
Arguments same_common {Path}.
Arguments same_video {Path}.
Arguments same_audio {Path}.

Section Shape.

Variable Path : Type.
Variable path_str : Path -> string -> string.
Variable cfg : Worker.DownloadConfig Path.

(** Single-item forcing overrides playlist-allow. *)
Definition playlist_flag : string :=
  if Worker.allow_playlist cfg
  then (if Worker.force_single cfg then "--no-playlist" else "--yes-playlist")
  else "--no-playlist".

(** The output template: the trimmed title override with the extension
    placeholder if there is one, else the file name template, else the
    default pattern; joined with the output directory. *)
Definition out_template : string :=
  match PyStr.strip (Worker.meta_title_override cfg) with
  | String _ _ as title => path_str (Worker.out_dir cfg) (title ++ ".%(ext)s")
  | EmptyString =>
      match Worker.name_template cfg with
      | String _ _ as template => path_str (Worker.out_dir cfg) template
      | EmptyString => path_str (Worker.out_dir cfg) Worker.DEFAULT_TEMPLATE
      end
  end.

(** The transcoder arguments are attached when their joined string is not
    empty. *)
Definition postprocessor_part : list string :=
  match PyStr.join " " (ordered_ff_args cfg) with
  | EmptyString => []
  | String _ _ as joined => ["--postprocessor-args"; joined]
  end.

(** A stream selector capped at a height, and the two selectors merged. *)
Definition capped (stream height : string) : string :=
  (stream ++ "[height<=" ++ height ++ "]")%string.

Definition selector : string :=
  match PyStr.dict_get Worker.QUALITY_TO_HEIGHT (Worker.video_quality cfg) with
  | Some height =>
      (capped "bestvideo" height ++ "+" ++ capped "bestaudio/best" height)%string
  | None => "bestvideo+bestaudio/best"
  end.

Definition format_part : list string :=
  if (Worker.mode cfg =? "audio")%string then
    ["-f"; "bestaudio/best"; "--extract-audio";
     "--audio-format"; PyStr.lower (Worker.audio_format cfg);
     "--audio-quality"; (Worker.audio_bitrate cfg ++ "k")%string]
  else
    ["-f"; selector; "--merge-output-format";
     PyStr.lower (Worker.video_container cfg)].

(** The configuration with another mode. *)
Definition with_mode (m : string) : Worker.DownloadConfig Path :=
  {| Worker.url := Worker.url cfg;
     Worker.mode := m;
     Worker.video_quality := Worker.video_quality cfg;
     Worker.video_container := Worker.video_container cfg;
     Worker.audio_format := Worker.audio_format cfg;
     Worker.audio_bitrate := Worker.audio_bitrate cfg;
     Worker.sample_rate := Worker.sample_rate cfg;
     Worker.channels := Worker.channels cfg;
     Worker.mp3_normalize := Worker.mp3_normalize cfg;
     Worker.flac_comp_level := Worker.flac_comp_level cfg;
     Worker.ogg_quality := Worker.ogg_quality cfg;
     Worker.aac_profile := Worker.aac_profile cfg;
     Worker.out_dir := Worker.out_dir cfg;
     Worker.allow_playlist := Worker.allow_playlist cfg;
     Worker.force_single := Worker.force_single cfg;
     Worker.name_template := Worker.name_template cfg;
     Worker.ffmpeg_extra := Worker.ffmpeg_extra cfg;
     Worker.meta_artist := Worker.meta_artist cfg;
     Worker.meta_album := Worker.meta_album cfg;
     Worker.meta_title_override := Worker.meta_title_override cfg |}.

End Shape.

Arguments with_mode {Path}.
Arguments playlist_flag {Path}.
Arguments out_template {Path}.
Arguments postprocessor_part {Path}.
Arguments selector {Path}.
Arguments format_part {Path}.

(** *** Runs of the worker *)

(** Output lines read while no cancellation is requested. *)
Definition uncancelled (texts : list string) : list Worker.read :=
  map (Worker.Line false) texts.

(** What [run] does before it reads the output of the process it started. *)
Definition header (cmd : list string) : list Worker.event :=
  [Worker.Mkdir; Worker.log_line "Command:";
   Worker.log_line (PyStr.join " " (map Worker.quote cmd));
   Worker.Popen cmd].

(** The events of the lines read. *)
Definition line_events (texts : list string) : list Worker.event :=
  flat_map Worker.on_line texts.

(** The URL is not blank, the output folder exists or is created, and the
    process starts. *)
Definition started {Path} (cfg : Worker.DownloadConfig Path) (w : Worker.world)
  : Prop :=
  PyStr.strip (Worker.url cfg) <> EmptyString
  /\ Worker.mkdir_error w = None
  /\ Worker.popen_error w = None.

(** The signal [finished] carries a success flag and a message; the slot
    [on_finished] takes the error path for every outcome whose flag is
    false. *)
Definition success_outcome (e : Worker.event) : Prop :=
  exists msg, e = Worker.finished true msg.

Definition failure_outcome (e : Worker.event) : Prop :=
  exists msg, e = Worker.finished false msg.

(** Cancellation is observed: some line is read with the stop flag set, after
    lines read without it. *)
Definition cancel_observed (out : list Worker.read) : Prop :=
  exists texts text rest,
    out = uncancelled texts ++ Worker.Line true text :: rest.

(** *** Lines that announce progress *)

(** Digits, or digits, a dot and digits. *)
Inductive number : string -> Prop :=
| number_integer (d : string) :
    PyFloat.nonempty_digits d = true -> number d
| number_fraction (d1 d2 : string) :
    PyFloat.nonempty_digits d1 = true ->
    PyFloat.nonempty_digits d2 = true ->
    number (d1 ++ "." ++ d2)%string.

(** [s] starts with the marker, white space, the number [g] and a percent
    sign. *)
Definition matches_at (s g : string) : Prop :=
  exists ws rest,
    s = ("[download]" ++ ws ++ g ++ "%" ++ rest)%string
    /\ PyStr.truthy ws = true
    /\ PyStr.forall_string PyStr.isspace ws = true
    /\ number g.

(** No position of the line matches. *)
Definition no_match (line : string) : Prop :=
  forall pre s g, line = (pre ++ s)%string -> ~ matches_at s g.

(** [g] is the number of the leftmost match of the line. *)
Definition first_match (line g : string) : Prop :=
  exists pre s,
    line = (pre ++ s)%string
    /\ matches_at s g
    /\ forall pre' s' g',
         line = (pre' ++ s')%string -> matches_at s' g' ->
         (String.length pre <= String.length pre')%nat.

(** [s] does not start with a character of the class [p]. *)
Definition not_headed_by (p : ascii -> bool) (s : string) : Prop :=
  match s with
  | EmptyString => True
  | String c _ => p c = false
  end.

(** The number is at least [2^1024 - 2^970], from where on the nearest float
    is infinite. *)
Definition overflows (g : string) : Prop :=
  exists n d,
    PyFloat.decimal_fraction g = Some (n, d)
    /\ (2 ^ 1024 - 2 ^ 970) * d <= n.

End Spec.

(** ** Sample data *)

Module Sample.

(** Paths as strings, joined with a slash. *)
Definition join_path (d s : string) : string := (d ++ "/" ++ s)%string.

Definition python : string := "python".

Definition video_cfg : Worker.DownloadConfig string :=
  {| Worker.url := "https://example.org/watch?v=1";
     Worker.mode := "video";
     Worker.video_quality := "1080p";
     Worker.video_container := "mp4";
     Worker.audio_format := "mp3";
     Worker.audio_bitrate := "192";
     Worker.sample_rate := "";
     Worker.channels := "auto";
     Worker.mp3_normalize := false;
     Worker.flac_comp_level := 5;
     Worker.ogg_quality := "q5";
     Worker.aac_profile := "LC";
     Worker.out_dir := "/home/user/Music";
     Worker.allow_playlist := false;
     Worker.force_single := true;
     Worker.name_template := "%(title)s.%(ext)s";
     Worker.ffmpeg_extra := "";
     Worker.meta_artist := "";
     Worker.meta_album := "";
     Worker.meta_title_override := "" |}.

(** The same request with other audio settings. *)
Definition video_cfg_other_audio : Worker.DownloadConfig string :=
  {| Worker.url := "https://example.org/watch?v=1";
     Worker.mode := "video";
     Worker.video_quality := "1080p";
     Worker.video_container := "mp4";
     Worker.audio_format := "flac";
     Worker.audio_bitrate := "320";
     Worker.sample_rate := "48000";
     Worker.channels := "mono";
     Worker.mp3_normalize := true;
     Worker.flac_comp_level := 8;
     Worker.ogg_quality := "q9";
     Worker.aac_profile := "HE";
     Worker.out_dir := "/home/user/Music";
     Worker.allow_playlist := false;
     Worker.force_single := true;
     Worker.name_template := "%(title)s.%(ext)s";
     Worker.ffmpeg_extra := "";
     Worker.meta_artist := "";
     Worker.meta_album := "";
     Worker.meta_title_override := "" |}.

(** An audio request whose file name template is one space and whose quality
    and sample rate are not of the expected form. *)
Definition audio_cfg : Worker.DownloadConfig string :=
  {| Worker.url := "https://example.org/watch?v=2";
     Worker.mode := "audio";
     Worker.video_quality := "Best";
     Worker.video_container := "mp4";
     Worker.audio_format := "ogg";
     Worker.audio_bitrate := "192";
     Worker.sample_rate := "44.1k";
     Worker.channels := "stereo";
     Worker.mp3_normalize := false;
     Worker.flac_comp_level := 5;
     Worker.ogg_quality := "7";
     Worker.aac_profile := "LC";
     Worker.out_dir := "/home/user/Music";
     Worker.allow_playlist := true;
     Worker.force_single := false;
     Worker.name_template := " ";
     Worker.ffmpeg_extra := "";
     Worker.meta_artist := "";
     Worker.meta_album := "";
     Worker.meta_title_override := "" |}.

(** A process that prints two progress lines and is cancelled at the third
    line, and one that ends by itself with exit code 1. *)
Definition cancelled_world : Worker.world :=
  {| Worker.mkdir_error := None;
     Worker.popen_error := None;
     Worker.stdout :=
       [Worker.Line false "[download]  42.7% of 10MiB";
        Worker.Line false "[download]  99.9% of 10MiB";
        Worker.Line true "[download] 100% of 10MiB"];
     Worker.returncode := 0 |}.

Definition failing_world : Worker.world :=
  {| Worker.mkdir_error := None;
     Worker.popen_error := None;
     Worker.stdout := [Worker.Line false "ERROR: unable to download"];
     Worker.returncode := 1 |}.

(** A form with a URL that is not a web address. *)
Definition ftp_form : UI.form string :=
  {| UI.url_edit := " ftp://example.org/file ";
     UI.mode_combo := "Video";
     UI.video_quality_combo := "Best";
     UI.video_container_combo := "mp4";
     UI.audio_format_combo := "mp3";
     UI.audio_bitrate_combo := "192";
     UI.sample_rate_combo := "";
     UI.channels_combo := "auto";
     UI.mp3_norm_check := false;
     UI.flac_slider := 5;
     UI.ogg_combo := "q5";
     UI.m4a_combo := "LC";
     UI.out_dir := "/home/user/Music";
     UI.allow_playlist := false;
     UI.force_single := true;
     UI.template_edit := "";
     UI.ffmpeg_args := "";
     UI.meta_artist := "";
     UI.meta_album := "";
     UI.meta_title := "" |}.

Fixpoint repeat_char (c : ascii) (n : nat) : string :=
  match n with
  | O => EmptyString
  | S k => String c (repeat_char c k)
  end.

(** A progress line whose number has 400 digits. *)
Definition huge_number : string := repeat_char "9"%char 400.
Definition huge_line : string := ("[download] " ++ huge_number ++ "%")%string.

End Sample.

(** ** Views of a run *)

Module Trace.

(** The lines sent to the log view, in order. *)
Definition logged (tr : list Worker.event) : list string :=
  flat_map (fun e => match e with Worker.log_line s => [s] | _ => [] end) tr.

(** The outcomes sent with [finished], in order. *)
Definition outcomes (tr : list Worker.event) : list (bool * string) :=
  flat_map (fun e => match e with
                     | Worker.finished ok msg => [(ok, msg)]
                     | _ => []
                     end) tr.

(** The commands given to [Popen], in order. *)
Definition launches (tr : list Worker.event) : list (list string) :=
  flat_map (fun e => match e with Worker.Popen cmd => [cmd] | _ => [] end) tr.

(** The output lines that the loop of [run] gets to process: those read
    before the first line at which the stop flag is set and before the first
    read error. *)
Fixpoint lines_read (out : list Worker.read) : list string :=
  match out with
  | Worker.Line false text :: rest => text :: lines_read rest
  | _ => []
  end.

End Trace.

(** ** The window: widgets, worker and handlers *)

Module Window.

Definition AAC_PROFILES : list string := ["LC"; "HE"].
Definition SAMPLE_RATES : list string :=
  [""; "22050"; "32000"; "44100"; "48000"; "96000"].
Definition CHANNELS : list string := ["auto"; "mono"; "stereo"].

(** [[f"q{i}" for i in range(0, 11)]] *)
Definition OGG_OPUS_QUALITY : list string :=
  map (fun i => ("q" ++ PyStr.str_of_int (Z.of_nat i))%string) (seq 0 11).

(** The widgets whose state the handlers change. *)
Inductive widget : Type :=
| url_edit | mode_combo | video_quality_combo | video_container_combo
| audio_format_combo | audio_bitrate_combo | meta_artist | meta_album
| meta_title | out_btn | template_edit | allow_playlist | force_single
| mp3_norm_check | flac_slider | ogg_combo | m4a_combo | sample_rate_combo
| channels_combo | ffmpeg_args | start_btn | cancel_btn | adv_group
| flac_label | ogg_label | m4a_label.

(** The place of a widget in that list, to compare widgets. *)
Definition index (w : widget) : nat :=
  match w with
  | url_edit => 0 | mode_combo => 1 | video_quality_combo => 2
  | video_container_combo => 3 | audio_format_combo => 4
  | audio_bitrate_combo => 5 | meta_artist => 6 | meta_album => 7
  | meta_title => 8 | out_btn => 9 | template_edit => 10
  | allow_playlist => 11 | force_single => 12 | mp3_norm_check => 13
  | flac_slider => 14 | ogg_combo => 15 | m4a_combo => 16
  | sample_rate_combo => 17 | channels_combo => 18 | ffmpeg_args => 19
  | start_btn => 20 | cancel_btn => 21 | adv_group => 22
  | flac_label => 23 | ogg_label => 24 | m4a_label => 25
  end%nat.

Definition widget_eqb (a b : widget) : bool := Nat.eqb (index a) (index b).

(** The two opacities that the code sets: 1.0 and 0.35. *)
Inductive opacity : Type := full | dimmed.

Definition video_controls : list widget :=
  [video_quality_combo; video_container_combo].
Definition audio_controls : list widget :=
  [audio_format_combo; audio_bitrate_combo].
Definition all_controls : list widget :=
  video_controls ++ audio_controls ++ [adv_group].

(** The widgets that [toggle_controls] enables or disables, besides the two
    buttons. *)
Definition inputs : list widget :=
  [url_edit; mode_combo; video_quality_combo; video_container_combo;
   audio_format_combo; audio_bitrate_combo; meta_artist; meta_album; meta_title;
   out_btn; template_edit; allow_playlist; force_single; mp3_norm_check;
   flac_slider; ogg_combo; m4a_combo; sample_rate_combo; channels_combo;
   ffmpeg_args].

Section WithPath.

Variable Path : Type.

(** The state of the window: for each widget whether it is enabled and
    visible and the opacity of its opacity effect ([None] when it has none),
    the contents of the form, the worker with its flag [_stop] ([None] when
    [self.worker] is None), and the lines of the log view. *)
Record state : Type := {
  enabled : widget -> bool;
  visible : widget -> bool;
  effect : widget -> option opacity;
  fields : UI.form Path;
  worker : option (Worker.DownloadConfig Path * bool);
  log_view : list string
}.

Definition update {A} (m : widget -> A) (w : widget) (v : A) : widget -> A :=
  fun x => if widget_eqb x w then v else m x.

Definition setEnabled (w : widget) (b : bool) (st : state) : state :=
  {| enabled := update (enabled st) w b; visible := visible st;
     effect := effect st; fields := fields st; worker := worker st;
     log_view := log_view st |}.

Definition setVisible (w : widget) (b : bool) (st : state) : state :=
  {| enabled := enabled st; visible := update (visible st) w b;
     effect := effect st; fields := fields st; worker := worker st;
     log_view := log_view st |}.

Definition set_fields (f : UI.form Path) (st : state) : state :=
  {| enabled := enabled st; visible := visible st; effect := effect st;
     fields := f; worker := worker st; log_view := log_view st |}.

Definition set_worker (wk : option (Worker.DownloadConfig Path * bool))
           (st : state) : state :=
  {| enabled := enabled st; visible := visible st; effect := effect st;
     fields := fields st; worker := wk; log_view := log_view st |}.

Definition append_log (text : string) (st : state) : state :=
  {| enabled := enabled st; visible := visible st; effect := effect st;
     fields := fields st; worker := worker st;
     log_view := log_view st ++ [text] |}.

Definition clear_log (st : state) : state :=
  {| enabled := enabled st; visible := visible st; effect := effect st;
     fields := fields st; worker := worker st; log_view := [] |}.

(** [set_opacity]: the effect of the widget gets the opacity when the widget
    has an opacity effect; a widget without one stays without. *)
Definition set_opacity (w : widget) (value : opacity) (st : state) : state :=
  {| enabled := enabled st; visible := visible st;
     effect := update (effect st) w
                 match effect st w with
                 | Some _ => Some value
                 | None => None
                 end;
     fields := fields st; worker := worker st; log_view := log_view st |}.

Definition shade (b : bool) : opacity := if b then full else dimmed.

Definition update_button_opacity (st : state) : state :=
  let st := set_opacity start_btn (shade (enabled st start_btn)) st in
  set_opacity cancel_btn (shade (enabled st cancel_btn)) st.

Definition toggle_mode (st : state) : state :=
  let mode := PyStr.lower (UI.mode_combo (fields st)) in
  let is_video := (mode =? "video")%string in
  let st :=
    fold_left (fun st w => set_opacity w (shade is_video)
                             (setEnabled w is_video st))
              video_controls st in
  let st :=
    fold_left (fun st w => set_opacity w (shade (negb is_video))
                             (setEnabled w (negb is_video) st))
              audio_controls st in
  let st := setVisible adv_group false st in
  let st := set_opacity adv_group dimmed st in
  let st := setVisible start_btn true st in
  update_button_opacity st.

Definition on_audio_format_changed (st : state) : state :=
  let fmt := PyStr.lower (UI.audio_format_combo (fields st)) in
  let show :=
    PyStr.mem fmt ["mp3"; "flac"; "wav"; "ogg"; "opus"; "m4a"]
    && (PyStr.lower (UI.mode_combo (fields st)) =? "audio")%string in
  let is_mp3 := (fmt =? "mp3")%string in
  let is_flac := (fmt =? "flac")%string in
  let is_ogg := PyStr.mem fmt ["ogg"; "opus"] in
  let is_m4a := (fmt =? "m4a")%string in
  let has_rate := PyStr.mem fmt ["wav"; "flac"; "m4a"; "mp3"] in
  let has_channels := PyStr.mem fmt ["wav"; "flac"; "m4a"; "mp3"; "ogg"; "opus"] in
  let st := setVisible adv_group show st in
  let st := set_opacity adv_group (shade show) st in
  let st := setVisible mp3_norm_check is_mp3 st in
  let st := setEnabled mp3_norm_check is_mp3 st in
  let st := set_opacity mp3_norm_check (shade is_mp3) st in
  let st := setVisible flac_label is_flac st in
  let st := setVisible flac_slider is_flac st in
  let st := setEnabled flac_slider is_flac st in
  let st := set_opacity flac_slider (shade is_flac) st in
  let st := setVisible ogg_label is_ogg st in
  let st := setVisible ogg_combo is_ogg st in
  let st := setEnabled ogg_combo is_ogg st in
  let st := set_opacity ogg_combo (shade is_ogg) st in
  let st := setVisible m4a_label is_m4a st in
  let st := setVisible m4a_combo is_m4a st in
  let st := setEnabled m4a_combo is_m4a st in
  let st := set_opacity m4a_combo (shade is_m4a) st in
  let st := setEnabled sample_rate_combo has_rate st in
  let st := set_opacity sample_rate_combo (shade has_rate) st in
  let st := setEnabled channels_combo has_channels st in
  let st := set_opacity channels_combo (shade has_channels) st in
  let st := setVisible start_btn true st in
  update_button_opacity st.

Definition toggle_controls (running : bool) (st : state) : state :=
  let st := setEnabled start_btn (negb running) st in
  let st := setEnabled cancel_btn running st in
  let st := fold_left (fun st w => setEnabled w (negb running) st) inputs st in
  let st := update_button_opacity st in
  setVisible start_btn true st.

(** The window when [init_ui] returns: the widgets as created (enabled and
    not hidden, Cancel disabled, the advanced group hidden), an opacity
    effect of 1.0 on the mode controls and the two buttons, the first item of
    every list selected, then [toggle_mode] and [on_audio_format_changed]. *)
Definition created (cwd : Path) : state :=
  {| enabled := fun w => if widget_eqb w cancel_btn then false else true;
     visible := fun w => if widget_eqb w adv_group then false else true;
     effect := fun w =>
       if existsb (widget_eqb w) (all_controls ++ [start_btn; cancel_btn])
       then Some full else None;
     fields :=
       {| UI.url_edit := ""; UI.mode_combo := "Video";
          UI.video_quality_combo := "Best"; UI.video_container_combo := "mp4";
          UI.audio_format_combo := "mp3"; UI.audio_bitrate_combo := "128";
          UI.sample_rate_combo := ""; UI.channels_combo := "auto";
          UI.mp3_norm_check := false; UI.flac_slider := 5;
          UI.ogg_combo := "q0"; UI.m4a_combo := "LC"; UI.out_dir := cwd;
          UI.allow_playlist := true; UI.force_single := false;
          UI.template_edit := Worker.DEFAULT_TEMPLATE; UI.ffmpeg_args := "";
          UI.meta_artist := ""; UI.meta_album := ""; UI.meta_title := "" |};
     worker := None;
     log_view := [] |}.

Definition init_ui (cwd : Path) : state :=
  on_audio_format_changed (toggle_mode (created cwd)).

(** [start_download]: nothing changes when the inputs are refused; else the
    log is cleared, the controls are switched to running, the worker is
    created from the form and the summary is logged. *)
Definition start_download (st : state) : state :=
  match UI.validate_inputs (fields st) with
  | inl _ => st
  | inr f' =>
      let st := set_fields f' st in
      let st := clear_log st in
      let st := toggle_controls true st in
      let cfg := UI.build_config (fields st) in
      let st := set_worker (Some (cfg, false)) st in
      fold_left (fun st e => match e with
                             | UI.append_log text => append_log text st
                             | _ => st
                             end)
                (UI.summary cfg) st
  end.

(** [cancel_download], with [DownloadWorker.stop]. *)
Definition cancel_download (st : state) : state :=
  match worker st with
  | Some (cfg, _) =>
      append_log "Cancel requested..." (set_worker (Some (cfg, true)) st)
  | None => st
  end.

Definition on_finished (success : bool) (msg : string) (st : state) : state :=
  let st := append_log msg st in
  let st := toggle_controls false st in
  let st := set_worker None st in
  if success then append_log "Download finished successfully." st
  else append_log ("Error: " ++ msg) st.

(** The close handler of [main]: whether the window closes, given the answer
    to the question (asked only when no worker exists). *)
Definition close_event (st : state) (answer_yes : bool) : bool :=
  match worker st with
  | Some _ => false
  | None => answer_yes
  end.

(** What can happen to the window.  A click reaches its handler only when
    the button is enabled, a change of the mode or of the audio format only
    when its list is enabled, and [finished] only comes from the worker. *)
Inductive step : state -> state -> Prop :=
| step_edit (st : state) (f : UI.form Path) :
    UI.mode_combo f = UI.mode_combo (fields st) ->
    UI.audio_format_combo f = UI.audio_format_combo (fields st) ->
    step st (set_fields f st)
| step_mode (st : state) (f : UI.form Path) :
    enabled st mode_combo = true ->
    UI.audio_format_combo f = UI.audio_format_combo (fields st) ->
    step st (toggle_mode (set_fields f st))
| step_format (st : state) (f : UI.form Path) :
    enabled st audio_format_combo = true ->
    UI.mode_combo f = UI.mode_combo (fields st) ->
    step st (on_audio_format_changed (set_fields f st))
| step_start (st : state) :
    enabled st start_btn = true ->
    step st (start_download st)
| step_cancel (st : state) :
    enabled st cancel_btn = true ->
    step st (cancel_download st)
| step_log (st : state) (line : string) :
    worker st <> None ->
    step st (append_log line st)
| step_finished (st : state) (success : bool) (msg : string) :
    worker st <> None ->
    step st (on_finished success msg st).

(** The states that the window can reach after [init_ui]. *)
Inductive reachable (cwd : Path) : state -> Prop :=
| reachable_init : reachable cwd (init_ui cwd)
| reachable_step (st st' : state) :
    reachable cwd st -> step st st' -> reachable cwd st'.

(** What the handlers keep true of the window between them. *)
Definition consistent (st : state) : Prop :=
  let fmt := PyStr.lower (UI.audio_format_combo (fields st)) in
  enabled st start_btn
  = match worker st with None => true | Some _ => false end
  /\ enabled st cancel_btn = negb (enabled st start_btn)
  /\ effect st start_btn = Some (shade (enabled st start_btn))
  /\ effect st cancel_btn = Some (shade (enabled st cancel_btn))
  /\ (worker st <> None -> forall w, In w inputs -> enabled st w = false)
  /\ (visible st adv_group = true ->
      PyStr.lower (UI.mode_combo (fields st)) = "audio")
  /\ visible st mp3_norm_check = (fmt =? "mp3")%string
  /\ visible st flac_slider = (fmt =? "flac")%string
  /\ visible st ogg_combo = PyStr.mem fmt ["ogg"; "opus"]
  /\ visible st m4a_combo = (fmt =? "m4a")%string.

End WithPath.

Arguments enabled {Path}.
Arguments visible {Path}.
Arguments effect {Path}.
Arguments fields {Path}.
Arguments worker {Path}.
Arguments log_view {Path}.
Arguments setEnabled {Path}.
Arguments setVisible {Path}.
Arguments set_fields {Path}.
Arguments set_worker {Path}.
Arguments append_log {Path}.
Arguments clear_log {Path}.
Arguments set_opacity {Path}.
Arguments update_button_opacity {Path}.
Arguments toggle_mode {Path}.
Arguments on_audio_format_changed {Path}.
Arguments toggle_controls {Path}.
Arguments created {Path}.
Arguments init_ui {Path}.
Arguments start_download {Path}.
Arguments cancel_download {Path}.
Arguments on_finished {Path}.
Arguments close_event {Path}.
Arguments step {Path}.
Arguments reachable {Path}.
Arguments consistent {Path}.

End Window.

(** ** A window at work *)

Module Demo.

Definition cwd : string := "/home/user".

(** The form after a web address has been typed. *)
Definition web_form : UI.form string :=
  {| UI.url_edit := "https://example.org/watch?v=1";
     UI.mode_combo := "Video";
     UI.video_quality_combo := "Best";
     UI.video_container_combo := "mp4";
     UI.audio_format_combo := "mp3";
     UI.audio_bitrate_combo := "128";
     UI.sample_rate_combo := "";
     UI.channels_combo := "auto";
     UI.mp3_norm_check := false;
     UI.flac_slider := 5;
     UI.ogg_combo := "q0";
     UI.m4a_combo := "LC";
     UI.out_dir := cwd;
     UI.allow_playlist := true;
     UI.force_single := false;
     UI.template_edit := "%(title)s.%(ext)s";
     UI.ffmpeg_args := "";
     UI.meta_artist := "";
     UI.meta_album := "";
     UI.meta_title := "" |}.

(** The window after the address is typed, and after Download is clicked. *)
Definition typed : Window.state string :=
  Window.set_fields web_form (Window.init_ui cwd).

Definition running : Window.state string := Window.start_download typed.

(** The same form in mode "Audio" with the format "ogg", and the window after
    these two choices. *)
Definition ogg_form : UI.form string :=
  {| UI.url_edit := "";
     UI.mode_combo := "Audio";
     UI.video_quality_combo := "Best";
     UI.video_container_combo := "mp4";
     UI.audio_format_combo := "ogg";
     UI.audio_bitrate_combo := "128";
     UI.sample_rate_combo := "";
     UI.channels_combo := "auto";
     UI.mp3_norm_check := false;
     UI.flac_slider := 5;
     UI.ogg_combo := "q0";
     UI.m4a_combo := "LC";
     UI.out_dir := cwd;
     UI.allow_playlist := true;
     UI.force_single := false;
     UI.template_edit := "%(title)s.%(ext)s";
     UI.ffmpeg_args := "";
     UI.meta_artist := "";
     UI.meta_album := "";
     UI.meta_title := "" |}.

Definition audio_form : UI.form string :=
  {| UI.url_edit := "";
     UI.mode_combo := "Audio";
     UI.video_quality_combo := "Best";
     UI.video_container_combo := "mp4";
     UI.audio_format_combo := "mp3";
     UI.audio_bitrate_combo := "128";
     UI.sample_rate_combo := "";
     UI.channels_combo := "auto";
     UI.mp3_norm_check := false;
     UI.flac_slider := 5;
     UI.ogg_combo := "q0";
     UI.m4a_combo := "LC";
     UI.out_dir := cwd;
     UI.allow_playlist := true;
     UI.force_single := false;
     UI.template_edit := "%(title)s.%(ext)s";
     UI.ffmpeg_args := "";
     UI.meta_artist := "";
     UI.meta_album := "";
     UI.meta_title := "" |}.

Definition in_audio_mode : Window.state string :=
  Window.toggle_mode (Window.set_fields audio_form (Window.init_ui cwd)).

Definition with_ogg : Window.state string :=
  Window.on_audio_format_changed (Window.set_fields ogg_form in_audio_mode).

End Demo.

(** ** Calls that do not return *)

(** [Worker.build_cmd] and [Worker.run] give what the two methods do when every
    call in them returns.  Two things are left out there: [str] of the
    compression level raises ValueError for an integer of more than
    [max_str_digits] digits, and the reads of [proc.stdout] and [proc.wait()]
    block while the process neither closes its output nor exits.  The
    definitions below follow the same source lines with both written out. *)

Module Raising.

(** CPython's default limit on the number of decimal digits of an integer
    that is turned into text ([sys.int_info.default_max_str_digits]). *)
Definition max_str_digits : Z := 4300.

(** [str(n)] for an integer: [None] stands for the ValueError raised when [n]
    has more than [max_str_digits] digits, the sign not counted. *)
Definition str (n : Z) : option string :=
  if 10 ^ max_str_digits <=? Z.abs n then None else Some (PyStr.str_of_int n).

(** An exception leaves the enclosing function at once. *)
Definition bind {A B : Type} (x : option A) (k : A -> option B) : option B :=
  match x with
  | Some a => k a
  | None => None
  end.

Notation "x <- e ;; k" := (bind e (fun x => k))
  (at level 61, e at next level, right associativity).

(** How a call of [run] ends: it returns, an exception leaves it (nothing
    catches it in [run]), or it stays blocked in a read or in [wait]. *)
Inductive completion : Type :=
| Returns
| Raises
| Blocks.

(** What the process does once it has written the lines of [Worker.stdout]:
    whether it closes its output, and whether it exits. *)
Record child : Type := {
  closes_output : bool;
  exits : bool
}.

Section WithPath.

Variable Path : Type.
Variable path_str : Path -> string -> string.
Variable sys_executable : string.

Variable cfg : Worker.DownloadConfig Path.

(** Lines 75 to 105 of [build_cmd], with the conversion of line 88. *)
Definition build_ff_args : option (list string) :=
  let ff_args := [] in
  let ff_args :=
    if PyStr.truthy (PyStr.strip (Worker.meta_artist cfg))
    then ff_args ++ ["-metadata";
                     ("artist=" ++ PyStr.strip (Worker.meta_artist cfg))%string]
    else ff_args in
  let ff_args :=
    if PyStr.truthy (PyStr.strip (Worker.meta_album cfg))
    then ff_args ++ ["-metadata";
                     ("album=" ++ PyStr.strip (Worker.meta_album cfg))%string]
    else ff_args in
  let ff_args :=
    if PyStr.truthy (PyStr.strip (Worker.meta_title_override cfg))
    then ff_args ++ ["-metadata";
                     ("title=" ++ PyStr.strip (Worker.meta_title_override cfg))%string]
    else ff_args in
  ff_args <-
    (if (Worker.mode cfg =? "audio")%string then
       let fmt := PyStr.lower (Worker.audio_format cfg) in
       let ff_args :=
         if (fmt =? "mp3")%string && Worker.mp3_normalize cfg
         then ff_args ++ ["-filter:a"; "loudnorm"] else ff_args in
       ff_args <-
         (if (fmt =? "flac")%string then
            level <- str (Worker.flac_comp_level cfg) ;;
            Some (ff_args ++ ["-compression_level"; level])
          else Some ff_args) ;;
       let ff_args :=
         if PyStr.mem fmt ["ogg"; "opus"] then
           let q := PyStr.lower (Worker.ogg_quality cfg) in
           if PyStr.startswith q "q" then ff_args ++ ["-q:a"; PyStr.tail q]
           else ff_args
         else ff_args in
       let ff_args :=
         if (fmt =? "m4a")%string then
           let profile := PyStr.upper (Worker.aac_profile cfg) in
           if (profile =? "LC")%string then ff_args ++ ["-profile:a"; "aac_low"]
           else if (profile =? "HE")%string then ff_args ++ ["-profile:a"; "aac_he"]
           else ff_args
         else ff_args in
       let ff_args :=
         if PyStr.truthy (Worker.sample_rate cfg)
            && PyStr.isdigit (Worker.sample_rate cfg)
         then ff_args ++ ["-ar"; Worker.sample_rate cfg] else ff_args in
       let ff_args :=
         if PyStr.truthy (Worker.channels cfg)
            && PyStr.mem (Worker.channels cfg) ["mono"; "stereo"]
         then ff_args ++ ["-ac"; if (Worker.channels cfg =? "mono")%string
                                 then "1" else "2"]
         else ff_args in
       Some ff_args
     else Some ff_args) ;;
  let ff_args :=
    if PyStr.truthy (PyStr.strip (Worker.ffmpeg_extra cfg))
    then ff_args ++ [PyStr.strip (Worker.ffmpeg_extra cfg)] else ff_args in
  Some ff_args.

(** [build_cmd]: the command it returns, or [None] when line 88 raises. *)
Definition build_cmd : option (list string) :=
  let cmd := [sys_executable; "-m"; "yt_dlp"; "--newline"] in
  let cmd :=
    cmd ++ [if Worker.allow_playlist cfg && negb (Worker.force_single cfg)
            then "--yes-playlist" else "--no-playlist"] in
  let out_template :=
    if PyStr.truthy (PyStr.strip (Worker.meta_title_override cfg))
    then path_str (Worker.out_dir cfg)
           (PyStr.strip (Worker.meta_title_override cfg) ++ ".%(ext)s")
    else path_str (Worker.out_dir cfg)
           (if PyStr.truthy (Worker.name_template cfg)
            then Worker.name_template cfg else Worker.DEFAULT_TEMPLATE) in
  let cmd := cmd ++ ["-o"; out_template] in
  ff_args <- build_ff_args ;;
  let cmd :=
    match ff_args with
    | [] => cmd
    | _ :: _ => cmd ++ ["--postprocessor-args"; PyStr.join " " ff_args]
    end in
  let cmd :=
    if (Worker.mode cfg =? "audio")%string then
      cmd ++ ["-f"; "bestaudio/best";
              "--extract-audio";
              "--audio-format"; PyStr.lower (Worker.audio_format cfg);
              "--audio-quality"; (Worker.audio_bitrate cfg ++ "k")%string]
    else
      let cont := PyStr.lower (Worker.video_container cfg) in
      let qual := Worker.video_quality cfg in
      if (qual =? "Best")%string then
        cmd ++ ["-f"; "bestvideo+bestaudio/best"; "--merge-output-format"; cont]
      else
        let h := PyStr.dict_get Worker.QUALITY_TO_HEIGHT qual in
        let selector :=
          match h with
          | Some (String _ _ as h) =>
              ("bestvideo[height<=" ++ h ++ "]+bestaudio/best[height<=" ++ h ++ "]")%string
          | _ => "bestvideo+bestaudio/best"
          end in
        cmd ++ ["-f"; selector; "--merge-output-format"; cont] in
  Some (cmd ++ [PyStr.strip (Worker.url cfg)]).

Variable w : Worker.world.
Variable c : child.

(** [run]: the events up to the point where the call returns, raises or
    blocks.  Line 143 calls [build_cmd] outside every [try]; the loop of
    line 156 waits for a line or for the end of the output, and line 177
    for the exit of the process. *)
Definition run : list Worker.event * completion :=
  if negb (PyStr.truthy (PyStr.strip (Worker.url cfg))) then
    ([Worker.finished false "URL is required."], Returns)
  else
    match Worker.mkdir_error w with
    | Some e =>
        ([Worker.Mkdir;
          Worker.finished false ("Cannot create output folder: " ++ e)], Returns)
    | None =>
        match build_cmd with
        | None => ([Worker.Mkdir], Raises)
        | Some cmd =>
            let before :=
              [Worker.Mkdir; Worker.log_line "Command:";
               Worker.log_line (PyStr.join " " (map Worker.quote cmd));
               Worker.Popen cmd] in
            match Worker.popen_error w with
            | Some e =>
                (before ++ [Worker.finished false ("Failed to start yt-dlp: " ++ e)],
                 Returns)
            | None =>
                let '(evs, eof) := Worker.read_loop (Worker.stdout w) in
                if eof then
                  if closes_output c then
                    if exits c then
                      (before ++ evs
                       ++ Worker.Wait :: Worker.after_loop (Worker.returncode w),
                       Returns)
                    else (before ++ evs ++ [Worker.Wait], Blocks)
                  else (before ++ evs, Blocks)
                else (before ++ evs, Returns)
            end
        end
    end.

End WithPath.

Arguments build_ff_args {Path}.
Arguments build_cmd {Path}.
Arguments run {Path}.

(** A process that closes its output and exits. *)
Definition ends : child := {| closes_output := true; exits := true |}.

(** The transcoder arguments without the quality of ogg and opus, and without
    the sample rate. *)
Definition ff_args_without_quality {Path} (cfg : Worker.DownloadConfig Path)
  : list string :=
  Spec.metadata_tokens "artist" (Worker.meta_artist cfg)
  ++ Spec.metadata_tokens "album" (Worker.meta_album cfg)
  ++ Spec.metadata_tokens "title" (Worker.meta_title_override cfg)
  ++ (if (Worker.mode cfg =? "audio")%string
      then Spec.loudness_tokens cfg ++ Spec.compression_tokens cfg
           ++ Spec.profile_tokens cfg ++ Spec.sample_rate_tokens cfg
           ++ Spec.channel_tokens cfg
      else [])
  ++ Spec.extra_tokens cfg.

Definition ff_args_without_sample_rate {Path} (cfg : Worker.DownloadConfig Path)
  : list string :=
  Spec.metadata_tokens "artist" (Worker.meta_artist cfg)
  ++ Spec.metadata_tokens "album" (Worker.meta_album cfg)
  ++ Spec.metadata_tokens "title" (Worker.meta_title_override cfg)
  ++ (if (Worker.mode cfg =? "audio")%string
      then Spec.loudness_tokens cfg ++ Spec.compression_tokens cfg
           ++ Spec.quality_tokens cfg ++ Spec.profile_tokens cfg
           ++ Spec.channel_tokens cfg
      else [])
  ++ Spec.extra_tokens cfg.

End Raising.

(** ** Corner cases *)

Module Corner.

(** An audio request for flac whose compression level has 4301 digits. *)
Definition long_level : Z := 10 ^ 4300.

Definition long_level_cfg : Worker.DownloadConfig string :=
  {| Worker.url := "https://example.org/watch?v=3";
     Worker.mode := "audio";
     Worker.video_quality := "Best";
     Worker.video_container := "mp4";
     Worker.audio_format := "flac";
     Worker.audio_bitrate := "192";
     Worker.sample_rate := "";
     Worker.channels := "auto";
     Worker.mp3_normalize := false;
     Worker.flac_comp_level := long_level;
     Worker.ogg_quality := "q5";
     Worker.aac_profile := "LC";
     Worker.out_dir := "/home/user/Music";
     Worker.allow_playlist := false;
     Worker.force_single := true;
     Worker.name_template := "%(title)s.%(ext)s";
     Worker.ffmpeg_extra := "";
     Worker.meta_artist := "";
     Worker.meta_album := "";
     Worker.meta_title_override := "" |}.

(** A world in which the folder is made and the process starts, prints one
    line and ends. *)
Definition quiet_world : Worker.world :=
  {| Worker.mkdir_error := None;
     Worker.popen_error := None;
     Worker.stdout := [Worker.Line false "[download] 100% of 10MiB"];
     Worker.returncode := 0 |}.

(** A process that prints its lines and then neither closes its output nor
    exits. *)
Definition hangs : Raising.child :=
  {| Raising.closes_output := false; Raising.exits := false |}.

(** A form with a web address whose template field holds white space only
    and whose title field is empty. *)
Definition untitled_form : UI.form string :=
  {| UI.url_edit := "https://example.org/watch?v=1";
     UI.mode_combo := "Video";
     UI.video_quality_combo := "Best";
     UI.video_container_combo := "mp4";
     UI.audio_format_combo := "mp3";
     UI.audio_bitrate_combo := "128";
     UI.sample_rate_combo := "";
     UI.channels_combo := "auto";
     UI.mp3_norm_check := false;
     UI.flac_slider := 5;
     UI.ogg_combo := "q0";
     UI.m4a_combo := "LC";
     UI.out_dir := "/home/user";
     UI.allow_playlist := true;
     UI.force_single := false;
     UI.template_edit := "  ";
     UI.ffmpeg_args := "";
     UI.meta_artist := "";
     UI.meta_album := "";
     UI.meta_title := "" |}.

End Corner.

(** * Properties *)

(** ** Lists built by conditional appends *)

Lemma if_app_same {A} (b : bool) (l x : list A) :
  (if b then l ++ x else l) = l ++ (if b then x else []).
Proof. destruct b; [reflexivity | now rewrite app_nil_r]. Qed.

Lemma if_app_both {A} (b : bool) (l x y : list A) :
  (if b then l ++ x else l ++ y) = l ++ (if b then x else y).
Proof. now destruct b. Qed.

(** ** Strings *)

Lemma append_assoc (a b c : string) : ((a ++ b) ++ c = a ++ b ++ c)%string.
Proof. induction a as [|x a IH]; simpl; [reflexivity | now rewrite IH]. Qed.

Lemma append_nil_r (a : string) : (a ++ "")%string = a.
Proof. induction a as [|x a IH]; simpl; [reflexivity | now rewrite IH]. Qed.

Lemma head_of_app {A} (P : A -> Prop) (a b : list A) :
  (forall y s, a = y :: s -> P y) ->
  (forall y s, b = y :: s -> P y) ->
  forall x r, a ++ b = x :: r -> P x.
Proof.
  intros Ha Hb x r H. destruct a as [|y s]; simpl in H.
  - eauto.
  - injection H as -> _. eauto.
Qed.

Ltac push_ifs :=
  repeat first
    [ rewrite if_app_same
    | rewrite if_app_both
    | rewrite <- app_assoc ].

Section BuildCmd.

Variable Path : Type.
Variable path_str : Path -> string -> string.
Variable sys_executable : string.

Abbreviation build_cmd := (Worker.build_cmd path_str sys_executable).

Implicit Type cfg : Worker.DownloadConfig Path.

Lemma isdigit_truthy (s : string) :
  PyStr.truthy s && PyStr.isdigit s = PyStr.isdigit s.
Proof. unfold PyStr.isdigit. now destruct (PyStr.truthy s). Qed.

Lemma channel_tokens_eq cfg :
  (if PyStr.truthy (Worker.channels cfg)
      && PyStr.mem (Worker.channels cfg) ["mono"; "stereo"]
   then ["-ac"; if (Worker.channels cfg =? "mono")%string then "1" else "2"]
   else []) = Spec.channel_tokens cfg.
Proof.
  unfold Spec.channel_tokens, PyStr.mem. simpl existsb.
  destruct (Worker.channels cfg =? "mono")%string eqn:Hm.
  - apply String.eqb_eq in Hm. now rewrite Hm.
  - destruct (Worker.channels cfg =? "stereo")%string eqn:Hs.
    + apply String.eqb_eq in Hs. now rewrite Hs.
    + simpl. now rewrite andb_false_r.
Qed.

Lemma build_ff_args_ordered cfg :
  Worker.build_ff_args cfg = Spec.ordered_ff_args cfg.
Proof.
  unfold Worker.build_ff_args, Spec.ordered_ff_args.
  cbv zeta.
  push_ifs.
  rewrite channel_tokens_eq, isdigit_truthy.
  unfold Spec.audio_tokens, Spec.loudness_tokens, Spec.compression_tokens,
    Spec.quality_tokens, Spec.profile_tokens, Spec.sample_rate_tokens,
    Spec.extra_tokens, Spec.metadata_tokens, Spec.fmt, PyStr.mem.
  simpl existsb. rewrite orb_false_r.
  simpl app at 1.
  repeat f_equal.
  now destruct (_ || _).
Qed.

Lemma ordered_ff_args_head cfg (x : string) (r : list string) :
  Spec.ordered_ff_args cfg = x :: r -> PyStr.truthy x = true.
Proof.
  unfold Spec.ordered_ff_args, Spec.audio_tokens, Spec.loudness_tokens,
    Spec.compression_tokens, Spec.quality_tokens, Spec.profile_tokens,
    Spec.sample_rate_tokens, Spec.channel_tokens, Spec.extra_tokens,
    Spec.metadata_tokens.
  revert x r.
  repeat (apply head_of_app;
          [ try (intros y s;
                 repeat match goal with
                   | |- context [if ?b then _ else _] => destruct b eqn:?
                   end;
                 intros E; inversion E; subst; solve [reflexivity | assumption])
          | ]).
  intros y s.
  destruct (PyStr.truthy (PyStr.strip (Worker.ffmpeg_extra cfg))) eqn:E;
    intros H; inversion H; subst; assumption.
Qed.

Lemma join_head_truthy (sep x : string) (r : list string) :
  PyStr.truthy x = true -> PyStr.truthy (PyStr.join sep (x :: r)) = true.
Proof.
  destruct x as [|c x]; [discriminate|]. intros _.
  destruct r; reflexivity.
Qed.

(** The joined transcoder string is empty exactly when there is no token. *)
Lemma joined_ff_args_empty cfg :
  PyStr.join " " (Spec.ordered_ff_args cfg) = EmptyString
  <-> Spec.ordered_ff_args cfg = [].
Proof.
  split.
  - destruct (Spec.ordered_ff_args cfg) as [|x r] eqn:E; [reflexivity|].
    intros H. pose proof (ordered_ff_args_head cfg x r E) as Hx.
    apply (join_head_truthy " " x r) in Hx. rewrite H in Hx. discriminate.
  - intros ->. reflexivity.
Qed.

Lemma postprocessor_part_eq cfg :
  match Worker.build_ff_args cfg with
  | [] => []
  | _ :: _ => ["--postprocessor-args"; PyStr.join " " (Worker.build_ff_args cfg)]
  end = Spec.postprocessor_part cfg.
Proof.
  unfold Spec.postprocessor_part. rewrite build_ff_args_ordered.
  destruct (Spec.ordered_ff_args cfg) as [|x r] eqn:E; [reflexivity|].
  pose proof (join_head_truthy " " x r (ordered_ff_args_head cfg x r E)) as H.
  destruct (PyStr.join " " (x :: r)); [discriminate | reflexivity].
Qed.

(** The heights of the table are not empty, and "Best" is not a tier. *)
Lemma tier_height (q h : string) :
  PyStr.dict_get Worker.QUALITY_TO_HEIGHT q = Some h ->
  PyStr.truthy h = true /\ (q =? "Best")%string = false.
Proof.
  unfold Worker.QUALITY_TO_HEIGHT, PyStr.dict_get.
  repeat match goal with
    | |- context [String.eqb q ?k] =>
        let E := fresh "E" in
        destruct (String.eqb q k) eqn:E;
        [ apply String.eqb_eq in E; subst q; intros H; inversion H; subst;
          split; reflexivity | ]
    end.
  discriminate.
Qed.

Lemma selector_eq cfg :
  (Worker.video_quality cfg =? "Best")%string = false ->
  match PyStr.dict_get Worker.QUALITY_TO_HEIGHT (Worker.video_quality cfg) with
  | Some (String _ _ as h) =>
      ("bestvideo[height<=" ++ h ++ "]+bestaudio/best[height<=" ++ h ++ "]")%string
  | _ => "bestvideo+bestaudio/best"
  end = Spec.selector cfg.
Proof.
  intros _. unfold Spec.selector.
  destruct (PyStr.dict_get _ _) as [h|] eqn:E; [|reflexivity].
  destruct (tier_height _ _ E) as [Hh _].
  destruct h; [discriminate|].
  unfold Spec.capped. rewrite !append_assoc. reflexivity.
Qed.

Lemma selector_best cfg :
  (Worker.video_quality cfg =? "Best")%string = true ->
  Spec.selector cfg = "bestvideo+bestaudio/best".
Proof.
  intros H. apply String.eqb_eq in H. unfold Spec.selector. now rewrite H.
Qed.

Lemma playlist_flag_eq cfg :
  (if Worker.allow_playlist cfg && negb (Worker.force_single cfg)
   then "--yes-playlist" else "--no-playlist") = Spec.playlist_flag cfg.
Proof.
  unfold Spec.playlist_flag.
  now destruct (Worker.allow_playlist cfg), (Worker.force_single cfg).
Qed.

Lemma out_template_eq cfg :
  (if PyStr.truthy (PyStr.strip (Worker.meta_title_override cfg))
   then path_str (Worker.out_dir cfg)
          (PyStr.strip (Worker.meta_title_override cfg) ++ ".%(ext)s")
   else path_str (Worker.out_dir cfg)
          (if PyStr.truthy (Worker.name_template cfg)
           then Worker.name_template cfg else Worker.DEFAULT_TEMPLATE))
  = Spec.out_template path_str cfg.
Proof.
  unfold Spec.out_template.
  destruct (PyStr.strip (Worker.meta_title_override cfg)); simpl; [|reflexivity].
  now destruct (Worker.name_template cfg).
Qed.

(** The command, part by part. *)
Lemma build_cmd_shape cfg :
  build_cmd cfg =
  [sys_executable; "-m"; "yt_dlp"; "--newline"; Spec.playlist_flag cfg;
   "-o"; Spec.out_template path_str cfg]
  ++ Spec.postprocessor_part cfg
  ++ Spec.format_part cfg
  ++ [PyStr.strip (Worker.url cfg)].
Proof.
  unfold Worker.build_cmd. cbv zeta.
  rewrite playlist_flag_eq, out_template_eq.
  rewrite <- postprocessor_part_eq.
  unfold Spec.format_part.
  destruct (Worker.build_ff_args cfg) as [|t ts];
    destruct (Worker.mode cfg =? "audio")%string; try reflexivity;
    destruct (Worker.video_quality cfg =? "Best")%string eqn:Hq;
    try (rewrite (selector_best cfg Hq); reflexivity);
    rewrite (selector_eq cfg Hq); reflexivity.
Qed.

(** ** The command built by [build_cmd] *)

(** C1. In video mode (any mode but "audio"), for a quality that is a tier of
    QUALITY_TO_HEIGHT with height [h], the command ends with "-f", the
    selector whose two operands of "+" both carry [[height<=h]],
    "--merge-output-format", the container in lower case and the URL; for the
    quality "Best" the selector is "bestvideo+bestaudio/best", with no height
    constraint.  The containers of VIDEO_CONTAINERS are in lower case
    already. *)
Theorem video_format_selection cfg :
  Worker.mode cfg <> "audio" ->
  (forall h,
      PyStr.dict_get Worker.QUALITY_TO_HEIGHT (Worker.video_quality cfg) = Some h ->
      exists pre,
        build_cmd cfg =
        pre ++ ["-f";
                (("bestvideo" ++ "[height<=" ++ h ++ "]") ++ "+"
                 ++ ("bestaudio/best" ++ "[height<=" ++ h ++ "]"))%string;
                "--merge-output-format";
                PyStr.lower (Worker.video_container cfg);
                PyStr.strip (Worker.url cfg)])
  /\ (Worker.video_quality cfg = "Best" ->
      exists pre,
        build_cmd cfg =
        pre ++ ["-f"; "bestvideo+bestaudio/best";
                "--merge-output-format";
                PyStr.lower (Worker.video_container cfg);
                PyStr.strip (Worker.url cfg)])
  /\ (In (Worker.video_container cfg) Worker.VIDEO_CONTAINERS ->
      PyStr.lower (Worker.video_container cfg) = Worker.video_container cfg).
Proof.
  intros Hmode.
  assert (Hm : (Worker.mode cfg =? "audio")%string = false)
    by now apply String.eqb_neq.
  pose proof (build_cmd_shape cfg) as Hshape.
  unfold Spec.format_part in Hshape. rewrite Hm in Hshape.
  repeat split.
  - intros h Hh.
    eexists. rewrite Hshape, !app_assoc, <- app_assoc. f_equal.
    unfold Spec.selector. rewrite Hh. reflexivity.
  - intros Hq.
    eexists. rewrite Hshape, !app_assoc, <- app_assoc. f_equal.
    unfold Spec.selector. rewrite Hq. reflexivity.
  - intros [H | [H | []]]; rewrite <- H; reflexivity.
Qed.

(** C3. Two configurations with the same mode that agree on the fields used
    in both modes and on the fields of the group of that mode (the audio
    fields in mode "audio", the video fields in any other mode) yield the
    same command, whatever the fields of the other group are. *)
Theorem inactive_group_ignored cfg cfg' :
  Worker.mode cfg = Worker.mode cfg' ->
  Spec.same_common cfg cfg' ->
  (if (Worker.mode cfg =? "audio")%string
   then Spec.same_audio cfg cfg' else Spec.same_video cfg cfg') ->
  build_cmd cfg = build_cmd cfg'.
Proof.
  intros Hmode (Hurl & Hdir & Hallow & Hforce & Hname & Hextra & Hart & Halb & Htitle)
    Hgroup.
  rewrite !build_cmd_shape.
  assert (Hff : Spec.ordered_ff_args cfg = Spec.ordered_ff_args cfg').
  { unfold Spec.ordered_ff_args, Spec.extra_tokens.
    rewrite <- Hmode, Hart, Halb, Htitle, Hextra.
    destruct (Worker.mode cfg =? "audio")%string; [|reflexivity].
    destruct Hgroup as (Hfmt & _ & Hrate & Hch & Hnorm & Hlevel & Hogg & Haac).
    unfold Spec.audio_tokens, Spec.loudness_tokens, Spec.compression_tokens,
      Spec.quality_tokens, Spec.profile_tokens, Spec.sample_rate_tokens,
      Spec.channel_tokens, Spec.fmt.
    now rewrite Hfmt, Hrate, Hch, Hnorm, Hlevel, Hogg, Haac. }
  assert (Hfp : Spec.format_part cfg = Spec.format_part cfg').
  { unfold Spec.format_part, Spec.selector. rewrite <- Hmode.
    destruct (Worker.mode cfg =? "audio")%string.
    - destruct Hgroup as (Hfmt & Hrate & _). now rewrite Hfmt, Hrate.
    - destruct Hgroup as (Hq & Hc). now rewrite Hq, Hc. }
  unfold Spec.postprocessor_part, Spec.playlist_flag, Spec.out_template.
  now rewrite Hff, Hfp, Hurl, Hdir, Hallow, Hforce, Hname, Htitle.
Qed.

(** C6. The transcoder arguments are, in this order: the artist, album and
    title metadata (each when its trimmed value is not empty), in mode
    "audio" the loudness filter (mp3 with normalisation), the compression
    level (flac), the quality without its leading "q" (ogg, opus), the
    profile aac_low for LC and aac_he for HE (m4a), the sample rate when it
    consists of digits and the channel count 1 for mono and 2 for stereo,
    then the trimmed extra arguments as one token when not empty.  Their
    string joined by spaces follows "--postprocessor-args" at position 7 of
    the command exactly when it is not empty. *)
Theorem transcoder_arguments_order cfg :
  Worker.build_ff_args cfg = Spec.ordered_ff_args cfg
  /\ (PyStr.join " " (Worker.build_ff_args cfg) <> EmptyString
      <-> nth_error (build_cmd cfg) 7 = Some "--postprocessor-args")
  /\ (PyStr.join " " (Worker.build_ff_args cfg) <> EmptyString
      -> nth_error (build_cmd cfg) 8
         = Some (PyStr.join " " (Worker.build_ff_args cfg))).
Proof.
  split; [apply build_ff_args_ordered|].
  rewrite build_cmd_shape, build_ff_args_ordered.
  unfold Spec.postprocessor_part, Spec.format_part.
  destruct (PyStr.join " " (Spec.ordered_ff_args cfg)) as [|c j] eqn:E.
  - split; [split|]; intros H; try congruence.
    simpl in H. destruct (Worker.mode cfg =? "audio")%string; discriminate.
  - split; [split|]; intros; try reflexivity. discriminate.
Qed.

(** Positions 5 and 6 of the command are "-o" and the output template.  For
    a file name template without white space around it, as [build_config]
    passes it, the template is the output directory joined with the trimmed
    title override, a dot and the extension placeholder when the override is
    not blank, else with the file name template when that one is not blank,
    else with the default pattern. *)
Lemma output_template_when_trimmed cfg :
  PyStr.strip (Worker.name_template cfg) = Worker.name_template cfg ->
  nth_error (build_cmd cfg) 5 = Some "-o"
  /\ nth_error (build_cmd cfg) 6
     = Some (path_str (Worker.out_dir cfg)
               match PyStr.strip (Worker.meta_title_override cfg) with
               | String _ _ as title => (title ++ "." ++ "%(ext)s")%string
               | EmptyString =>
                   match PyStr.strip (Worker.name_template cfg) with
                   | String _ _ as template => template
                   | EmptyString => Worker.DEFAULT_TEMPLATE
                   end
               end).
Proof.
  intros Ht. rewrite build_cmd_shape. split; [reflexivity|].
  cbn [nth_error app]. unfold Spec.out_template. rewrite Ht.
  destruct (PyStr.strip (Worker.meta_title_override cfg)); [|reflexivity].
  now destruct (Worker.name_template cfg).
Qed.

(** C8. Position 4 of the command, after the interpreter, "-m", "yt_dlp" and
    "--newline", is the playlist flag: "--yes-playlist" exactly when
    allow_playlist holds and force_single does not, "--no-playlist" in every
    other case. *)
Theorem playlist_flag_choice cfg :
  exists flag rest,
    build_cmd cfg = [sys_executable; "-m"; "yt_dlp"; "--newline"; flag] ++ rest
    /\ (flag = "--yes-playlist"
        <-> Worker.allow_playlist cfg = true /\ Worker.force_single cfg = false)
    /\ (flag = "--no-playlist"
        <-> ~ (Worker.allow_playlist cfg = true /\ Worker.force_single cfg = false)).
Proof.
  rewrite build_cmd_shape. simpl app. do 2 eexists. split; [reflexivity|].
  unfold Spec.playlist_flag.
  destruct (Worker.allow_playlist cfg), (Worker.force_single cfg);
    intuition (try discriminate; try congruence).
Qed.

End BuildCmd.

(** ** Runs of the worker *)

Lemma read_loop_line (text : string) (rest : list Worker.read) :
  Worker.read_loop (Worker.Line false text :: rest) =
  (Worker.on_line text ++ fst (Worker.read_loop rest),
   snd (Worker.read_loop rest)).
Proof. cbn [Worker.read_loop]. now destruct (Worker.read_loop rest). Qed.

Lemma line_events_cons (text : string) (texts : list string) :
  Spec.line_events (text :: texts) = Worker.on_line text ++ Spec.line_events texts.
Proof. reflexivity. Qed.

Lemma uncancelled_cons (text : string) (texts : list string) :
  Spec.uncancelled (text :: texts)
  = Worker.Line false text :: Spec.uncancelled texts.
Proof. reflexivity. Qed.

Lemma read_loop_uncancelled (texts : list string) (rest : list Worker.read) :
  Worker.read_loop (Spec.uncancelled texts ++ rest) =
  (Spec.line_events texts ++ fst (Worker.read_loop rest),
   snd (Worker.read_loop rest)).
Proof.
  induction texts as [|t texts IH].
  - cbn [Spec.uncancelled Spec.line_events map flat_map app].
    now destruct (Worker.read_loop rest).
  - rewrite uncancelled_cons, line_events_cons, <- app_comm_cons.
    rewrite read_loop_line, IH. cbn [fst snd]. now rewrite app_assoc.
Qed.

(** The three ways in which the loop over the output ends. *)
Lemma read_loop_cases (out : list Worker.read) :
  (exists texts,
      out = Spec.uncancelled texts
      /\ Worker.read_loop out = (Spec.line_events texts, true))
  \/ (exists texts text rest,
      out = Spec.uncancelled texts ++ Worker.Line true text :: rest
      /\ Worker.read_loop out =
         (Spec.line_events texts
          ++ [Worker.Terminate; Worker.finished false "Download canceled."],
          false))
  \/ (exists texts e rest,
      out = Spec.uncancelled texts ++ Worker.ReadError e :: rest
      /\ Worker.read_loop out =
         (Spec.line_events texts
          ++ [Worker.finished false ("Error during download: " ++ e)],
          false)).
Proof.
  induction out as [|r out IH].
  - left. exists []. split; reflexivity.
  - destruct r as [[|] text | e].
    + right; left. exists [], text, out. split; reflexivity.
    + destruct IH as [(texts & -> & H) | [(texts & t & rest & -> & H)
                                         | (texts & e & rest & -> & H)]].
      * left. exists (text :: texts). split; [reflexivity|].
        rewrite read_loop_line, H. reflexivity.
      * right; left. exists (text :: texts), t, rest. split; [reflexivity|].
        rewrite read_loop_line, H, line_events_cons. cbn [fst snd].
        now rewrite app_assoc.
      * right; right. exists (text :: texts), e, rest. split; [reflexivity|].
        rewrite read_loop_line, H, line_events_cons. cbn [fst snd].
        now rewrite app_assoc.
    + right; right. exists [], e, out. split; reflexivity.
Qed.

Lemma truthy_neq (s : string) : s <> EmptyString -> PyStr.truthy s = true.
Proof. destruct s; [congruence | reflexivity]. Qed.

Section Run.

Variable Path : Type.
Variable path_str : Path -> string -> string.
Variable sys_executable : string.

Abbreviation build_cmd := (Worker.build_cmd path_str sys_executable).
Abbreviation run := (Worker.run path_str sys_executable).
Abbreviation start_download := (UI.start_download path_str sys_executable).

Implicit Type cfg : Worker.DownloadConfig Path.
Implicit Type w : Worker.world.

Lemma run_started cfg w :
  Spec.started cfg w ->
  run cfg w =
  Spec.header (build_cmd cfg)
  ++ (if snd (Worker.read_loop (Worker.stdout w))
      then fst (Worker.read_loop (Worker.stdout w))
           ++ Worker.Wait :: Worker.after_loop (Worker.returncode w)
      else fst (Worker.read_loop (Worker.stdout w))).
Proof.
  intros (Hurl & Hmk & Hpo). unfold Worker.run.
  rewrite (truthy_neq _ Hurl), Hmk, Hpo. simpl negb. cbv iota zeta.
  now destruct (Worker.read_loop (Worker.stdout w)).
Qed.

(** Every run ends with exactly one of these outcomes. *)
Lemma run_outcome cfg w :
  exists pre ok msg,
    run cfg w = pre ++ [Worker.finished ok msg]
    /\ ((ok = false /\ msg = "URL is required.")
        \/ (ok = false /\ exists e, msg = ("Cannot create output folder: " ++ e)%string)
        \/ (ok = false /\ exists e, msg = ("Failed to start yt-dlp: " ++ e)%string)
        \/ (ok = false /\ exists e, msg = ("Error during download: " ++ e)%string)
        \/ (ok = true /\ msg = "Download completed.")
        \/ (ok = false /\ exists n,
              msg = ("yt-dlp exited with code " ++ PyStr.str_of_int n ++ ".")%string)
        \/ (ok = false /\ msg = "Download canceled."
            /\ Spec.cancel_observed (Worker.stdout w))).
Proof.
  unfold Worker.run.
  destruct (PyStr.truthy (PyStr.strip (Worker.url cfg))); simpl negb; cbv iota.
  2:{ exists [], false, "URL is required.". split; [reflexivity | tauto]. }
  destruct (Worker.mkdir_error w) as [e|].
  { exists [Worker.Mkdir], false, ("Cannot create output folder: " ++ e)%string.
    split; [reflexivity|]. right; left. eauto. }
  cbv zeta.
  set (hd := [Worker.Mkdir; Worker.log_line "Command:";
              Worker.log_line (PyStr.join " " (map Worker.quote (build_cmd cfg)));
              Worker.Popen (build_cmd cfg)]).
  destruct (Worker.popen_error w) as [e|].
  { exists hd, false, ("Failed to start yt-dlp: " ++ e)%string.
    split; [reflexivity|]. right; right; left. eauto. }
  destruct (read_loop_cases (Worker.stdout w))
    as [(texts & Hout & ->) | [(texts & t & rest & Hout & ->)
                              | (texts & e & rest & Hout & ->)]].
  - unfold Worker.after_loop. destruct (Worker.returncode w =? 0).
    + exists (hd ++ Spec.line_events texts ++ [Worker.Wait; Worker.progress 100]),
        true, "Download completed.". split.
      * now rewrite <- !app_assoc.
      * tauto.
    + exists (hd ++ Spec.line_events texts ++ [Worker.Wait]), false.
      eexists. split.
      * now rewrite <- !app_assoc.
      * do 5 right. left. eauto.
  - exists (hd ++ Spec.line_events texts ++ [Worker.Terminate]), false,
      "Download canceled.". split.
    + now rewrite <- !app_assoc.
    + do 6 right. repeat split. exists texts, t, rest. exact Hout.
  - exists (hd ++ Spec.line_events texts), false. eexists. split.
    + now rewrite <- !app_assoc.
    + do 3 right. left. eauto.
Qed.

(** C2, amended.  When a line is read with the stop flag set, after any
    number of lines read without it, the worker asks the process to
    terminate and ends with [finished] carrying the flag false and the
    message "Download canceled.", without the report of 100 percent and
    without waiting for the exit code, whatever progress the lines before
    reported.  No run ends with that message in another way, and never with
    the flag true. *)
Theorem cancellation_outcome cfg w texts text rest :
  Spec.started cfg w ->
  Worker.stdout w = Spec.uncancelled texts ++ Worker.Line true text :: rest ->
  run cfg w =
  Spec.header (build_cmd cfg) ++ Spec.line_events texts
  ++ [Worker.Terminate; Worker.finished false "Download canceled."]
  /\ forall cfg' w' pre ok,
       run cfg' w' = pre ++ [Worker.finished ok "Download canceled."] ->
       ok = false /\ Spec.cancel_observed (Worker.stdout w').
Proof.
  intros Hs Hout. split.
  - rewrite (run_started cfg w Hs), Hout, read_loop_uncancelled.
    reflexivity.
  - intros cfg' w' pre ok Hrun.
    destruct (run_outcome cfg' w') as (pre' & ok' & msg & Hrun' & Hcases).
    rewrite Hrun in Hrun'. apply app_inj_tail in Hrun' as [_ Heq].
    injection Heq as <- <-.
    destruct Hcases as [[_ H] | [[_ [e H]] | [[_ [e H]] | [[_ [e H]]
                       | [[_ H] | [[_ [n H]] | (Hok & _ & Hc)]]]]]];
      try discriminate H.
    split; assumption.
Qed.

(** C5. When the output ends without cancellation and without a read error,
    the worker waits for the exit code: with 0 it reports 100 percent and
    then success, whatever the lines reported; with any other code it reports
    a failure whose message contains the code in decimal. *)
Theorem exit_code_outcome cfg w texts :
  Spec.started cfg w ->
  Worker.stdout w = Spec.uncancelled texts ->
  (Worker.returncode w = 0 ->
   run cfg w =
   Spec.header (build_cmd cfg) ++ Spec.line_events texts
   ++ [Worker.Wait; Worker.progress 100;
       Worker.finished true "Download completed."])
  /\ (Worker.returncode w <> 0 ->
      run cfg w =
      Spec.header (build_cmd cfg) ++ Spec.line_events texts
      ++ [Worker.Wait;
          Worker.finished false
            ("yt-dlp exited with code "
             ++ PyStr.str_of_int (Worker.returncode w) ++ ".")]).
Proof.
  intros Hs Hout.
  pose proof (run_started cfg w Hs) as Hrun.
  rewrite Hout in Hrun.
  rewrite <- (app_nil_r (Spec.uncancelled texts)) in Hrun.
  rewrite read_loop_uncancelled in Hrun. cbn [Worker.read_loop fst snd] in Hrun.
  rewrite app_nil_r in Hrun. unfold Worker.after_loop in Hrun.
  split; intros Hret.
  - rewrite Hret in Hrun. exact Hrun.
  - apply Z.eqb_neq in Hret. rewrite Hret in Hrun. exact Hrun.
Qed.

(** C9. With a blank URL [run] ends at once with the failure "URL is
    required.", before the folder is made or a process launched, and
    [start_download] shows that error and creates no worker; with a URL whose
    trimmed text starts neither with "http://" nor with "https://",
    [start_download] shows an error and creates no worker either, so that no
    process is launched. *)
Theorem url_rejected_before_launch :
  (forall cfg w,
      PyStr.strip (Worker.url cfg) = EmptyString ->
      run cfg w = [Worker.finished false "URL is required."])
  /\ (forall (f : UI.form Path) w,
      PyStr.strip (UI.url_edit f) = EmptyString ->
      start_download f w = ([UI.critical "Error" "URL is required."], []))
  /\ (forall (f : UI.form Path) w,
      PyStr.startswith (PyStr.strip (UI.url_edit f)) "http://" = false ->
      PyStr.startswith (PyStr.strip (UI.url_edit f)) "https://" = false ->
      (exists msg, start_download f w = ([UI.critical "Error" msg], []))
      /\ forall cmd, ~ In (Worker.Popen cmd) (snd (start_download f w))).
Proof.
  split; [|split].
  - intros cfg w H. unfold Worker.run. now rewrite H.
  - intros f w H. unfold UI.start_download, UI.validate_inputs. now rewrite H.
  - intros f w Hhttp Hhttps.
    unfold UI.start_download, UI.validate_inputs. rewrite Hhttp, Hhttps.
    destruct (PyStr.truthy (PyStr.strip (UI.url_edit f))); simpl.
    + split; [eauto | tauto].
    + split; [eauto | tauto].
Qed.

End Run.

(** ** The progress pattern *)

Lemma drop_prefix_app (p r : string) :
  Worker.drop_prefix p (p ++ r) = Some r.
Proof.
  induction p as [|a p IH]; simpl; [reflexivity|].
  now rewrite Ascii.eqb_refl.
Qed.

Lemma drop_prefix_inv (p s r : string) :
  Worker.drop_prefix p s = Some r -> s = (p ++ r)%string.
Proof.
  revert s. induction p as [|a p IH]; intros s; simpl.
  - now intros [= ->].
  - destruct s as [|b s]; [discriminate|].
    destruct (Ascii.eqb_spec a b) as [->|]; [|discriminate].
    intros H. now rewrite (IH _ H).
Qed.

Lemma span_inv (p : ascii -> bool) (s a b : string) :
  Worker.span p s = (a, b) ->
  s = (a ++ b)%string
  /\ PyStr.forall_string p a = true
  /\ Spec.not_headed_by p b.
Proof.
  revert a b. induction s as [|c s IH]; intros a b; simpl.
  - intros [= <- <-]. repeat split.
  - destruct (p c) eqn:Hc.
    + destruct (Worker.span p s) as [a' b'] eqn:E.
      intros [= <- <-]. destruct (IH _ _ eq_refl) as (-> & Ha & Hb).
      simpl. rewrite Hc. repeat split; assumption.
    + intros [= <- <-]. repeat split. exact Hc.
Qed.

Lemma span_app (p : ascii -> bool) (a b : string) :
  PyStr.forall_string p a = true ->
  Spec.not_headed_by p b ->
  Worker.span p (a ++ b) = (a, b).
Proof.
  intros Ha Hb. induction a as [|c a IH]; simpl in *.
  - destruct b as [|c b]; [reflexivity|]. simpl in *. now rewrite Hb.
  - apply andb_prop in Ha as [Hc Ha]. now rewrite Hc, (IH Ha).
Qed.

Lemma startswith_inv (s p : string) :
  PyStr.startswith s p = true -> exists r, s = (p ++ r)%string.
Proof.
  revert s. induction p as [|a p IH]; intros s; simpl.
  - eauto.
  - destruct s as [|b s]; [discriminate|].
    intros H. apply andb_prop in H as [Hab H].
    apply Ascii.eqb_eq in Hab as ->.
    destruct (IH _ H) as [r ->]. eauto.
Qed.

(** A decimal digit is neither white space, nor a dot, nor a percent sign. *)
Lemma decimal_not_space (c : ascii) :
  PyStr.is_decimal c = true -> PyStr.isspace c = false.
Proof.
  unfold PyStr.is_decimal, PyStr.isspace, PyStr.between.
  intros H. apply andb_prop in H as [H1 H2].
  apply Z.leb_le in H1, H2.
  repeat match goal with
    | |- context [?a <=? ?b] => destruct (Z.leb_spec a b); try lia
    | |- context [?a =? ?b] => destruct (Z.eqb_spec a b); try lia
    end; reflexivity.
Qed.

Lemma nonempty_digits_inv (d : string) :
  PyFloat.nonempty_digits d = true ->
  PyStr.truthy d = true /\ PyStr.forall_string PyStr.is_decimal d = true.
Proof. unfold PyFloat.nonempty_digits. intros H. now apply andb_prop in H. Qed.

Lemma number_head (g rest : string) :
  Spec.number g -> Spec.not_headed_by PyStr.isspace (g ++ rest).
Proof.
  intros [d Hd | d1 d2 Hd _];
    [ destruct (nonempty_digits_inv _ Hd) as [Ht Ha]
    | destruct (nonempty_digits_inv _ Hd) as [Ht Ha] ].
  - destruct d as [|c d]; [discriminate|]. simpl in *.
    apply andb_prop in Ha as [Hc _]. now apply decimal_not_space.
  - destruct d1 as [|c d]; [discriminate|]. simpl in *.
    apply andb_prop in Ha as [Hc _]. now apply decimal_not_space.
Qed.

Lemma pat_match_sound (s g : string) :
  Worker.pat_match s = Some g -> Spec.matches_at s g.
Proof.
  unfold Worker.pat_match.
  destruct (Worker.drop_prefix "[download]" s) as [s1|] eqn:E1; [|discriminate].
  apply drop_prefix_inv in E1.
  destruct (Worker.span PyStr.isspace s1) as [ws s2] eqn:E2.
  apply span_inv in E2 as (-> & Hws & _).
  destruct (PyStr.truthy ws) eqn:Htw; simpl negb; cbv iota; [|discriminate].
  destruct (Worker.span PyStr.is_decimal s2) as [d1 s3] eqn:E3.
  apply span_inv in E3 as (-> & Hd1 & _).
  destruct (PyStr.truthy d1) eqn:Htd; simpl negb; cbv iota; [|discriminate].
  assert (Hn1 : PyFloat.nonempty_digits d1 = true)
    by (unfold PyFloat.nonempty_digits; now rewrite Htd, Hd1).
  assert (Hint : (if PyStr.startswith s3 "%" then Some d1 else None) = Some g ->
                 Spec.matches_at s g).
  { destruct (PyStr.startswith s3 "%") eqn:Hp; [|discriminate].
    intros [= <-]. apply startswith_inv in Hp as [rest ->].
    exists ws, rest. subst s. repeat split; try assumption.
    now constructor. }
  destruct s3 as [|c s4]; [exact Hint|].
  destruct (Ascii.eqb_spec c "."%char) as [->|_]; [|exact Hint].
  destruct (Worker.span PyStr.is_decimal s4) as [d2 s5] eqn:E4.
  apply span_inv in E4 as (-> & Hd2 & _).
  destruct (PyStr.truthy d2 && PyStr.startswith s5 "%") eqn:Hfrac;
    [|exact Hint].
  apply andb_prop in Hfrac as [Htd2 Hp].
  intros [= <-]. apply startswith_inv in Hp as [rest ->].
  exists ws, rest. subst s. repeat split; try assumption.
  - now rewrite !append_assoc.
  - constructor; [assumption|].
    unfold PyFloat.nonempty_digits. now rewrite Htd2, Hd2.
Qed.

Lemma pat_match_integer (ws d rest : string) :
  PyStr.truthy ws = true ->
  PyStr.forall_string PyStr.isspace ws = true ->
  PyFloat.nonempty_digits d = true ->
  Worker.pat_match ("[download]" ++ ws ++ d ++ "%" ++ rest) = Some d.
Proof.
  intros Htw Hws Hd. unfold Worker.pat_match.
  rewrite drop_prefix_app.
  rewrite (span_app PyStr.isspace ws _ Hws)
    by (apply number_head; now constructor).
  rewrite Htw. cbn [negb].
  destruct (nonempty_digits_inv _ Hd) as [Htd Had].
  rewrite (span_app PyStr.is_decimal d _ Had) by reflexivity.
  rewrite Htd. reflexivity.
Qed.

Lemma pat_match_fraction (ws d1 d2 rest : string) :
  PyStr.truthy ws = true ->
  PyStr.forall_string PyStr.isspace ws = true ->
  PyFloat.nonempty_digits d1 = true ->
  PyFloat.nonempty_digits d2 = true ->
  Worker.pat_match ("[download]" ++ ws ++ (d1 ++ "." ++ d2) ++ "%" ++ rest)
  = Some (d1 ++ "." ++ d2)%string.
Proof.
  intros Htw Hws Hd1 Hd2. unfold Worker.pat_match.
  rewrite drop_prefix_app.
  rewrite (span_app PyStr.isspace ws _ Hws)
    by (apply number_head; now constructor).
  rewrite Htw. cbn [negb].
  destruct (nonempty_digits_inv _ Hd1) as [Htd1 Had1].
  destruct (nonempty_digits_inv _ Hd2) as [Htd2 Had2].
  rewrite !append_assoc.
  rewrite (span_app PyStr.is_decimal d1 _ Had1) by reflexivity.
  rewrite Htd1. cbn [negb append]. rewrite Ascii.eqb_refl.
  rewrite (span_app PyStr.is_decimal d2 _ Had2) by reflexivity.
  rewrite Htd2. reflexivity.
Qed.

(** A position matches in one way only, and [pat_match] finds it. *)
Lemma pat_match_complete (s g : string) :
  Spec.matches_at s g -> Worker.pat_match s = Some g.
Proof.
  intros (ws & rest & -> & Htw & Hws & Hg).
  destruct Hg as [d Hd | d1 d2 Hd1 Hd2].
  - now apply pat_match_integer.
  - now apply pat_match_fraction.
Qed.

Lemma pat_search_unfold (s : string) :
  Worker.pat_search s =
  match Worker.pat_match s with
  | Some g => Some g
  | None =>
      match s with
      | EmptyString => None
      | String _ r => Worker.pat_search r
      end
  end.
Proof. destruct s; reflexivity. Qed.

Lemma pat_search_first (line g : string) :
  Worker.pat_search line = Some g -> Spec.first_match line g.
Proof.
  induction line as [|c line IH]; rewrite pat_search_unfold.
  - destruct (Worker.pat_match "") as [g'|] eqn:E; [|discriminate].
    intros [= ->]. exists "", "". repeat split.
    + now apply pat_match_sound.
    + intros; simpl; lia.
  - destruct (Worker.pat_match (String c line)) as [g'|] eqn:E.
    + intros [= ->]. exists "", (String c line). repeat split.
      * now apply pat_match_sound.
      * intros; simpl; lia.
    + intros H. destruct (IH H) as (pre & s & -> & Hm & Hmin).
      exists (String c pre), s. repeat split; [assumption|].
      intros pre' s' g' Heq Hm'. destruct pre' as [|c' pre'].
      * simpl in Heq. subst s'. apply pat_match_complete in Hm'. congruence.
      * simpl in Heq. injection Heq as <- Heq.
        specialize (Hmin _ _ _ Heq Hm'). simpl. lia.
Qed.

Lemma pat_search_none (line : string) :
  Worker.pat_search line = None -> Spec.no_match line.
Proof.
  induction line as [|c line IH]; rewrite pat_search_unfold.
  - destruct (Worker.pat_match "") as [g'|] eqn:E; [discriminate|].
    intros _ pre s g Heq Hm. destruct pre; [|discriminate].
    simpl in Heq. subst s. apply pat_match_complete in Hm. congruence.
  - destruct (Worker.pat_match (String c line)) as [g'|] eqn:E; [discriminate|].
    intros H pre s g Heq Hm. destruct pre as [|c' pre].
    + simpl in Heq. subst s. apply pat_match_complete in Hm. congruence.
    + simpl in Heq. injection Heq as <- Heq. exact (IH H _ _ _ Heq Hm).
Qed.

Lemma append_same_length (a b a' b' : string) :
  (a ++ b)%string = (a' ++ b')%string ->
  String.length a = String.length a' ->
  a = a' /\ b = b'.
Proof.
  revert a'. induction a as [|c a IH]; intros [|c' a'] Heq Hlen;
    try discriminate.
  - now split.
  - simpl in *. injection Heq as <- Heq. injection Hlen as Hlen.
    destruct (IH _ Heq Hlen) as [-> ->]. now split.
Qed.

Lemma first_match_search (line g : string) :
  Spec.first_match line g -> Worker.pat_search line = Some g.
Proof.
  intros (pre & s & Heq & Hm & Hmin).
  destruct (Worker.pat_search line) as [g'|] eqn:E.
  - apply pat_search_first in E as (pre' & s' & Heq' & Hm' & Hmin').
    pose proof (Hmin _ _ _ Heq' Hm') as H1.
    pose proof (Hmin' _ _ _ Heq Hm) as H2.
    rewrite Heq in Heq'.
    destruct (append_same_length _ _ _ _ Heq' ltac:(lia)) as [_ <-].
    apply pat_match_complete in Hm, Hm'. congruence.
  - apply pat_search_none in E. exfalso. exact (E _ _ _ Heq Hm).
Qed.

Lemma no_match_search (line : string) :
  Spec.no_match line -> Worker.pat_search line = None.
Proof.
  intros H. destruct (Worker.pat_search line) as [g|] eqn:E; [|reflexivity].
  apply pat_search_first in E as (pre & s & Heq & Hm & _).
  exfalso. exact (H _ _ _ Heq Hm).
Qed.

(** ** Numbers as fractions *)

Lemma decimal_not_dot (c : ascii) :
  PyStr.is_decimal c = true -> Ascii.eqb c "."%char = false.
Proof.
  intros H. destruct (Ascii.eqb_spec c "."%char) as [->|]; [|reflexivity].
  discriminate H.
Qed.

Lemma split_dot_digits (d : string) :
  PyStr.forall_string PyStr.is_decimal d = true ->
  PyFloat.split_dot d = (d, None).
Proof.
  induction d as [|c d IH]; simpl; [reflexivity|].
  intros H. apply andb_prop in H as [Hc Hd].
  now rewrite (decimal_not_dot _ Hc), (IH Hd).
Qed.

Lemma split_dot_fraction (d1 d2 : string) :
  PyStr.forall_string PyStr.is_decimal d1 = true ->
  PyFloat.split_dot (d1 ++ "." ++ d2) = (d1, Some d2).
Proof.
  induction d1 as [|c d IH]; simpl in *; [reflexivity|].
  intros H. apply andb_prop in H as [Hc Hd].
  now rewrite (decimal_not_dot _ Hc), (IH Hd).
Qed.

Lemma digits_value_nonneg (s : string) (acc : Z) :
  PyStr.forall_string PyStr.is_decimal s = true ->
  0 <= acc -> 0 <= PyFloat.digits_value acc s.
Proof.
  revert acc. induction s as [|c s IH]; intros acc Hs Hacc;
    cbn [PyFloat.digits_value]; [assumption|].
  cbn [PyStr.forall_string] in Hs.
  apply andb_prop in Hs as [Hc Hs]. apply IH; [assumption|].
  unfold PyStr.is_decimal, PyStr.between in Hc.
  apply andb_prop in Hc as [H1 H2]. apply Z.leb_le in H1, H2. lia.
Qed.

Lemma forall_string_app (p : ascii -> bool) (a b : string) :
  PyStr.forall_string p (a ++ b)
  = PyStr.forall_string p a && PyStr.forall_string p b.
Proof.
  induction a as [|c a IH]; simpl; [reflexivity|].
  now rewrite IH, andb_assoc.
Qed.

(** On a number of the pattern, the conversion to a fraction succeeds. *)
Lemma number_fraction_defined (g : string) :
  Spec.number g ->
  exists n d, PyFloat.decimal_fraction g = Some (n, d) /\ 0 <= n /\ 0 < d.
Proof.
  intros [d Hd | d1 d2 Hd1 Hd2]; unfold PyFloat.decimal_fraction.
  - destruct (nonempty_digits_inv _ Hd) as [_ Ha].
    rewrite (split_dot_digits _ Ha), Hd.
    eexists _, _. split; [reflexivity|]. split; [|lia].
    now apply digits_value_nonneg.
  - destruct (nonempty_digits_inv _ Hd1) as [_ Ha1].
    destruct (nonempty_digits_inv _ Hd2) as [_ Ha2].
    rewrite (split_dot_fraction _ _ Ha1), Hd1, Hd2.
    eexists _, _. split; [reflexivity|]. split.
    + apply digits_value_nonneg; [|lia].
      now rewrite forall_string_app, Ha1, Ha2.
    + apply Z.pow_pos_nonneg; lia.
Qed.

(** ** Rounding to a float *)

Lemma pow2_split (a b : Z) : 0 <= a -> 0 <= b -> 2 ^ (a + b) = 2 ^ a * 2 ^ b.
Proof. intros. now apply Z.pow_add_r. Qed.

Lemma floor_log2_bounds (n d : Z) :
  0 < n -> 0 < d ->
  (0 <= PyFloat.floor_log2_ratio n d ->
   d * 2 ^ PyFloat.floor_log2_ratio n d <= n
   /\ n < d * 2 ^ (PyFloat.floor_log2_ratio n d + 1))
  /\ (PyFloat.floor_log2_ratio n d < 0 -> n < d).
Proof.
  intros Hn Hd. unfold PyFloat.floor_log2_ratio.
  pose proof (Z.log2_spec n Hn) as [Hn1 Hn2].
  pose proof (Z.log2_spec d Hd) as [Hd1 Hd2].
  pose proof (Z.log2_nonneg n) as Ha. pose proof (Z.log2_nonneg d) as Hb.
  set (a := Z.log2 n) in *. set (b := Z.log2 d) in *.
  unfold Z.succ in *.
  destruct (Z.leb_spec 0 (a - b)) as [Hg | Hg].
  - destruct (Z.leb_spec (d * 2 ^ (a - b)) n) as [Habove | Hbelow].
    + split; [|lia]. intros _. split; [assumption|].
      replace (a + 1) with (b + (a - b + 1)) in Hn2 by lia.
      rewrite pow2_split in Hn2 by lia.
      assert (0 < 2 ^ (a - b + 1)) by (apply Z.pow_pos_nonneg; lia).
      nia.
    + split.
      * intros Hfl. replace (a - b - 1 + 1) with (a - b) by lia.
        split; [|assumption].
        replace a with ((b + 1) + (a - b - 1)) in Hn1 at 1 by lia.
        rewrite pow2_split in Hn1 by lia.
        assert (0 < 2 ^ (a - b - 1)) by (apply Z.pow_pos_nonneg; lia).
        nia.
      * intros Hfl. assert (a - b = 0) as E by lia. rewrite E in Hbelow.
        simpl in Hbelow. lia.
  - assert (Hnd : n < d).
    { assert (2 ^ (a + 1) <= 2 ^ b) by (apply Z.pow_le_mono_r; lia). lia. }
    destruct (d <=? n * 2 ^ (- (a - b))); split; intros; try lia.
Qed.

Lemma round_half_even_cases (num den : Z) :
  0 < den ->
  let q := num / den in
  let r := num mod den in
  (PyFloat.round_half_even num den = q /\ (2 * r < den \/ (2 * r = den /\ Z.even q = true)))
  \/ (PyFloat.round_half_even num den = q + 1
      /\ (den < 2 * r \/ (2 * r = den /\ Z.even q = false))).
Proof.
  intros Hden q r. unfold PyFloat.round_half_even. fold q r.
  destruct (Z.ltb_spec (2 * r) den); [left; split; [reflexivity | lia]|].
  destruct (Z.ltb_spec den (2 * r)); [right; split; [reflexivity | lia]|].
  destruct (Z.even q) eqn:E; [left | right]; (split; [reflexivity | right; split; [lia | reflexivity]]).
Qed.

Lemma of_fraction_infinite (n d : Z) :
  0 < n -> 0 < d ->
  PyFloat.of_fraction n d = PyFloat.Infinity <-> (2 ^ 1024 - 2 ^ 970) * d <= n.
Proof.
  intros Hn Hd. unfold PyFloat.of_fraction.
  destruct (Z.eqb_spec n 0) as [|_]; [lia|]. cbv zeta.
  destruct (floor_log2_bounds n d Hn Hd) as [Hpos Hneg].
  set (fl := PyFloat.floor_log2_ratio n d) in *.
  set (e := Z.max (fl - 52) (-1074)).
  destruct (Z.leb_spec 0 e) as [He | He]; cbn [andb].
  2:{ split; [discriminate|]. intros Hbig. exfalso.
      assert (Hfl : fl <= 51) by lia.
      destruct (Z.le_gt_cases 0 fl) as [Hfl0 | Hfl0].
      - destruct (Hpos Hfl0) as [_ Hup].
        assert (2 ^ (fl + 1) <= 2 ^ 52) by (apply Z.pow_le_mono_r; lia).
        assert (d * 2 ^ (fl + 1) <= d * 2 ^ 52) by (apply Z.mul_le_mono_nonneg_l; lia).
        assert (d * 2 ^ 52 <= (2 ^ 1024 - 2 ^ 970) * d) by lia.
        lia.
      - specialize (Hneg Hfl0). assert (d <= (2 ^ 1024 - 2 ^ 970) * d) by lia. lia. }
  assert (Ee : e = fl - 52) by lia.
  assert (Hfl0 : 0 <= fl) by lia.
  destruct (Hpos Hfl0) as [Hlo Hup].
  assert (HP : 0 < 2 ^ e) by (apply Z.pow_pos_nonneg; lia).
  replace fl with (e + 52) in Hlo by lia.
  replace (fl + 1) with (e + 53) in Hup by lia.
  rewrite pow2_split in Hlo, Hup by lia.
  set (P := 2 ^ e) in *.
  set (D := d * P) in *.
  assert (HD : 0 < D) by (unfold D; lia).
  assert (HloD : D * 2 ^ 52 <= n) by (unfold D; lia).
  assert (HupD : n < D * 2 ^ 53) by (unfold D; lia).
  pose proof (Z.div_mod n D ltac:(lia)) as Hdm.
  pose proof (Z.mod_pos_bound n D HD) as Hr.
  assert (Hq1 : 2 ^ 52 <= n / D) by (apply Z.div_le_lower_bound; lia).
  assert (Hq2 : n / D < 2 ^ 53) by (apply Z.div_lt_upper_bound; lia).
  destruct (round_half_even_cases n D HD) as [[-> Hc] | [-> Hc]];
    set (q := n / D) in *; set (r := n mod D) in *.
  all: assert (Hcase : e <= 970 \/ e = 971 \/ 972 <= e) by lia.
  all: destruct Hcase as [He1 | [He2 | He3]].
  - (* small exponent, rounded down *)
    assert (HP2 : P <= 2 ^ 970) by (apply Z.pow_le_mono_r; lia).
    assert (q * P <= 2 ^ 53 * 2 ^ 970) by (apply Z.mul_le_mono_nonneg; lia).
    destruct (Z.leb_spec (2 ^ 1024) (q * P)); [lia|].
    split; [discriminate|]. intros Hbig. exfalso.
    assert (d * P <= d * 2 ^ 970) by (apply Z.mul_le_mono_nonneg_l; lia).
    lia.
  - (* the largest binade, rounded down *)
    assert (EP : P = 2 ^ 971) by (unfold P; now rewrite He2).
    destruct (Z.leb_spec (2 ^ 1024) (q * P)); [lia|].
    split; [discriminate|]. intros Hbig. exfalso.
    assert (ED : D = d * 2 ^ 971) by (unfold D; now rewrite EP).
    destruct (Z.eq_dec q (2 ^ 53 - 1)) as [Eq | Eq].
    + rewrite Eq in Hc, Hdm. destruct Hc as [Hc | [_ Hc]]; [lia | discriminate].
    + assert (D * q <= D * (2 ^ 53 - 2)) by (apply Z.mul_le_mono_nonneg_l; lia).
      lia.
  - (* beyond the largest binade *)
    assert (HP2 : 2 ^ 972 <= P) by (apply Z.pow_le_mono_r; lia).
    assert (2 ^ 52 * 2 ^ 972 <= q * P) by (apply Z.mul_le_mono_nonneg; lia).
    destruct (Z.leb_spec (2 ^ 1024) (q * P)); [|lia].
    split; [intros _|reflexivity].
    assert (d * 2 ^ 972 <= d * P) by (apply Z.mul_le_mono_nonneg_l; lia).
    lia.
  - (* small exponent, rounded up *)
    assert (HP2 : P <= 2 ^ 970) by (apply Z.pow_le_mono_r; lia).
    assert ((q + 1) * P <= 2 ^ 53 * 2 ^ 970) by (apply Z.mul_le_mono_nonneg; lia).
    destruct (Z.leb_spec (2 ^ 1024) ((q + 1) * P)); [lia|].
    split; [discriminate|]. intros Hbig. exfalso.
    assert (d * P <= d * 2 ^ 970) by (apply Z.mul_le_mono_nonneg_l; lia).
    lia.
  - (* the largest binade, rounded up *)
    assert (EP : P = 2 ^ 971) by (unfold P; now rewrite He2).
    assert (ED : D = d * 2 ^ 971) by (unfold D; now rewrite EP).
    destruct (Z.eq_dec q (2 ^ 53 - 1)) as [Eq | Eq].
    + destruct (Z.leb_spec (2 ^ 1024) ((q + 1) * P)); [|lia].
      split; [intros _|reflexivity].
      rewrite Eq in Hdm. lia.
    + destruct (Z.leb_spec (2 ^ 1024) ((q + 1) * P)); [lia|].
      split; [discriminate|]. intros Hbig. exfalso.
      assert (D * q <= D * (2 ^ 53 - 2)) by (apply Z.mul_le_mono_nonneg_l; lia).
      lia.
  - (* beyond the largest binade *)
    assert (HP2 : 2 ^ 972 <= P) by (apply Z.pow_le_mono_r; lia).
    assert (2 ^ 52 * 2 ^ 972 <= (q + 1) * P) by (apply Z.mul_le_mono_nonneg; lia).
    destruct (Z.leb_spec (2 ^ 1024) ((q + 1) * P)); [|lia].
    split; [intros _|reflexivity].
    assert (d * 2 ^ 972 <= d * P) by (apply Z.mul_le_mono_nonneg_l; lia).
    lia.
Qed.

Lemma of_fraction_zero (d : Z) : PyFloat.of_fraction 0 d = PyFloat.Finite 0 0.
Proof. reflexivity. Qed.

(** [int(float(g))] fails exactly on the numbers that overflow. *)
Lemma int_float_number (g : string) :
  Spec.number g ->
  (Spec.overflows g ->
   exists x, PyFloat.float g = Some x /\ PyFloat.int x = None)
  /\ (~ Spec.overflows g ->
      exists x p, PyFloat.float g = Some x /\ PyFloat.int x = Some p).
Proof.
  intros Hg.
  destruct (number_fraction_defined g Hg) as (n & d & Hf & Hn & Hd).
  unfold PyFloat.float. rewrite Hf. split.
  - intros (n' & d' & Hf' & Hbig). rewrite Hf in Hf'. injection Hf' as <- <-.
    assert (Hn' : 0 < n) by lia.
    apply (of_fraction_infinite n d Hn' Hd) in Hbig.
    eexists. split; [reflexivity|]. now rewrite Hbig.
  - intros Hno. exists (PyFloat.of_fraction n d).
    destruct (PyFloat.of_fraction n d) as [m e|] eqn:E.
    + eexists. split; reflexivity.
    + exfalso. apply Hno. exists n, d. split; [assumption|].
      destruct (Z.eq_dec n 0) as [->|Hn0].
      * rewrite of_fraction_zero in E. discriminate.
      * apply (of_fraction_infinite n d); [lia | assumption | assumption].
Qed.

(** ** The progress parser *)

(** C4, amended.  For every line the parser first forwards the line without
    its trailing white space.  If no position of that text matches the
    pattern (marker, white space, digits with an optional fraction, percent
    sign) nothing else is reported.  Otherwise the number of the leftmost
    match is converted to a float and truncated, and the result clamped to
    0..100 is reported, unless the number is so large (at least
    [2^1024 - 2^970]) that its float is infinite: then the conversion to an
    integer fails, the failure is swallowed and no percent is reported.  One
    of the two cases always applies, so that the parser never fails.  For the
    line "[download]  42.7% of 10MiB" the percent is 42. *)
Theorem progress_parser (text : string) :
  let line := PyStr.rstrip text in
  (Spec.no_match line -> Worker.on_line text = [Worker.log_line line])
  /\ (forall g,
        Spec.first_match line g ->
        (Spec.overflows g -> Worker.on_line text = [Worker.log_line line])
        /\ (~ Spec.overflows g ->
            exists x p,
              PyFloat.float g = Some x
              /\ PyFloat.int x = Some p
              /\ Worker.on_line text =
                 [Worker.log_line line;
                  Worker.progress (Z.min (Z.max p 0) 100)]))
  /\ (Spec.no_match line \/ exists g, Spec.first_match line g)
  /\ Worker.on_line "[download]  42.7% of 10MiB"
     = [Worker.log_line "[download]  42.7% of 10MiB"; Worker.progress 42].
Proof.
  intros line. split; [|split; [|split]].
  - intros H. unfold Worker.on_line. fold line.
    now rewrite (no_match_search _ H).
  - intros g Hfirst.
    assert (Hg : Spec.number g).
    { destruct Hfirst as (pre & s & _ & (ws & rest & _ & _ & _ & Hg) & _).
      exact Hg. }
    unfold Worker.on_line. fold line. rewrite (first_match_search _ _ Hfirst).
    split.
    + intros Hov.
      destruct (proj1 (int_float_number g Hg) Hov) as (x & -> & ->).
      reflexivity.
    + intros Hno.
      destruct (proj2 (int_float_number g Hg) Hno) as (x & p & Hx & Hp).
      exists x, p. rewrite Hx, Hp. repeat split.
  - destruct (Worker.pat_search line) as [g|] eqn:E.
    + right. exists g. now apply pat_search_first.
    + left. now apply pat_search_none.
  - reflexivity.
Qed.

(** ** The properties on the sample data *)

Lemma video_format_selection_witness :
  exists pre,
    Worker.build_cmd Sample.join_path Sample.python Sample.video_cfg =
    pre ++ ["-f"; "bestvideo[height<=1080]+bestaudio/best[height<=1080]";
            "--merge-output-format"; "mp4"; "https://example.org/watch?v=1"].
Proof.
  refine (proj1 (video_format_selection string Sample.join_path Sample.python
                   Sample.video_cfg _) "1080" eq_refl).
  discriminate.
Defined.

Lemma inactive_group_ignored_witness :
  Worker.build_cmd Sample.join_path Sample.python Sample.video_cfg
  = Worker.build_cmd Sample.join_path Sample.python Sample.video_cfg_other_audio.
Proof.
  apply (inactive_group_ignored string Sample.join_path Sample.python
           Sample.video_cfg Sample.video_cfg_other_audio).
  - reflexivity.
  - repeat split.
  - split; reflexivity.
Defined.

Lemma transcoder_arguments_order_witness :
  nth_error (Worker.build_cmd Sample.join_path Sample.python
               (Spec.with_mode Sample.video_cfg_other_audio "audio")) 8
  = Some "-compression_level 8 -ar 48000 -ac 1".
Proof.
  refine (proj2 (proj2 (transcoder_arguments_order string Sample.join_path
                          Sample.python
                          (Spec.with_mode Sample.video_cfg_other_audio "audio"))) _).
  vm_compute. discriminate.
Defined.


Lemma cancellation_outcome_witness :
  Worker.run Sample.join_path Sample.python Sample.video_cfg Sample.cancelled_world
  = Spec.header (Worker.build_cmd Sample.join_path Sample.python Sample.video_cfg)
    ++ [Worker.log_line "[download]  42.7% of 10MiB"; Worker.progress 42;
        Worker.log_line "[download]  99.9% of 10MiB"; Worker.progress 99]
    ++ [Worker.Terminate; Worker.finished false "Download canceled."].
Proof.
  refine (proj1 (cancellation_outcome string Sample.join_path Sample.python
                   Sample.video_cfg Sample.cancelled_world
                   ["[download]  42.7% of 10MiB"; "[download]  99.9% of 10MiB"]
                   "[download] 100% of 10MiB" [] _ eq_refl)).
  repeat split. discriminate.
Defined.

(** A run cancelled at 99 percent ends with an outcome whose success flag is
    false, as that of every failure, and the window handles it on its error
    path. *)
Lemma cancelled_run_is_reported_as_failure :
  Spec.cancel_observed (Worker.stdout Sample.cancelled_world)
  /\ ~ Spec.success_outcome
         (last (Worker.run Sample.join_path Sample.python Sample.video_cfg
                  Sample.cancelled_world) Worker.Mkdir)
  /\ Spec.failure_outcome
       (last (Worker.run Sample.join_path Sample.python Sample.video_cfg
                Sample.cancelled_world) Worker.Mkdir)
  /\ UI.on_finished false "Download canceled."
     = [UI.append_log "Download canceled."; UI.toggle_controls false;
        UI.critical "Error" "Download canceled.";
        UI.append_log "Error: Download canceled."].
Proof.
  split; [|split; [|split]].
  - exists ["[download]  42.7% of 10MiB"; "[download]  99.9% of 10MiB"],
      "[download] 100% of 10MiB", []. reflexivity.
  - intros [msg H]. discriminate H.
  - exists "Download canceled.". reflexivity.
  - reflexivity.
Qed.

Lemma exit_code_outcome_witness :
  Worker.run Sample.join_path Sample.python Sample.video_cfg Sample.failing_world
  = Spec.header (Worker.build_cmd Sample.join_path Sample.python Sample.video_cfg)
    ++ [Worker.log_line "ERROR: unable to download"]
    ++ [Worker.Wait; Worker.finished false "yt-dlp exited with code 1."].
Proof.
  refine (proj2 (exit_code_outcome string Sample.join_path Sample.python
                   Sample.video_cfg Sample.failing_world
                   ["ERROR: unable to download"] _ eq_refl) _).
  - repeat split. discriminate.
  - discriminate.
Defined.

Lemma url_rejected_before_launch_witness :
  (exists msg,
      UI.start_download Sample.join_path Sample.python Sample.ftp_form
        Sample.failing_world
      = ([UI.critical "Error" msg], []))
  /\ forall cmd,
       ~ In (Worker.Popen cmd)
           (snd (UI.start_download Sample.join_path Sample.python
                   Sample.ftp_form Sample.failing_world)).
Proof.
  exact (proj2 (proj2 (url_rejected_before_launch string Sample.join_path
                         Sample.python))
           Sample.ftp_form Sample.failing_world eq_refl eq_refl).
Defined.

Lemma sample_line_first_match :
  Spec.first_match "[download]  42.7% of 10MiB" "42.7".
Proof.
  exists "", "[download]  42.7% of 10MiB". repeat split.
  - exists "  ", " of 10MiB". repeat split.
    apply (Spec.number_fraction "42" "7"); reflexivity.
  - intros. simpl. lia.
Defined.

Lemma progress_parser_witness :
  exists x p,
    PyFloat.float "42.7" = Some x
    /\ PyFloat.int x = Some p
    /\ Worker.on_line "[download]  42.7% of 10MiB"
       = [Worker.log_line "[download]  42.7% of 10MiB";
          Worker.progress (Z.min (Z.max p 0) 100)].
Proof.
  refine (proj2 (proj1 (proj2 (progress_parser "[download]  42.7% of 10MiB"))
                   "42.7" sample_line_first_match) _).
  intros (n & d & Hf & Hbig). vm_compute in Hf. injection Hf as <- <-.
  vm_compute in Hbig. apply Hbig. reflexivity.
Defined.

(** A progress line whose number has 400 digits matches the pattern, and no
    percent is reported for it. *)
Lemma huge_progress_not_reported :
  Spec.matches_at Sample.huge_line Sample.huge_number
  /\ Spec.first_match (PyStr.rstrip Sample.huge_line) Sample.huge_number
  /\ Worker.on_line Sample.huge_line = [Worker.log_line Sample.huge_line].
Proof.
  assert (Hm : Spec.matches_at Sample.huge_line Sample.huge_number).
  { exists " ", "". repeat split.
    constructor. vm_compute. reflexivity. }
  split; [exact Hm|]. split.
  - exists "", Sample.huge_line. split; [vm_compute; reflexivity|].
    split; [exact Hm|]. intros. simpl. lia.
  - vm_compute. reflexivity.
Qed.

(** * Further properties *)

(** ** White space *)

Lemma rstrip_head (c : ascii) (s : string) :
  PyStr.rstrip (String c s) =
  match PyStr.rstrip s with
  | EmptyString => if PyStr.isspace c then EmptyString else String c EmptyString
  | String _ _ as r => String c r
  end.
Proof. reflexivity. Qed.

Lemma rstrip_idempotent (s : string) :
  PyStr.rstrip (PyStr.rstrip s) = PyStr.rstrip s.
Proof.
  induction s as [|c s IH]; [reflexivity|].
  rewrite rstrip_head.
  destruct (PyStr.rstrip s) as [|d r] eqn:E.
  - destruct (PyStr.isspace c) eqn:Hc; [reflexivity|].
    rewrite rstrip_head. cbn [PyStr.rstrip]. now rewrite Hc.
  - rewrite rstrip_head, IH. reflexivity.
Qed.

Lemma lstrip_fixed (c : ascii) (s : string) :
  PyStr.isspace c = false -> PyStr.lstrip (String c s) = String c s.
Proof. intros H. simpl. now rewrite H. Qed.

Lemma lstrip_rstrip_lstrip (s : string) :
  PyStr.lstrip (PyStr.rstrip (PyStr.lstrip s)) = PyStr.rstrip (PyStr.lstrip s).
Proof.
  induction s as [|c s IH]; [reflexivity|].
  cbn [PyStr.lstrip]. destruct (PyStr.isspace c) eqn:Hc; [exact IH|].
  rewrite rstrip_head.
  destruct (PyStr.rstrip s) as [|d r]; rewrite ?Hc; now apply lstrip_fixed.
Qed.

Lemma strip_idempotent (s : string) : PyStr.strip (PyStr.strip s) = PyStr.strip s.
Proof.
  unfold PyStr.strip. now rewrite lstrip_rstrip_lstrip, rstrip_idempotent.
Qed.

(** ** Every way a run can go *)

(** What one line gives: the line without trailing white space, and at most
    one percent, between 0 and 100. *)
Lemma on_line_shape (text : string) :
  Worker.on_line text = [Worker.log_line (PyStr.rstrip text)]
  \/ exists r,
       0 <= r <= 100
       /\ Worker.on_line text
          = [Worker.log_line (PyStr.rstrip text); Worker.progress r].
Proof.
  unfold Worker.on_line.
  destruct (Worker.pat_search (PyStr.rstrip text)) as [g|]; [|now left].
  destruct (PyFloat.float g) as [x|]; [|now left].
  destruct (PyFloat.int x) as [p|]; [|now left].
  right. eexists. split; [|reflexivity]. lia.
Qed.

Lemma logged_app (a b : list Worker.event) :
  Trace.logged (a ++ b) = Trace.logged a ++ Trace.logged b.
Proof. apply flat_map_app. Qed.

Lemma outcomes_app (a b : list Worker.event) :
  Trace.outcomes (a ++ b) = Trace.outcomes a ++ Trace.outcomes b.
Proof. apply flat_map_app. Qed.

Lemma launches_app (a b : list Worker.event) :
  Trace.launches (a ++ b) = Trace.launches a ++ Trace.launches b.
Proof. apply flat_map_app. Qed.

Lemma line_events_views (texts : list string) :
  Trace.logged (Spec.line_events texts) = map PyStr.rstrip texts
  /\ Trace.outcomes (Spec.line_events texts) = []
  /\ Trace.launches (Spec.line_events texts) = []
  /\ (forall n, In (Worker.progress n) (Spec.line_events texts) -> 0 <= n <= 100)
  /\ ~ In Worker.Wait (Spec.line_events texts)
  /\ ~ In Worker.Terminate (Spec.line_events texts).
Proof.
  induction texts as [|t texts (IH1 & IH2 & IH3 & IH4 & IH5 & IH6)].
  - split; [reflexivity|]. split; [reflexivity|]. split; [reflexivity|].
    split; [intros n []|]. split; intros [].
  - rewrite line_events_cons, logged_app, outcomes_app, launches_app.
    rewrite IH1, IH2, IH3.
    destruct (on_line_shape t) as [-> | (r & Hr & ->)].
    + split; [reflexivity|]. split; [reflexivity|]. split; [reflexivity|].
      split; [|split].
      * intros n [H | H]; [discriminate | auto].
      * intros [H | H]; [discriminate | auto].
      * intros [H | H]; [discriminate | auto].
    + split; [reflexivity|]. split; [reflexivity|]. split; [reflexivity|].
      split; [|split].
      * intros n [H | [H | H]]; [discriminate | injection H as <-; lia | auto].
      * intros [H | [H | H]]; [discriminate | discriminate | auto].
      * intros [H | [H | H]]; [discriminate | discriminate | auto].
Qed.

Lemma lines_read_uncancelled (texts : list string) (rest : list Worker.read) :
  Trace.lines_read (Spec.uncancelled texts ++ rest)
  = texts ++ Trace.lines_read rest.
Proof.
  induction texts as [|t texts IH]; [reflexivity|].
  rewrite uncancelled_cons. simpl. now rewrite IH.
Qed.

Section RunCases.

Variable Path : Type.
Variable path_str : Path -> string -> string.
Variable sys_executable : string.

Abbreviation build_cmd := (Worker.build_cmd path_str sys_executable).
Abbreviation run := (Worker.run path_str sys_executable).

Implicit Type cfg : Worker.DownloadConfig Path.
Implicit Type w : Worker.world.

(** The seven courses of a run, each with its condition and its events. *)
Lemma run_cases cfg w :
  (PyStr.strip (Worker.url cfg) = EmptyString
   /\ run cfg w = [Worker.finished false "URL is required."])
  \/ (PyStr.strip (Worker.url cfg) <> EmptyString
      /\ exists e,
           Worker.mkdir_error w = Some e
           /\ run cfg w =
              [Worker.Mkdir;
               Worker.finished false ("Cannot create output folder: " ++ e)])
  \/ (PyStr.strip (Worker.url cfg) <> EmptyString
      /\ Worker.mkdir_error w = None
      /\ exists e,
           Worker.popen_error w = Some e
           /\ run cfg w =
              Spec.header (build_cmd cfg)
              ++ [Worker.finished false ("Failed to start yt-dlp: " ++ e)])
  \/ (Spec.started cfg w
      /\ exists texts,
           Worker.stdout w = Spec.uncancelled texts
           /\ Worker.returncode w = 0
           /\ run cfg w =
              Spec.header (build_cmd cfg) ++ Spec.line_events texts
              ++ [Worker.Wait; Worker.progress 100;
                  Worker.finished true "Download completed."])
  \/ (Spec.started cfg w
      /\ exists texts,
           Worker.stdout w = Spec.uncancelled texts
           /\ Worker.returncode w <> 0
           /\ run cfg w =
              Spec.header (build_cmd cfg) ++ Spec.line_events texts
              ++ [Worker.Wait;
                  Worker.finished false
                    ("yt-dlp exited with code "
                     ++ PyStr.str_of_int (Worker.returncode w) ++ ".")])
  \/ (Spec.started cfg w
      /\ exists texts text rest,
           Worker.stdout w = Spec.uncancelled texts ++ Worker.Line true text :: rest
           /\ run cfg w =
              Spec.header (build_cmd cfg) ++ Spec.line_events texts
              ++ [Worker.Terminate; Worker.finished false "Download canceled."])
  \/ (Spec.started cfg w
      /\ exists texts e rest,
           Worker.stdout w = Spec.uncancelled texts ++ Worker.ReadError e :: rest
           /\ run cfg w =
              Spec.header (build_cmd cfg) ++ Spec.line_events texts
              ++ [Worker.finished false ("Error during download: " ++ e)]).
Proof.
  destruct (PyStr.strip (Worker.url cfg)) as [|c u] eqn:Hurl.
  { left. split; [reflexivity|]. unfold Worker.run. now rewrite Hurl. }
  assert (Hu : PyStr.strip (Worker.url cfg) <> EmptyString)
    by (rewrite Hurl; discriminate).
  rewrite <- Hurl.
  destruct (Worker.mkdir_error w) as [e|] eqn:Hmk.
  { right; left. split; [assumption|]. exists e. split; [reflexivity|].
    unfold Worker.run. now rewrite Hurl, Hmk. }
  destruct (Worker.popen_error w) as [e|] eqn:Hpo.
  { right; right; left. repeat split; try assumption. exists e.
    split; [reflexivity|]. unfold Worker.run. now rewrite Hurl, Hmk, Hpo. }
  assert (Hs : Spec.started cfg w) by (repeat split; assumption).
  do 3 right.
  rewrite (run_started Path path_str sys_executable cfg w Hs).
  destruct (read_loop_cases (Worker.stdout w))
    as [(texts & Hout & ->) | [(texts & t & rest & Hout & ->)
                              | (texts & e & rest & Hout & ->)]];
    cbn [fst snd].
  - unfold Worker.after_loop.
    destruct (Z.eqb_spec (Worker.returncode w) 0) as [Hret | Hret].
    + left. split; [assumption|]. exists texts. repeat split; assumption.
    + right; left. split; [assumption|]. exists texts. repeat split; assumption.
  - right; right; left. split; [assumption|]. exists texts, t, rest.
    split; [assumption | reflexivity].
  - right; right; right. split; [assumption|]. exists texts, e, rest.
    split; [assumption | reflexivity].
Qed.

End RunCases.

Section RunProperties.

Variable Path : Type.
Variable path_str : Path -> string -> string.
Variable sys_executable : string.

Abbreviation build_cmd := (Worker.build_cmd path_str sys_executable).
Abbreviation run := (Worker.run path_str sys_executable).

Implicit Type cfg : Worker.DownloadConfig Path.
Implicit Type w : Worker.world.

Lemma run_to_end cfg w texts :
  Spec.started cfg w ->
  Worker.stdout w = Spec.uncancelled texts ->
  run cfg w =
  Spec.header (build_cmd cfg) ++ Spec.line_events texts
  ++ Worker.Wait :: Worker.after_loop (Worker.returncode w).
Proof.
  intros Hs Hout. rewrite (run_started Path path_str sys_executable cfg w Hs).
  rewrite Hout, <- (app_nil_r (Spec.uncancelled texts)), read_loop_uncancelled.
  cbn [Worker.read_loop fst snd]. now rewrite app_nil_r.
Qed.

Lemma run_stopped cfg w texts (r : Worker.read) rest :
  Spec.started cfg w ->
  Worker.stdout w = Spec.uncancelled texts ++ r :: rest ->
  (forall text, r <> Worker.Line false text) ->
  run cfg w =
  Spec.header (build_cmd cfg) ++ Spec.line_events texts
  ++ match r with
     | Worker.Line _ _ =>
         [Worker.Terminate; Worker.finished false "Download canceled."]
     | Worker.ReadError e =>
         [Worker.finished false ("Error during download: " ++ e)]
     end.
Proof.
  intros Hs Hout Hr. rewrite (run_started Path path_str sys_executable cfg w Hs).
  rewrite Hout, read_loop_uncancelled.
  destruct r as [[|] text | e]; try reflexivity.
  now destruct (Hr text).
Qed.

Lemma header_views (cmd : list string) :
  Trace.logged (Spec.header cmd)
  = ["Command:"; PyStr.join " " (map Worker.quote cmd)]
  /\ Trace.outcomes (Spec.header cmd) = []
  /\ Trace.launches (Spec.header cmd) = [cmd].
Proof. repeat split. Qed.

(** When the command is built and the process ends, [run] sends [finished]
    exactly once, as its last event. *)
Lemma run_single_outcome cfg w :
  exists pre ok msg,
    run cfg w = pre ++ [Worker.finished ok msg]
    /\ Trace.outcomes pre = []
    /\ Trace.outcomes (run cfg w) = [(ok, msg)].
Proof.
  assert (Hgen : forall pre ok msg,
             run cfg w = pre ++ [Worker.finished ok msg] ->
             Trace.outcomes pre = [] ->
             exists pre ok msg,
               run cfg w = pre ++ [Worker.finished ok msg]
               /\ Trace.outcomes pre = []
               /\ Trace.outcomes (run cfg w) = [(ok, msg)]).
  { intros pre ok msg Hrun Hpre. exists pre, ok, msg.
    split; [assumption|]. split; [assumption|].
    now rewrite Hrun, outcomes_app, Hpre. }
  pose proof (fun texts => proj1 (proj2 (line_events_views texts))) as Hle.
  destruct (run_cases Path path_str sys_executable cfg w)
    as [[_ H] | [[_ (e & _ & H)] | [(_ & _ & e & _ & H)
       | [[_ (texts & _ & _ & H)] | [[_ (texts & _ & _ & H)]
       | [[_ (texts & t & rest & _ & H)] | [_ (texts & e & rest & _ & H)]]]]]]].
  - apply (Hgen [] _ _ H). reflexivity.
  - apply (Hgen [Worker.Mkdir] _ _ H). reflexivity.
  - apply (Hgen _ _ _ H). reflexivity.
  - apply (Hgen (Spec.header (build_cmd cfg) ++ Spec.line_events texts
                 ++ [Worker.Wait; Worker.progress 100]) true "Download completed.").
    + rewrite H, <- !app_assoc. reflexivity.
    + rewrite !outcomes_app, Hle. reflexivity.
  - apply (Hgen (Spec.header (build_cmd cfg) ++ Spec.line_events texts
                 ++ [Worker.Wait]) false
             ("yt-dlp exited with code "
              ++ PyStr.str_of_int (Worker.returncode w) ++ ".")%string).
    + rewrite H, <- !app_assoc. reflexivity.
    + rewrite !outcomes_app, Hle. reflexivity.
  - apply (Hgen (Spec.header (build_cmd cfg) ++ Spec.line_events texts
                 ++ [Worker.Terminate]) false "Download canceled.").
    + rewrite H, <- !app_assoc. reflexivity.
    + rewrite !outcomes_app, Hle. reflexivity.
  - apply (Hgen (Spec.header (build_cmd cfg) ++ Spec.line_events texts) false
             ("Error during download: " ++ e)%string).
    + rewrite H, <- !app_assoc. reflexivity.
    + rewrite !outcomes_app, Hle. reflexivity.
Qed.

(** X2. Every percent that a run reports lies between 0 and 100. *)
Theorem run_percent_range cfg w (n : Z) :
  In (Worker.progress n) (run cfg w) -> 0 <= n <= 100.
Proof.
  pose proof (fun texts => proj1 (proj2 (proj2 (proj2 (line_events_views texts)))))
    as Hle.
  destruct (run_cases Path path_str sys_executable cfg w)
    as [[_ H] | [[_ (e & _ & H)] | [(_ & _ & e & _ & H)
       | [[_ (texts & _ & _ & H)] | [[_ (texts & _ & _ & H)]
       | [[_ (texts & t & rest & _ & H)] | [_ (texts & e & rest & _ & H)]]]]]]];
    rewrite H; rewrite ?in_app_iff; simpl;
    intros Hin;
    repeat match goal with
      | Hin : _ \/ _ |- _ => destruct Hin as [Hin | Hin]
      end;
    try discriminate Hin; try contradiction;
    try (injection Hin as <-; lia);
    eauto.
Qed.

(** When the command is built, [run] launches one process with it if the URL
    is not blank and the output folder could be made, and none otherwise. *)
Lemma run_launches cfg w :
  (PyStr.strip (Worker.url cfg) <> EmptyString /\ Worker.mkdir_error w = None ->
   Trace.launches (run cfg w) = [build_cmd cfg])
  /\ (~ (PyStr.strip (Worker.url cfg) <> EmptyString
         /\ Worker.mkdir_error w = None) ->
      Trace.launches (run cfg w) = []).
Proof.
  pose proof (fun texts => proj1 (proj2 (proj2 (line_events_views texts)))) as Hle.
  destruct (run_cases Path path_str sys_executable cfg w)
    as [[Hu H] | [[Hu (e & Hmk & H)] | [(Hu & Hmk & e & _ & H)
       | [[(Hu & Hmk & _) (texts & _ & _ & H)]
       | [[(Hu & Hmk & _) (texts & _ & _ & H)]
       | [[(Hu & Hmk & _) (texts & t & rest & _ & H)]
       | [(Hu & Hmk & _) (texts & e & rest & _ & H)]]]]]]];
    rewrite H, ?launches_app, ?Hle; split; intros Hc;
    try reflexivity;
    try (destruct Hc as [Hc1 Hc2]; congruence);
    exfalso; apply Hc; split; assumption.
Qed.

(** X4. Once the process is started, the log receives "Command:", the command
    line, and then every output line that the loop processes, without its
    trailing white space, in the order read. *)
Theorem run_log cfg w :
  Spec.started cfg w ->
  Trace.logged (run cfg w)
  = ["Command:"; PyStr.join " " (map Worker.quote (build_cmd cfg))]
    ++ map PyStr.rstrip (Trace.lines_read (Worker.stdout w)).
Proof.
  intros Hs.
  pose proof (fun texts => proj1 (line_events_views texts)) as Hle.
  destruct (run_cases Path path_str sys_executable cfg w)
    as [[Hu H] | [[_ (e & Hmk & H)] | [(_ & _ & e & Hpo & H)
       | [[_ (texts & Hout & _ & H)] | [[_ (texts & Hout & _ & H)]
       | [[_ (texts & t & rest & Hout & H)]
       | [_ (texts & e & rest & Hout & H)]]]]]]].
  - destruct Hs as (Hu' & _). contradiction.
  - destruct Hs as (_ & Hmk' & _). congruence.
  - destruct Hs as (_ & _ & Hpo'). congruence.
  - rewrite H, Hout, !logged_app, Hle.
    rewrite <- (app_nil_r (Spec.uncancelled texts)), lines_read_uncancelled.
    cbn [Trace.lines_read Trace.logged Spec.header flat_map app].
    now rewrite !app_nil_r.
  - rewrite H, Hout, !logged_app, Hle.
    rewrite <- (app_nil_r (Spec.uncancelled texts)), lines_read_uncancelled.
    cbn [Trace.lines_read Trace.logged Spec.header flat_map app].
    now rewrite !app_nil_r.
  - rewrite H, Hout, !logged_app, Hle, lines_read_uncancelled.
    cbn [Trace.lines_read Trace.logged Spec.header flat_map app].
    now rewrite !app_nil_r.
  - rewrite H, Hout, !logged_app, Hle, lines_read_uncancelled.
    cbn [Trace.lines_read Trace.logged Spec.header flat_map app].
    now rewrite !app_nil_r.
Qed.

(** X5. A run reports success exactly when the process was started, its
    output was read to the end without cancellation or read error, and its
    exit code is 0. *)
Theorem run_success_iff cfg w :
  (exists msg, Trace.outcomes (run cfg w) = [(true, msg)])
  <-> (Spec.started cfg w
       /\ (exists texts, Worker.stdout w = Spec.uncancelled texts)
       /\ Worker.returncode w = 0).
Proof.
  pose proof (fun texts => proj1 (proj2 (line_events_views texts))) as Hle.
  split.
  - intros [msg Hout].
    destruct (run_cases Path path_str sys_executable cfg w)
      as [[_ H] | [[_ (e & _ & H)] | [(_ & _ & e & _ & H)
         | [[Hs (texts & Ho & Hret & H)] | [[_ (texts & _ & _ & H)]
         | [[_ (texts & t & rest & _ & H)] | [_ (texts & e & rest & _ & H)]]]]]]];
      rewrite H, ?outcomes_app, ?Hle in Hout; try discriminate Hout.
    split; [assumption|]. split; [eauto | assumption].
  - intros (Hs & (texts & Ho) & Hret).
    exists "Download completed.".
    rewrite (run_to_end cfg w texts Hs Ho), !outcomes_app, Hle.
    unfold Worker.after_loop. rewrite Hret. reflexivity.
Qed.

(** X6. The worker waits for the exit code exactly when it read the output to
    the end, and asks the process to terminate exactly when it observed the
    cancellation: after a cancellation or a read error it does not wait. *)
Theorem run_wait_terminate cfg w :
  (In Worker.Wait (run cfg w)
   <-> Spec.started cfg w
       /\ exists texts, Worker.stdout w = Spec.uncancelled texts)
  /\ (In Worker.Terminate (run cfg w)
      <-> Spec.started cfg w /\ Spec.cancel_observed (Worker.stdout w)).
Proof.
  pose proof (fun texts =>
                proj1 (proj2 (proj2 (proj2 (proj2 (line_events_views texts))))))
    as HnoW.
  pose proof (fun texts =>
                proj2 (proj2 (proj2 (proj2 (proj2 (line_events_views texts))))))
    as HnoT.
  assert (Hhd : forall cmd, ~ In Worker.Wait (Spec.header cmd)
                            /\ ~ In Worker.Terminate (Spec.header cmd)).
  { intros cmd. split; simpl; intros H;
      repeat (destruct H as [H | H]; [discriminate H|]); exact H. }
  split; split.
  - intros Hin.
    destruct (run_cases Path path_str sys_executable cfg w)
      as [[_ H] | [[_ (e & _ & H)] | [(_ & _ & e & _ & H)
         | [[Hs (texts & Ho & _ & H)] | [[Hs (texts & Ho & _ & H)]
         | [[_ (texts & t & rest & _ & H)] | [_ (texts & e & rest & _ & H)]]]]]]];
      rewrite H in Hin; rewrite ?in_app_iff in Hin;
      try (split; [assumption | eauto]);
      exfalso;
      repeat match goal with
        | Hin : _ \/ _ |- _ => destruct Hin as [Hin | Hin]
        end;
      try discriminate Hin;
      try (apply (proj1 (Hhd _)) in Hin; exact Hin);
      try (apply HnoW in Hin; exact Hin);
      simpl in Hin;
      repeat match goal with
        | Hin : _ \/ _ |- _ => destruct Hin as [Hin | Hin]
        end;
      try discriminate Hin; try contradiction.
  - intros (Hs & texts & Ho). rewrite (run_to_end cfg w texts Hs Ho).
    rewrite !in_app_iff. right; right. left. reflexivity.
  - intros Hin.
    destruct (run_cases Path path_str sys_executable cfg w)
      as [[_ H] | [[_ (e & _ & H)] | [(_ & _ & e & _ & H)
         | [[_ (texts & _ & _ & H)] | [[_ (texts & _ & _ & H)]
         | [[Hs (texts & t & rest & Ho & H)] | [_ (texts & e & rest & _ & H)]]]]]]];
      rewrite H in Hin; rewrite ?in_app_iff in Hin;
      try (split; [assumption | exists texts, t, rest; assumption]);
      exfalso;
      repeat match goal with
        | Hin : _ \/ _ |- _ => destruct Hin as [Hin | Hin]
        end;
      try discriminate Hin;
      try (apply (proj2 (Hhd _)) in Hin; exact Hin);
      try (apply HnoT in Hin; exact Hin);
      simpl in Hin;
      repeat match goal with
        | Hin : _ \/ _ |- _ => destruct Hin as [Hin | Hin]
        end;
      try discriminate Hin; try contradiction.
  - intros (Hs & texts & t & rest & Ho).
    rewrite (run_stopped cfg w texts _ rest Hs Ho) by discriminate.
    rewrite !in_app_iff. right; right. left. reflexivity.
Qed.

(** X7. When reading the output raises an error, the lines read before it are
    processed as usual and the run ends with the failure "Error during
    download: " and the message of the error; the process is neither asked
    to terminate nor waited for, and the lines after the error are not
    read. *)
Theorem read_error_outcome cfg w texts (e : string) rest :
  Spec.started cfg w ->
  Worker.stdout w = Spec.uncancelled texts ++ Worker.ReadError e :: rest ->
  run cfg w =
  Spec.header (build_cmd cfg) ++ Spec.line_events texts
  ++ [Worker.finished false ("Error during download: " ++ e)].
Proof.
  intros Hs Ho. rewrite (run_stopped cfg w texts _ rest Hs Ho) by discriminate.
  reflexivity.
Qed.

End RunProperties.

(** ** The percent and the number *)

Lemma int_of_fraction_bounds (n d p : Z) :
  0 <= n -> 0 < d ->
  PyFloat.int (PyFloat.of_fraction n d) = Some p ->
  Z.min (n / d) 100 <= Z.min (Z.max p 0) 100 <= Z.min (n / d + 1) 100.
Proof.
  intros Hn Hd. unfold PyFloat.of_fraction.
  destruct (Z.eqb_spec n 0) as [->|Hn0].
  { cbn [PyFloat.int]. intros [= <-]. rewrite Z.div_0_l by lia. simpl. lia. }
  assert (Hn' : 0 < n) by lia.
  cbv zeta.
  destruct (floor_log2_bounds n d Hn' Hd) as [Hpos _].
  set (fl := PyFloat.floor_log2_ratio n d) in *.
  set (e := Z.max (fl - 52) (-1074)).
  destruct (Z.leb_spec 0 e) as [He | He]; cbn [andb].
  - destruct (2 ^ 1024 <=? _); [discriminate|].
    cbn [PyFloat.int]. destruct (Z.leb_spec 0 e); [|lia]. intros [= <-].
    assert (Hfl0 : 0 <= fl) by lia.
    destruct (Hpos Hfl0) as [Hlo _].
    assert (HP : 0 < 2 ^ e) by (apply Z.pow_pos_nonneg; lia).
    replace fl with (e + 52) in Hlo by lia.
    rewrite pow2_split in Hlo by lia.
    set (P := 2 ^ e) in *.
    assert (HD : 0 < d * P) by lia.
    assert (Hq : 2 ^ 52 <= n / (d * P)) by (apply Z.div_le_lower_bound; lia).
    assert (Hnd : 2 ^ 52 <= n / d).
    { apply Z.div_le_lower_bound; [lia|]. nia. }
    destruct (round_half_even_cases n (d * P) HD) as [[-> _] | [-> _]];
      set (q := n / (d * P)) in *.
    + assert (2 ^ 52 * 1 <= q * P) by (apply Z.mul_le_mono_nonneg; lia). lia.
    + assert (2 ^ 52 * 1 <= (q + 1) * P) by (apply Z.mul_le_mono_nonneg; lia). lia.
  - cbn [PyFloat.int]. destruct (Z.leb_spec 0 e); [lia|]. intros [= <-].
    set (K := 2 ^ (- e)).
    assert (HK : 0 < K) by (apply Z.pow_pos_nonneg; lia).
    assert (Hq0 : 0 <= n * K / d) by (apply Z.div_pos; nia).
    assert (Hqk : n * K / d / K = n / d).
    { rewrite Z.div_div by lia. rewrite Z.div_mul_cancel_r by lia. reflexivity. }
    assert (Hup : (n * K / d + 1) / K <= n / d + 1).
    { rewrite <- Hqk.
      transitivity ((n * K / d + 1 * K) / K).
      - apply Z.div_le_mono; lia.
      - rewrite Z.div_add by lia. lia. }
    assert (Hlo : n / d <= (n * K / d + 1) / K).
    { rewrite <- Hqk. apply Z.div_le_mono; lia. }
    assert (Hnd : 0 <= n / d) by (apply Z.div_pos; lia).
    destruct (round_half_even_cases (n * K) d Hd) as [[-> _] | [-> _]].
    + rewrite Z.quot_div_nonneg by lia. rewrite Hqk. lia.
    + rewrite Z.quot_div_nonneg by lia. lia.
Qed.

Lemma int_of_fraction_exact (n d : Z) :
  0 <= n -> 0 < d -> n < 100 * d -> d <= 10 ^ 13 ->
  PyFloat.int (PyFloat.of_fraction n d) = Some (n / d).
Proof.
  intros Hn Hd Hlt Hdig. unfold PyFloat.of_fraction.
  destruct (Z.eqb_spec n 0) as [->|Hn0].
  { cbn [PyFloat.int]. rewrite Z.div_0_l by lia. reflexivity. }
  assert (Hn' : 0 < n) by lia.
  cbv zeta.
  destruct (floor_log2_bounds n d Hn' Hd) as [Hpos _].
  set (fl := PyFloat.floor_log2_ratio n d) in *.
  assert (Hfl : fl <= 6).
  { destruct (Z.le_gt_cases fl 6) as [|Hgt]; [assumption|exfalso].
    destruct (Hpos ltac:(lia)) as [Hlo _].
    assert (2 ^ 7 <= 2 ^ fl) by (apply Z.pow_le_mono_r; lia).
    assert (d * 2 ^ 7 <= d * 2 ^ fl) by (apply Z.mul_le_mono_nonneg_l; lia).
    lia. }
  set (e := Z.max (fl - 52) (-1074)).
  assert (He : e <= -46) by lia.
  destruct (Z.leb_spec 0 e); [lia|]. cbn [andb PyFloat.int].
  destruct (Z.leb_spec 0 e); [lia|]. f_equal.
  assert (HK46 : 2 ^ 46 <= 2 ^ (- e)) by (apply Z.pow_le_mono_r; lia).
  set (K := 2 ^ (- e)) in *.
  assert (HK : 0 < K) by lia.
  assert (HdK : d < K) by lia.
  assert (Hq0 : 0 <= n * K / d) by (apply Z.div_pos; nia).
  assert (Hqk : n * K / d / K = n / d).
  { rewrite Z.div_div by lia. rewrite Z.div_mul_cancel_r by lia. reflexivity. }
  destruct (round_half_even_cases (n * K) d Hd) as [[-> _] | [-> _]];
    rewrite Z.quot_div_nonneg by lia; [exact Hqk|].
  pose proof (Z.div_mod n d ltac:(lia)) as Hnd.
  pose proof (Z.mod_pos_bound n d Hd) as Hr.
  pose proof (Z.mul_div_le (n * K) d Hd) as Hqd.
  set (q := n * K / d) in *. set (fv := n / d) in *. set (r := n mod d) in *.
  assert (Hfv : 0 <= fv) by (apply Z.div_pos; lia).
  apply Z.le_antisymm.
  - assert ((q + 1) / K < fv + 1); [|lia].
    apply Z.div_lt_upper_bound; [lia|].
    destruct (Z.lt_ge_cases (q + 1) (K * (fv + 1))) as [|Hge]; [assumption|exfalso].
    assert (d * (K * (fv + 1) - 1) <= d * q) by (apply Z.mul_le_mono_nonneg_l; lia).
    assert (n * K = d * fv * K + r * K) by (rewrite Hnd at 1; ring).
    assert (r * K <= (d - 1) * K) by (apply Z.mul_le_mono_nonneg_r; lia).
    nia.
  - rewrite <- Hqk. apply Z.div_le_mono; lia.
Qed.

Lemma first_match_number (line g : string) :
  Spec.first_match line g -> Spec.number g.
Proof.
  intros (pre & s & _ & (ws & rest & _ & _ & _ & Hg) & _). exact Hg.
Qed.

Lemma on_line_first_match (text g : string) (n d : Z) :
  Spec.first_match (PyStr.rstrip text) g ->
  PyFloat.decimal_fraction g = Some (n, d) ->
  Worker.on_line text =
  Worker.log_line (PyStr.rstrip text)
  :: match PyFloat.int (PyFloat.of_fraction n d) with
     | Some p => [Worker.progress (Z.min (Z.max p 0) 100)]
     | None => []
     end.
Proof.
  intros Hfirst Hf. unfold Worker.on_line, PyFloat.float.
  now rewrite (first_match_search _ _ Hfirst), Hf.
Qed.

(** X8. For a line whose leftmost match has the number [n / d] (its digits
    over the power of ten of its fraction digits) and does not overflow, the
    percent reported is the integer part of the number or one more, capped at
    100; from 100 on it is 100. *)
Theorem percent_bounds (text g : string) (n d : Z) :
  Spec.first_match (PyStr.rstrip text) g ->
  PyFloat.decimal_fraction g = Some (n, d) ->
  ~ Spec.overflows g ->
  exists r,
    Worker.on_line text
    = [Worker.log_line (PyStr.rstrip text); Worker.progress r]
    /\ Z.min (n / d) 100 <= r <= Z.min (n / d + 1) 100.
Proof.
  intros Hfirst Hf Hno.
  destruct (number_fraction_defined g (first_match_number _ _ Hfirst))
    as (n' & d' & Hf' & Hn & Hd).
  rewrite Hf in Hf'. injection Hf' as <- <-.
  rewrite (on_line_first_match text g n d Hfirst Hf).
  destruct (PyFloat.int (PyFloat.of_fraction n d)) as [p|] eqn:Hp.
  - eexists. split; [reflexivity|]. now apply int_of_fraction_bounds.
  - exfalso. apply Hno. exists n, d. split; [assumption|].
    destruct (PyFloat.of_fraction n d) as [m e|] eqn:E; [discriminate|].
    destruct (Z.eq_dec n 0) as [->|Hn0].
    + rewrite of_fraction_zero in E. discriminate.
    + apply (of_fraction_infinite n d); [lia | assumption | assumption].
Qed.

(** X9. When the number is below 100 and has at most 13 digits after the
    dot, the percent reported is exactly its integer part: the rounding of
    the float cannot reach the next integer. *)
Theorem percent_exact (text g : string) (n d : Z) :
  Spec.first_match (PyStr.rstrip text) g ->
  PyFloat.decimal_fraction g = Some (n, d) ->
  n < 100 * d ->
  d <= 10 ^ 13 ->
  Worker.on_line text
  = [Worker.log_line (PyStr.rstrip text); Worker.progress (n / d)].
Proof.
  intros Hfirst Hf Hlt Hdig.
  destruct (number_fraction_defined g (first_match_number _ _ Hfirst))
    as (n' & d' & Hf' & Hn & Hd).
  rewrite Hf in Hf'. injection Hf' as <- <-.
  rewrite (on_line_first_match text g n d Hfirst Hf).
  rewrite (int_of_fraction_exact n d Hn Hd Hlt Hdig).
  assert (0 <= n / d) by (apply Z.div_pos; lia).
  assert (n / d < 100) by (apply Z.div_lt_upper_bound; lia).
  do 3 f_equal. lia.
Qed.

(** ** From the form to the command *)

Lemma mem_In (x : string) (l : list string) : PyStr.mem x l = true -> In x l.
Proof.
  unfold PyStr.mem. intros H. apply existsb_exists in H as (y & Hy & E).
  apply String.eqb_eq in E. now subst.
Qed.

Lemma In_launches (cmd : list string) (tr : list Worker.event) :
  In (Worker.Popen cmd) tr -> In cmd (Trace.launches tr).
Proof.
  intros H. unfold Trace.launches. apply in_flat_map.
  exists (Worker.Popen cmd). split; [assumption | now left].
Qed.

Section FormProperties.

Variable Path : Type.
Variable path_str : Path -> string -> string.
Variable sys_executable : string.

Abbreviation build_cmd := (Worker.build_cmd path_str sys_executable).
Abbreviation run := (Worker.run path_str sys_executable).
Abbreviation start_download := (UI.start_download path_str sys_executable).

Implicit Type f : UI.form Path.

(** What an accepted form has passed, and what [validate_inputs] changed. *)
Lemma validate_inputs_inv f f' :
  UI.validate_inputs f = inr f' ->
  PyStr.truthy (PyStr.strip (UI.url_edit f)) = true
  /\ PyStr.startswith (PyStr.strip (UI.url_edit f)) "http://"
     || PyStr.startswith (PyStr.strip (UI.url_edit f)) "https://" = true
  /\ (if (PyStr.lower (UI.mode_combo f) =? "video")%string
      then PyStr.mem (UI.video_quality_combo f) Worker.VIDEO_QUALITIES = true
           /\ PyStr.mem (UI.video_container_combo f) Worker.VIDEO_CONTAINERS = true
      else PyStr.mem (UI.audio_format_combo f) Worker.AUDIO_FORMATS = true
           /\ PyStr.mem (UI.audio_bitrate_combo f) Worker.AUDIO_BITRATES = true)
  /\ f' = (if negb (PyStr.truthy (PyStr.strip (UI.template_edit f)))
              && negb (PyStr.truthy (PyStr.strip (UI.meta_title f)))
           then UI.set_template_edit f Worker.DEFAULT_TEMPLATE else f).
Proof.
  unfold UI.validate_inputs.
  destruct (PyStr.truthy (PyStr.strip (UI.url_edit f))); [|discriminate].
  destruct (PyStr.startswith _ "http://" || PyStr.startswith _ "https://");
    [|discriminate].
  cbn [negb]. cbv zeta.
  destruct (PyStr.lower (UI.mode_combo f) =? "video")%string.
  - destruct (PyStr.mem (UI.video_quality_combo f) _); [|discriminate].
    destruct (PyStr.mem (UI.video_container_combo f) _); [|discriminate].
    cbn [negb].
    destruct (negb _ && negb _); intros [= <-]; repeat split.
  - destruct (PyStr.mem (UI.audio_format_combo f) _); [|discriminate].
    destruct (PyStr.mem (UI.audio_bitrate_combo f) _); [|discriminate].
    cbn [negb].
    destruct (negb _ && negb _); intros [= <-]; repeat split.
Qed.

(** The defaulting of the template by [validate_inputs] changes nothing for
    [build_config], which defaults a blank template itself. *)
Lemma build_config_validated f f' :
  UI.validate_inputs f = inr f' -> UI.build_config f' = UI.build_config f.
Proof.
  intros H. destruct (validate_inputs_inv f f' H) as (_ & _ & _ & ->).
  destruct (PyStr.truthy (PyStr.strip (UI.template_edit f))) eqn:Ht;
    cbn [negb andb]; [reflexivity|].
  destruct (PyStr.truthy (PyStr.strip (UI.meta_title f))); cbn [negb];
    [reflexivity|].
  unfold UI.build_config, UI.set_template_edit; cbn. now rewrite Ht.
Qed.

(** X10. For a form that [validate_inputs] accepts, the configuration built
    has a URL that is trimmed, not empty and starts with "http://" or
    "https://"; in mode "video" its quality and container are among
    VIDEO_QUALITIES and VIDEO_CONTAINERS, in any other mode its format and
    bitrate are among AUDIO_FORMATS and AUDIO_BITRATES. *)
Theorem validated_config f f' :
  UI.validate_inputs f = inr f' ->
  let cfg := UI.build_config f' in
  PyStr.strip (Worker.url cfg) = Worker.url cfg
  /\ Worker.url cfg <> EmptyString
  /\ (PyStr.startswith (Worker.url cfg) "http://" = true
      \/ PyStr.startswith (Worker.url cfg) "https://" = true)
  /\ (Worker.mode cfg = "video" ->
      In (Worker.video_quality cfg) Worker.VIDEO_QUALITIES
      /\ In (Worker.video_container cfg) Worker.VIDEO_CONTAINERS)
  /\ (Worker.mode cfg <> "video" ->
      In (Worker.audio_format cfg) Worker.AUDIO_FORMATS
      /\ In (Worker.audio_bitrate cfg) Worker.AUDIO_BITRATES).
Proof.
  intros H cfg. unfold cfg. rewrite (build_config_validated f f' H).
  destruct (validate_inputs_inv f f' H) as (Hu & Hp & Hm & _).
  cbn [UI.build_config Worker.url Worker.mode Worker.video_quality
         Worker.video_container Worker.audio_format Worker.audio_bitrate].
  split; [apply strip_idempotent|].
  split; [destruct (PyStr.strip (UI.url_edit f)); [discriminate Hu | discriminate]|].
  split; [now apply orb_prop in Hp|].
  split.
  - intros Hmode. rewrite Hmode, String.eqb_refl in Hm. destruct Hm as [Hq Hc].
    split; [now apply mem_In|].
    apply mem_In in Hc. destruct Hc as [<- | [<- | []]]; cbn; tauto.
  - intros Hmode. apply String.eqb_neq in Hmode. rewrite Hmode in Hm.
    destruct Hm as [Hf Hb]. split; [|now apply mem_In].
    apply mem_In in Hf.
    destruct Hf as [<- | [<- | [<- | [<- | [<- | [<- | []]]]]]]; cbn; tauto.
Qed.

(** X11. Validation is idempotent: the form that it returns is accepted
    again and returned unchanged, and it gives the same configuration as the
    form before validation. *)
Theorem validate_inputs_idempotent f f' :
  UI.validate_inputs f = inr f' ->
  UI.validate_inputs f' = inr f'
  /\ UI.build_config f' = UI.build_config f.
Proof.
  intros H. split; [|now apply build_config_validated].
  destruct (validate_inputs_inv f f' H) as (Hu & Hp & Hm & Hf').
  assert (Hsame : UI.url_edit f' = UI.url_edit f
                  /\ UI.mode_combo f' = UI.mode_combo f
                  /\ UI.video_quality_combo f' = UI.video_quality_combo f
                  /\ UI.video_container_combo f' = UI.video_container_combo f
                  /\ UI.audio_format_combo f' = UI.audio_format_combo f
                  /\ UI.audio_bitrate_combo f' = UI.audio_bitrate_combo f
                  /\ UI.meta_title f' = UI.meta_title f).
  { rewrite Hf'. destruct (negb _ && negb _); repeat split. }
  destruct Hsame as (E1 & E2 & E3 & E4 & E5 & E6 & E7).
  unfold UI.validate_inputs. rewrite E1, E2, E3, E4, E5, E6, E7, Hu, Hp.
  cbn [negb]. cbv zeta.
  destruct (PyStr.lower (UI.mode_combo f) =? "video")%string;
    destruct Hm as [-> ->]; cbn [negb].
  - rewrite Hf'.
    destruct (PyStr.truthy (PyStr.strip (UI.template_edit f))) eqn:Ht;
      cbn [negb andb]; [now rewrite ?Ht|].
    destruct (PyStr.truthy (PyStr.strip (UI.meta_title f))) eqn:Hti;
      cbn [negb andb]; [now rewrite ?Ht, ?Hti|].
    reflexivity.
  - rewrite Hf'.
    destruct (PyStr.truthy (PyStr.strip (UI.template_edit f))) eqn:Ht;
      cbn [negb andb]; [now rewrite ?Ht|].
    destruct (PyStr.truthy (PyStr.strip (UI.meta_title f))) eqn:Hti;
      cbn [negb andb]; [now rewrite ?Ht, ?Hti|].
    reflexivity.
Qed.

End FormProperties.

Section FormCommand.

Variable Path : Type.
Variable path_str : Path -> string -> string.
Variable sys_executable : string.

Abbreviation build_cmd := (Worker.build_cmd path_str sys_executable).
Abbreviation run := (Worker.run path_str sys_executable).
Abbreviation start_download := (UI.start_download path_str sys_executable).

Implicit Type f : UI.form Path.
Implicit Type cfg : Worker.DownloadConfig Path.

Lemma build_cmd_last cfg :
  last (build_cmd cfg) EmptyString = PyStr.strip (Worker.url cfg).
Proof.
  rewrite (build_cmd_shape Path path_str sys_executable cfg), !app_assoc.
  apply last_last.
Qed.

(** X12. Whatever the form and the world, a process that [start_download]
    launches gets as last argument the trimmed text of the URL field, and
    that text starts with "http://" or "https://". *)
Theorem launched_url f (w : Worker.world) (cmd : list string) :
  In (Worker.Popen cmd) (snd (start_download f w)) ->
  last cmd EmptyString = PyStr.strip (UI.url_edit f)
  /\ (PyStr.startswith (last cmd EmptyString) "http://" = true
      \/ PyStr.startswith (last cmd EmptyString) "https://" = true).
Proof.
  unfold UI.start_download.
  destruct (UI.validate_inputs f) as [msg | f'] eqn:Hv; cbn [snd]; [intros []|].
  rewrite (build_config_validated Path f f' Hv).
  intros Hin. apply In_launches in Hin.
  destruct (validate_inputs_inv Path f f' Hv) as (_ & Hp & _ & _).
  destruct (run_launches Path path_str sys_executable (UI.build_config f) w)
    as [Hyes Hno].
  assert (Hcmd : cmd = build_cmd (UI.build_config f)).
  { destruct (Worker.mkdir_error w) as [e|] eqn:Hmk.
    - rewrite Hno in Hin by (intros [_ H]; discriminate H). destruct Hin.
    - destruct (PyStr.strip (Worker.url (UI.build_config f))) eqn:Hu.
      + rewrite Hno in Hin by (intros [H _]; now apply H). destruct Hin.
      + rewrite Hyes in Hin by (split; [discriminate | reflexivity]).
        destruct Hin as [<- | []]. reflexivity. }
  subst cmd. rewrite build_cmd_last.
  cbn [UI.build_config Worker.url]. rewrite strip_idempotent.
  split; [reflexivity|]. now apply orb_prop in Hp.
Qed.

(** X13. For an accepted form in mode "video" the quality is "Best", with the
    selector without height, or a tier of QUALITY_TO_HEIGHT, with the
    selector capped at its height: the fall-back for a quality without
    height is never used.  The container is passed as chosen. *)
Theorem validated_video_command f f' :
  UI.validate_inputs f = inr f' ->
  PyStr.lower (UI.mode_combo f) = "video" ->
  exists pre sel,
    build_cmd (UI.build_config f') =
    pre ++ ["-f"; sel; "--merge-output-format"; UI.video_container_combo f;
            PyStr.strip (UI.url_edit f)]
    /\ ((UI.video_quality_combo f = "Best"
         /\ sel = "bestvideo+bestaudio/best")
        \/ exists h,
             PyStr.dict_get Worker.QUALITY_TO_HEIGHT (UI.video_quality_combo f)
             = Some h
             /\ sel = ("bestvideo[height<=" ++ h
                       ++ "]+bestaudio/best[height<=" ++ h ++ "]")%string).
Proof.
  intros Hv Hmode. rewrite (build_config_validated Path f f' Hv).
  destruct (validate_inputs_inv Path f f' Hv) as (_ & _ & Hm & _).
  rewrite Hmode, String.eqb_refl in Hm. destruct Hm as [Hq Hc].
  rewrite (build_cmd_shape Path path_str sys_executable).
  unfold Spec.format_part.
  cbn [UI.build_config Worker.mode Worker.video_container Worker.url].
  rewrite Hmode. cbn [String.eqb Ascii.eqb Bool.eqb andb].
  rewrite strip_idempotent.
  assert (Hlow : PyStr.lower (PyStr.lower (UI.video_container_combo f))
                 = UI.video_container_combo f).
  { apply mem_In in Hc. destruct Hc as [<- | [<- | []]]; reflexivity. }
  rewrite Hlow.
  eexists _, _. split; [rewrite !app_assoc, <- app_assoc; reflexivity|].
  unfold Spec.selector. cbn [UI.build_config Worker.video_quality].
  apply mem_In in Hq.
  destruct Hq as [<- | [<- | [<- | [<- | [<- | [<- | [<- | [<- | []]]]]]]]];
    [left; split; reflexivity | right; eexists; split; reflexivity ..].
Qed.

(** X14. For a command built from the form, the output template is the output
    directory joined with the trimmed title and the extension placeholder
    when the title is not blank, else with the trimmed text of the template
    field when that is not blank, else with the default pattern: a template
    of white space only gives the default. *)
Theorem form_output_template f :
  nth_error (build_cmd (UI.build_config f)) 6 =
  Some (path_str (UI.out_dir f)
          match PyStr.strip (UI.meta_title f) with
          | String _ _ as title => (title ++ ".%(ext)s")%string
          | EmptyString =>
              match PyStr.strip (UI.template_edit f) with
              | String _ _ as template => template
              | EmptyString => Worker.DEFAULT_TEMPLATE
              end
          end).
Proof.
  rewrite (build_cmd_shape Path path_str sys_executable).
  cbn [nth_error app]. f_equal. unfold Spec.out_template.
  cbn [UI.build_config Worker.meta_title_override Worker.out_dir
         Worker.name_template].
  rewrite strip_idempotent.
  destruct (PyStr.strip (UI.meta_title f)); [|reflexivity].
  destruct (PyStr.strip (UI.template_edit f)); reflexivity.
Qed.

(** X15. In mode "audio" the command ends with the selection of the best
    audio, the extraction into the format in lower case, the bitrate followed
    by "k" as quality, and the URL. *)
Theorem audio_format_selection cfg :
  Worker.mode cfg = "audio" ->
  exists pre,
    build_cmd cfg =
    pre ++ ["-f"; "bestaudio/best"; "--extract-audio";
            "--audio-format"; PyStr.lower (Worker.audio_format cfg);
            "--audio-quality"; (Worker.audio_bitrate cfg ++ "k")%string;
            PyStr.strip (Worker.url cfg)].
Proof.
  intros Hmode. rewrite (build_cmd_shape Path path_str sys_executable).
  unfold Spec.format_part. rewrite Hmode.
  cbn [String.eqb Ascii.eqb Bool.eqb andb].
  eexists. rewrite !app_assoc, <- app_assoc. reflexivity.
Qed.

End FormCommand.

(** ** The window *)

Section WindowProperties.

Variable Path : Type.

Implicit Type st : Window.state Path.

Lemma widget_eqb_eq (a b : Window.widget) :
  Window.widget_eqb a b = true <-> a = b.
Proof.
  split.
  - destruct a, b; intros H; try reflexivity; discriminate H.
  - intros ->. apply Nat.eqb_refl.
Qed.

Lemma update_other {A} (m : Window.widget -> A) (w x : Window.widget) (v : A) :
  x <> w -> Window.update m w v x = m x.
Proof.
  intros H. unfold Window.update.
  destruct (Window.widget_eqb x w) eqn:E; [|reflexivity].
  apply widget_eqb_eq in E. contradiction.
Qed.

Ltac window_compute :=
  cbn [Window.enabled Window.visible Window.effect Window.fields
         Window.worker Window.log_view Window.setEnabled
         Window.setVisible Window.set_fields Window.set_worker
         Window.append_log Window.clear_log Window.set_opacity
         Window.update_button_opacity fold_left
         Window.video_controls Window.audio_controls Window.inputs
         Window.update Window.widget_eqb Window.index Nat.eqb].

Lemma consistent_set_fields st (f : UI.form Path) :
  Window.consistent st ->
  UI.mode_combo f = UI.mode_combo (Window.fields st) ->
  UI.audio_format_combo f = UI.audio_format_combo (Window.fields st) ->
  Window.consistent (Window.set_fields f st).
Proof.
  intros (I1 & I2 & I3 & I4 & I5 & I6 & I7 & I8 & I9 & I10) Hm Hf.
  unfold Window.consistent. cbv zeta. window_compute.
  rewrite Hm, Hf. repeat split; assumption.
Qed.

Lemma consistent_toggle_mode st (f : UI.form Path) :
  Window.consistent st ->
  Window.worker st = None ->
  UI.audio_format_combo f = UI.audio_format_combo (Window.fields st) ->
  Window.consistent (Window.toggle_mode (Window.set_fields f st)).
Proof.
  intros (I1 & I2 & I3 & I4 & I5 & I6 & I7 & I8 & I9 & I10) Hw Hf.
  unfold Window.consistent, Window.toggle_mode. cbv zeta.
  set (is_video := (PyStr.lower (UI.mode_combo _) =? "video")%string).
  clearbody is_video.
  window_compute. rewrite I3, I4, Hf.
  split; [exact I1|]. split; [exact I2|].
  split; [reflexivity|]. split; [reflexivity|].
  split; [intros Hwk; now destruct Hwk|].
  split; [discriminate|].
  split; [exact I7|]. split; [exact I8|]. split; [exact I9 | exact I10].
Qed.

Lemma consistent_on_audio_format_changed st (f : UI.form Path) :
  Window.consistent st ->
  Window.worker st = None ->
  UI.mode_combo f = UI.mode_combo (Window.fields st) ->
  Window.consistent (Window.on_audio_format_changed (Window.set_fields f st)).
Proof.
  intros (I1 & I2 & I3 & I4 & I5 & I6 & I7 & I8 & I9 & I10) Hw Hm.
  unfold Window.consistent, Window.on_audio_format_changed. cbv zeta.
  cbn [Window.fields Window.set_fields].
  set (fmt := PyStr.lower (UI.audio_format_combo f)).
  set (show := PyStr.mem fmt _ && _).
  set (is_ogg := PyStr.mem fmt ["ogg"; "opus"]).
  set (has_rate := PyStr.mem fmt ["wav"; "flac"; "m4a"; "mp3"]).
  set (has_channels := PyStr.mem fmt ["wav"; "flac"; "m4a"; "mp3"; "ogg"; "opus"]).
  assert (Hshow : show = true -> PyStr.lower (UI.mode_combo f) = "audio").
  { unfold show. intros H. apply andb_prop in H as [_ H].
    now apply String.eqb_eq in H. }
  clearbody show has_rate has_channels.
  window_compute. rewrite I3, I4.
  split; [exact I1|]. split; [exact I2|].
  split; [reflexivity|]. split; [reflexivity|].
  split; [intros Hwk; now destruct Hwk|].
  split; [exact Hshow|].
  repeat split.
Qed.

Lemma consistent_append_log st (text : string) :
  Window.consistent st -> Window.consistent (Window.append_log text st).
Proof. intros H. exact H. Qed.

Lemma consistent_toggle_controls st (running : bool)
      (wk : option (Worker.DownloadConfig Path * bool)) :
  Window.consistent st ->
  running = match wk with Some _ => true | None => false end ->
  Window.consistent
    (Window.set_worker wk (Window.toggle_controls running st)).
Proof.
  intros (I1 & I2 & I3 & I4 & I5 & I6 & I7 & I8 & I9 & I10) Hr.
  unfold Window.consistent, Window.toggle_controls. cbv zeta.
  window_compute. rewrite I3, I4.
  split; [destruct wk; subst running; reflexivity|].
  split; [now destruct running|].
  split; [reflexivity|]. split; [reflexivity|].
  split.
  - intros Hwk w Hin. destruct wk; [|congruence]. subst running.
    cbn [In] in Hin.
    repeat (destruct Hin as [<- | Hin]; [reflexivity|]). destruct Hin.
  - repeat split; assumption.
Qed.

Lemma summary_log (l : list UI.ui_event) st :
  Window.consistent st ->
  Window.consistent
    (fold_left (fun st e => match e with
                            | UI.append_log text => Window.append_log text st
                            | _ => st
                            end) l st).
Proof.
  revert st. induction l as [|e l IH]; intros st H; [exact H|].
  cbn [fold_left]. apply IH. destruct e; exact H.
Qed.

Lemma summary_log_worker (l : list UI.ui_event) st :
  Window.worker
    (fold_left (fun st e => match e with
                            | UI.append_log text => Window.append_log text st
                            | _ => st
                            end) l st)
  = Window.worker st.
Proof.
  revert st. induction l as [|e l IH]; intros st; [reflexivity|].
  cbn [fold_left]. rewrite IH. now destruct e.
Qed.

Lemma validate_inputs_keeps (f f' : UI.form Path) :
  UI.validate_inputs f = inr f' ->
  UI.mode_combo f' = UI.mode_combo f
  /\ UI.audio_format_combo f' = UI.audio_format_combo f.
Proof.
  intros H. destruct (validate_inputs_inv Path f f' H) as (_ & _ & _ & ->).
  destruct (negb _ && negb _); split; reflexivity.
Qed.

Lemma consistent_start_download st :
  Window.consistent st -> Window.consistent (Window.start_download st).
Proof.
  intros H. unfold Window.start_download.
  destruct (UI.validate_inputs (Window.fields st)) as [msg | f'] eqn:Hv;
    [exact H|].
  cbv zeta. apply summary_log.
  destruct (validate_inputs_keeps _ _ Hv) as [Hm Hf].
  apply consistent_toggle_controls; [|reflexivity].
  apply (consistent_set_fields st f' H Hm Hf).
Qed.

Lemma consistent_cancel_download st :
  Window.consistent st -> Window.consistent (Window.cancel_download st).
Proof.
  intros H. unfold Window.cancel_download.
  destruct (Window.worker st) as [[cfg stop]|] eqn:Hw; [|exact H].
  destruct H as (I1 & I2 & I3 & I4 & I5 & I6 & I7 & I8 & I9 & I10).
  unfold Window.consistent. cbv zeta. window_compute.
  rewrite Hw in I1.
  split; [exact I1|]. split; [exact I2|]. split; [exact I3|].
  split; [exact I4|].
  split; [intros _; apply I5; rewrite Hw; discriminate|].
  repeat split; assumption.
Qed.

Lemma consistent_on_finished st (success : bool) (msg : string) :
  Window.consistent st -> Window.consistent (Window.on_finished success msg st).
Proof.
  intros H. unfold Window.on_finished. cbv zeta.
  assert (Hc : Window.consistent
                 (Window.set_worker None
                    (Window.toggle_controls false (Window.append_log msg st)))).
  { apply consistent_toggle_controls; [|reflexivity].
    now apply consistent_append_log. }
  destruct success; now apply consistent_append_log.
Qed.

Lemma consistent_init_ui (cwd : Path) : Window.consistent (Window.init_ui cwd).
Proof.
  vm_compute.
  repeat split; try discriminate.
  intros H. now destruct H.
Qed.

(** Every state that the window reaches is consistent. *)
Lemma reachable_consistent (cwd : Path) st :
  Window.reachable cwd st -> Window.consistent st.
Proof.
  induction 1 as [|st st' Hreach IH Hstep]; [apply consistent_init_ui|].
  assert (Hidle : forall w, In w Window.inputs ->
                            Window.enabled st w = true ->
                            Window.worker st = None).
  { intros w Hin Hen. destruct (Window.worker st) eqn:Hw; [|reflexivity].
    destruct IH as (_ & _ & _ & _ & I5 & _).
    rewrite I5 in Hen; [discriminate | congruence | exact Hin]. }
  destruct Hstep as [st f Hm Hf | st f Hen Hf | st f Hen Hm | st Hen | st Hen
                    | st line Hw | st success msg Hw].
  - now apply consistent_set_fields.
  - apply consistent_toggle_mode; [assumption | | assumption].
    apply (Hidle Window.mode_combo); [cbn; tauto | assumption].
  - apply consistent_on_audio_format_changed; [assumption | | assumption].
    apply (Hidle Window.audio_format_combo); [cbn; tauto | assumption].
  - now apply consistent_start_download.
  - now apply consistent_cancel_download.
  - now apply consistent_append_log.
  - now apply consistent_on_finished.
Qed.

(** X16. In every state that the window reaches, Download is enabled exactly
    when there is no worker and Cancel exactly when there is one; so
    [start_download], which a click on Download alone calls, never runs while
    a worker exists, and at most one worker exists at a time. *)
Theorem single_worker (cwd : Path) st :
  Window.reachable cwd st ->
  (Window.enabled st Window.start_btn = true <-> Window.worker st = None)
  /\ (Window.enabled st Window.cancel_btn = true <-> Window.worker st <> None).
Proof.
  intros H. destruct (reachable_consistent cwd st H) as (I1 & I2 & _).
  rewrite I2, I1. destruct (Window.worker st); cbn; split; split;
    intros; try discriminate; try reflexivity; congruence.
Qed.

(** X17. While a worker exists, each of the twenty input widgets of the form
    is disabled. *)
Theorem inputs_locked_while_running (cwd : Path) st (w : Window.widget) :
  Window.reachable cwd st ->
  Window.worker st <> None ->
  In w Window.inputs ->
  Window.enabled st w = false.
Proof.
  intros H Hw Hin.
  destruct (reachable_consistent cwd st H) as (_ & _ & _ & _ & I5 & _).
  now apply I5.
Qed.

(** X18. In every state that the window reaches, the opacity of Download and
    of Cancel is 1.0 when the button is enabled and 0.35 when it is not. *)
Theorem button_opacity_follows_enabled (cwd : Path) st :
  Window.reachable cwd st ->
  Window.effect st Window.start_btn
  = Some (if Window.enabled st Window.start_btn
          then Window.full else Window.dimmed)
  /\ Window.effect st Window.cancel_btn
     = Some (if Window.enabled st Window.cancel_btn
             then Window.full else Window.dimmed).
Proof.
  intros H. destruct (reachable_consistent cwd st H) as (_ & _ & I3 & I4 & _).
  split; assumption.
Qed.

(** X19. In every state that the window reaches, the group of advanced audio
    options is visible only in mode "audio", and the mp3, flac, ogg/opus and
    m4a controls in it are marked visible exactly when the audio format
    selected, in lower case, is theirs: at most one of them at a time. *)
Theorem advanced_options_visibility (cwd : Path) st :
  Window.reachable cwd st ->
  let fmt := PyStr.lower (UI.audio_format_combo (Window.fields st)) in
  (Window.visible st Window.adv_group = true ->
   PyStr.lower (UI.mode_combo (Window.fields st)) = "audio")
  /\ (Window.visible st Window.mp3_norm_check = true <-> fmt = "mp3")
  /\ (Window.visible st Window.flac_slider = true <-> fmt = "flac")
  /\ (Window.visible st Window.ogg_combo = true <-> fmt = "ogg" \/ fmt = "opus")
  /\ (Window.visible st Window.m4a_combo = true <-> fmt = "m4a").
Proof.
  intros H fmt.
  destruct (reachable_consistent cwd st H)
    as (_ & _ & _ & _ & _ & I6 & I7 & I8 & I9 & I10).
  cbv zeta in I7, I8, I9, I10. fold fmt in I7, I8, I9, I10.
  rewrite I7, I8, I9, I10. unfold PyStr.mem. cbn [existsb].
  rewrite !String.eqb_eq, orb_false_r, orb_true_iff, !String.eqb_eq.
  repeat split; try assumption; tauto.
Qed.

(** X20. In every state that the window reaches, closing the window is
    refused while Cancel is enabled, that is while a download runs; while
    Download is enabled it follows the answer to the question. *)
Theorem close_refused_while_running (cwd : Path) st (answer_yes : bool) :
  Window.reachable cwd st ->
  (Window.enabled st Window.cancel_btn = true ->
   Window.close_event st answer_yes = false)
  /\ (Window.enabled st Window.start_btn = true ->
      Window.close_event st answer_yes = answer_yes).
Proof.
  intros H. destruct (reachable_consistent cwd st H) as (I1 & I2 & _).
  unfold Window.close_event. rewrite I2, I1.
  destruct (Window.worker st); cbn; split; intros; try reflexivity; discriminate.
Qed.

(** X21. Whatever the outcome, [on_finished] leaves Download enabled, Cancel
    disabled, no worker and every input widget enabled, the controls of the
    mode that is not selected included; the opacity of the widgets other
    than the two buttons is as before. *)
Theorem on_finished_unlocks st (success : bool) (msg : string) :
  let st' := Window.on_finished success msg st in
  Window.worker st' = None
  /\ Window.enabled st' Window.start_btn = true
  /\ Window.enabled st' Window.cancel_btn = false
  /\ (forall w, In w Window.inputs -> Window.enabled st' w = true)
  /\ (forall w, w <> Window.start_btn -> w <> Window.cancel_btn ->
                Window.effect st' w = Window.effect st w)
  /\ Window.log_view st'
     = Window.log_view st
       ++ [msg; if success then "Download finished successfully."
                else ("Error: " ++ msg)%string].
Proof.
  unfold Window.on_finished, Window.toggle_controls. cbv zeta.
  destruct success; window_compute.
  - repeat split.
    + intros w Hin. cbn [In] in Hin.
      repeat (destruct Hin as [<- | Hin]; [reflexivity|]). destruct Hin.
    + intros w Hs Hc. now rewrite !update_other.
    + now rewrite <- app_assoc.
  - repeat split.
    + intros w Hin. cbn [In] in Hin.
      repeat (destruct Hin as [<- | Hin]; [reflexivity|]). destruct Hin.
    + intros w Hs Hc. now rewrite !update_other.
    + now rewrite <- app_assoc.
Qed.

End WindowProperties.

Lemma typed_reachable : Window.reachable Demo.cwd Demo.typed.
Proof.
  apply (Window.reachable_step string Demo.cwd (Window.init_ui Demo.cwd)).
  - apply Window.reachable_init.
  - apply Window.step_edit; reflexivity.
Defined.

Lemma running_reachable : Window.reachable Demo.cwd Demo.running.
Proof.
  apply (Window.reachable_step string Demo.cwd Demo.typed).
  - exact typed_reachable.
  - apply Window.step_start. reflexivity.
Defined.

Lemma with_ogg_reachable : Window.reachable Demo.cwd Demo.with_ogg.
Proof.
  apply (Window.reachable_step string Demo.cwd Demo.in_audio_mode).
  - apply (Window.reachable_step string Demo.cwd (Window.init_ui Demo.cwd)).
    + apply Window.reachable_init.
    + apply Window.step_mode; reflexivity.
  - apply Window.step_format; reflexivity.
Defined.

Lemma single_worker_witness :
  Window.enabled Demo.running Window.start_btn = true
  <-> Window.worker Demo.running = None.
Proof.
  exact (proj1 (single_worker string Demo.cwd Demo.running running_reachable)).
Defined.

Lemma inputs_locked_while_running_witness :
  Window.enabled Demo.running Window.url_edit = false.
Proof.
  apply (inputs_locked_while_running string Demo.cwd Demo.running
           Window.url_edit running_reachable).
  - vm_compute. discriminate.
  - cbn. tauto.
Defined.

Lemma button_opacity_follows_enabled_witness :
  Window.effect Demo.running Window.start_btn
  = Some (if Window.enabled Demo.running Window.start_btn
          then Window.full else Window.dimmed).
Proof.
  exact (proj1 (button_opacity_follows_enabled string Demo.cwd Demo.running
                  running_reachable)).
Defined.

Lemma advanced_options_visibility_witness :
  Window.visible Demo.with_ogg Window.ogg_combo = true
  <-> PyStr.lower (UI.audio_format_combo (Window.fields Demo.with_ogg)) = "ogg"
      \/ PyStr.lower (UI.audio_format_combo (Window.fields Demo.with_ogg)) = "opus".
Proof.
  exact (proj1 (proj2 (proj2 (proj2
           (advanced_options_visibility string Demo.cwd Demo.with_ogg
              with_ogg_reachable))))).
Defined.

Lemma close_refused_while_running_witness :
  Window.close_event Demo.running true = false.
Proof.
  apply (proj1 (close_refused_while_running string Demo.cwd Demo.running true
                  running_reachable)).
  reflexivity.
Defined.

(** ** The further properties on the sample data *)

Lemma run_percent_range_witness : 0 <= 42 <= 100.
Proof.
  apply (run_percent_range string Sample.join_path Sample.python
           Sample.video_cfg Sample.cancelled_world 42).
  vm_compute. tauto.
Defined.

Lemma run_log_witness :
  Trace.logged
    (Worker.run Sample.join_path Sample.python Sample.video_cfg
       Sample.cancelled_world)
  = ["Command:";
     PyStr.join " "
       (map Worker.quote
          (Worker.build_cmd Sample.join_path Sample.python Sample.video_cfg))]
    ++ map PyStr.rstrip
         (Trace.lines_read (Worker.stdout Sample.cancelled_world)).
Proof.
  apply (run_log string Sample.join_path Sample.python Sample.video_cfg
           Sample.cancelled_world).
  repeat split. discriminate.
Defined.

Lemma read_error_outcome_witness :
  let w := {| Worker.mkdir_error := None; Worker.popen_error := None;
              Worker.stdout := [Worker.Line false "[download]  42.7% of 10MiB";
                                Worker.ReadError "invalid start byte";
                                Worker.Line false "[download] 100% of 10MiB"];
              Worker.returncode := 0 |} in
  Worker.run Sample.join_path Sample.python Sample.video_cfg w
  = Spec.header (Worker.build_cmd Sample.join_path Sample.python Sample.video_cfg)
    ++ Spec.line_events ["[download]  42.7% of 10MiB"]
    ++ [Worker.finished false "Error during download: invalid start byte"].
Proof.
  intros w.
  apply (read_error_outcome string Sample.join_path Sample.python
           Sample.video_cfg w ["[download]  42.7% of 10MiB"]
           "invalid start byte" [Worker.Line false "[download] 100% of 10MiB"]).
  - repeat split. discriminate.
  - reflexivity.
Defined.

Lemma sample_line_fraction :
  PyFloat.decimal_fraction "42.7" = Some (427, 10).
Proof. reflexivity. Defined.

Lemma sample_line_no_overflow : ~ Spec.overflows "42.7".
Proof.
  intros (n & d & Hf & Hbig). vm_compute in Hf. injection Hf as <- <-.
  vm_compute in Hbig. apply Hbig. reflexivity.
Defined.

Lemma percent_bounds_witness :
  exists r,
    Worker.on_line "[download]  42.7% of 10MiB"
    = [Worker.log_line (PyStr.rstrip "[download]  42.7% of 10MiB");
       Worker.progress r]
    /\ Z.min (427 / 10) 100 <= r <= Z.min (427 / 10 + 1) 100.
Proof.
  exact (percent_bounds "[download]  42.7% of 10MiB" "42.7" 427 10
           sample_line_first_match sample_line_fraction
           sample_line_no_overflow).
Defined.

Lemma percent_exact_witness :
  Worker.on_line "[download]  42.7% of 10MiB"
  = [Worker.log_line (PyStr.rstrip "[download]  42.7% of 10MiB");
     Worker.progress (427 / 10)].
Proof.
  apply (percent_exact "[download]  42.7% of 10MiB" "42.7" 427 10
           sample_line_first_match sample_line_fraction).
  - reflexivity.
  - vm_compute. discriminate.
Defined.

Lemma web_form_accepted : UI.validate_inputs Demo.web_form = inr Demo.web_form.
Proof. reflexivity. Defined.

Lemma validated_config_witness :
  PyStr.strip (Worker.url (UI.build_config Demo.web_form))
  = Worker.url (UI.build_config Demo.web_form).
Proof.
  exact (proj1 (validated_config string Demo.web_form Demo.web_form
                  web_form_accepted)).
Defined.

Lemma validate_inputs_idempotent_witness :
  UI.validate_inputs
    (UI.set_template_edit Corner.untitled_form Worker.DEFAULT_TEMPLATE)
  = inr (UI.set_template_edit Corner.untitled_form Worker.DEFAULT_TEMPLATE)
  /\ UI.build_config
       (UI.set_template_edit Corner.untitled_form Worker.DEFAULT_TEMPLATE)
     = UI.build_config Corner.untitled_form.
Proof.
  exact (validate_inputs_idempotent string Corner.untitled_form
           (UI.set_template_edit Corner.untitled_form Worker.DEFAULT_TEMPLATE)
           eq_refl).
Defined.

Lemma launched_url_witness :
  last (Worker.build_cmd Sample.join_path Sample.python
          (UI.build_config Demo.web_form)) EmptyString
  = PyStr.strip (UI.url_edit Demo.web_form).
Proof.
  apply (launched_url string Sample.join_path Sample.python Demo.web_form
           Sample.failing_world).
  vm_compute. tauto.
Defined.

Lemma validated_video_command_witness :
  exists pre sel,
    Worker.build_cmd Sample.join_path Sample.python
      (UI.build_config Demo.web_form)
    = pre ++ ["-f"; sel; "--merge-output-format";
              UI.video_container_combo Demo.web_form;
              PyStr.strip (UI.url_edit Demo.web_form)]
    /\ ((UI.video_quality_combo Demo.web_form = "Best"
         /\ sel = "bestvideo+bestaudio/best")
        \/ exists h,
             PyStr.dict_get Worker.QUALITY_TO_HEIGHT
               (UI.video_quality_combo Demo.web_form) = Some h
             /\ sel = ("bestvideo[height<=" ++ h
                       ++ "]+bestaudio/best[height<=" ++ h ++ "]")%string).
Proof.
  exact (validated_video_command string Sample.join_path Sample.python
           Demo.web_form Demo.web_form web_form_accepted eq_refl).
Defined.

Lemma audio_format_selection_witness :
  exists pre,
    Worker.build_cmd Sample.join_path Sample.python Sample.audio_cfg
    = pre ++ ["-f"; "bestaudio/best"; "--extract-audio";
              "--audio-format"; "ogg"; "--audio-quality"; "192k";
              "https://example.org/watch?v=2"].
Proof.
  exact (audio_format_selection string Sample.join_path Sample.python
           Sample.audio_cfg eq_refl).
Defined.

(** * Calls of [build_cmd] and [run] that do not return *)

Section RaisingProperties.

Variable Path : Type.
Variable path_str : Path -> string -> string.
Variable sys_executable : string.

Implicit Type cfg : Worker.DownloadConfig Path.
Implicit Type w : Worker.world.

Lemma str_cases (n : Z) :
  (10 ^ Raising.max_str_digits <= Z.abs n /\ Raising.str n = None)
  \/ (Z.abs n < 10 ^ Raising.max_str_digits
      /\ Raising.str n = Some (PyStr.str_of_int n)).
Proof.
  unfold Raising.str.
  destruct (Z.leb_spec (10 ^ Raising.max_str_digits) (Z.abs n)); [left | right];
    split; (assumption || reflexivity).
Qed.

(** When line 88 is reached with a level that is too long, [build_ff_args]
    raises; in every other case it returns the list of [Worker.build_ff_args]. *)
Lemma build_ff_args_cases cfg :
  (Worker.mode cfg = "audio"
   /\ PyStr.lower (Worker.audio_format cfg) = "flac"
   /\ 10 ^ Raising.max_str_digits <= Z.abs (Worker.flac_comp_level cfg)
   /\ Raising.build_ff_args cfg = None)
  \/ (~ (Worker.mode cfg = "audio"
         /\ PyStr.lower (Worker.audio_format cfg) = "flac"
         /\ 10 ^ Raising.max_str_digits <= Z.abs (Worker.flac_comp_level cfg))
      /\ Raising.build_ff_args cfg = Some (Worker.build_ff_args cfg)).
Proof.
  unfold Raising.build_ff_args, Worker.build_ff_args. cbv zeta.
  destruct (String.eqb_spec (Worker.mode cfg) "audio") as [Hm | Hm].
  - destruct (String.eqb_spec (PyStr.lower (Worker.audio_format cfg)) "flac")
      as [Hf | Hf].
    + destruct (str_cases (Worker.flac_comp_level cfg)) as [[Hl ->] | [Hl ->]].
      * left. repeat split; assumption.
      * right. split; [lia | reflexivity].
    + right. split; [tauto | reflexivity].
  - right. split; [tauto | reflexivity].
Qed.

Lemma build_cmd_cases cfg :
  (Worker.mode cfg = "audio"
   /\ PyStr.lower (Worker.audio_format cfg) = "flac"
   /\ 10 ^ Raising.max_str_digits <= Z.abs (Worker.flac_comp_level cfg)
   /\ Raising.build_cmd path_str sys_executable cfg = None)
  \/ (~ (Worker.mode cfg = "audio"
         /\ PyStr.lower (Worker.audio_format cfg) = "flac"
         /\ 10 ^ Raising.max_str_digits <= Z.abs (Worker.flac_comp_level cfg))
      /\ Raising.build_cmd path_str sys_executable cfg
         = Some (Worker.build_cmd path_str sys_executable cfg)).
Proof.
  unfold Raising.build_cmd, Worker.build_cmd. cbv zeta.
  destruct (build_ff_args_cases cfg) as [(Hm & Hf & Hl & ->) | (Hn & ->)].
  - left. repeat split; assumption.
  - right. split; [assumption | reflexivity].
Qed.


(** The loop reads the output to its end exactly when no line comes with the
    stop flag set and no read fails. *)
Lemma read_loop_end (out : list Worker.read) :
  (exists texts,
      out = Spec.uncancelled texts
      /\ Worker.read_loop out = (Spec.line_events texts, true))
  \/ ((forall texts, out <> Spec.uncancelled texts)
      /\ snd (Worker.read_loop out) = false).
Proof.
  assert (Hend : forall texts,
             snd (Worker.read_loop (Spec.uncancelled texts)) = true).
  { intros texts. rewrite <- (app_nil_r (Spec.uncancelled texts)).
    rewrite read_loop_uncancelled. reflexivity. }
  destruct (read_loop_cases out)
    as [(texts & Hout & H) | [(texts & t & rest & Hout & H)
                             | (texts & e & rest & Hout & H)]].
  - left. exists texts. split; assumption.
  - right. split; [|now rewrite H].
    intros texts' E. specialize (Hend texts'). rewrite <- E, H in Hend.
    discriminate Hend.
  - right. split; [|now rewrite H].
    intros texts' E. specialize (Hend texts'). rewrite <- E, H in Hend.
    discriminate Hend.
Qed.

Abbreviation build_cmd := (Worker.build_cmd path_str sys_executable).
Abbreviation run := (Worker.run path_str sys_executable).
Abbreviation build_cmd_exn := (Raising.build_cmd path_str sys_executable).
Abbreviation run_exn := (Raising.run path_str sys_executable).

(** The courses of a call of [run]: it returns, with the events of
    [Worker.run]; [build_cmd] raises; or it blocks in [wait] or in a read. *)
Lemma run_courses cfg w (c : Raising.child) :
  (run_exn cfg w c = (run cfg w, Raising.Returns)
   /\ (PyStr.strip (Worker.url cfg) = EmptyString
       \/ Worker.mkdir_error w <> None
       \/ (build_cmd_exn cfg = Some (build_cmd cfg)
           /\ (Worker.popen_error w <> None
               \/ (forall texts, Worker.stdout w <> Spec.uncancelled texts)
               \/ (Raising.closes_output c = true /\ Raising.exits c = true)))))
  \/ (PyStr.strip (Worker.url cfg) <> EmptyString
      /\ Worker.mkdir_error w = None
      /\ build_cmd_exn cfg = None
      /\ run_exn cfg w c = ([Worker.Mkdir], Raising.Raises))
  \/ (Spec.started cfg w
      /\ build_cmd_exn cfg = Some (build_cmd cfg)
      /\ Raising.closes_output c = true
      /\ Raising.exits c = false
      /\ exists texts,
           Worker.stdout w = Spec.uncancelled texts
           /\ run_exn cfg w c =
              (Spec.header (build_cmd cfg) ++ Spec.line_events texts
               ++ [Worker.Wait], Raising.Blocks))
  \/ (Spec.started cfg w
      /\ build_cmd_exn cfg = Some (build_cmd cfg)
      /\ Raising.closes_output c = false
      /\ exists texts,
           Worker.stdout w = Spec.uncancelled texts
           /\ run_exn cfg w c =
              (Spec.header (build_cmd cfg) ++ Spec.line_events texts,
               Raising.Blocks)).
Proof.
  unfold Raising.run, Worker.run.
  destruct (PyStr.strip (Worker.url cfg)) as [|a u] eqn:Hurl.
  { left. split; [reflexivity | now left]. }
  assert (Hu : String a u <> EmptyString) by discriminate.
  cbn [PyStr.truthy negb].
  destruct (Worker.mkdir_error w) as [e|] eqn:Hmk.
  { left. split; [reflexivity | right; left; discriminate]. }
  destruct (build_cmd_cases cfg) as [(_ & _ & _ & Hb) | (_ & Hb)]; rewrite Hb.
  { right; left. repeat split; (assumption || reflexivity). }
  cbv zeta.
  destruct (Worker.popen_error w) as [e|] eqn:Hpo.
  { left. split; [reflexivity|]. right; right. split; [reflexivity|].
    left. discriminate. }
  assert (Hs : Spec.started cfg w).
  { unfold Spec.started. rewrite Hurl. repeat split; assumption. }
  destruct (read_loop_end (Worker.stdout w)) as [(texts & Hout & H) | [Hout H]].
  - rewrite H.
    destruct (Raising.closes_output c) eqn:Hc; [destruct (Raising.exits c) eqn:He|].
    + left. split; [reflexivity|]. right; right. split; [reflexivity|].
      right; right. split; reflexivity.
    + right; right; left. repeat (split; [assumption || reflexivity|]).
      exists texts. split; [assumption | reflexivity].
    + right; right; right. repeat (split; [assumption || reflexivity|]).
      exists texts. split; [assumption | reflexivity].
  - destruct (Worker.read_loop (Worker.stdout w)) as [evs eof].
    cbn [snd] in H. subst eof.
    left. split; [reflexivity|]. right; right. split; [reflexivity|].
    right; left. assumption.
Qed.


(** C10, amended.  [build_cmd] returns a command for every configuration
    whose compression level has at most 4300 digits; it raises exactly for
    the mode "audio" with the format flac (in either case) and a longer
    level, where [str] of line 88 raises ValueError.  A command it returns
    has 12 to 17 arguments and ends with the trimmed URL; when the quality
    for ogg or opus does not start with "q" (in either case) the transcoder
    arguments are the other segments, with no quality tokens, and when the
    sample rate does not consist of digits they are the other segments, with
    no sample rate tokens; a mode other than "audio" gives the command of
    mode "video" and never raises. *)
Theorem build_cmd_total_within_limit cfg :
  (Z.abs (Worker.flac_comp_level cfg) < 10 ^ Raising.max_str_digits ->
   exists cmd, build_cmd_exn cfg = Some cmd)
  /\ (build_cmd_exn cfg = None
      <-> Worker.mode cfg = "audio"
          /\ PyStr.lower (Worker.audio_format cfg) = "flac"
          /\ 10 ^ Raising.max_str_digits <= Z.abs (Worker.flac_comp_level cfg))
  /\ (forall cmd,
        build_cmd_exn cfg = Some cmd ->
        (12 <= List.length cmd <= 17)%nat
        /\ last cmd EmptyString = PyStr.strip (Worker.url cfg))
  /\ (forall ff_args,
        Raising.build_ff_args cfg = Some ff_args ->
        PyStr.startswith (PyStr.lower (Worker.ogg_quality cfg)) "q" = false ->
        ff_args = Raising.ff_args_without_quality cfg)
  /\ (forall ff_args,
        Raising.build_ff_args cfg = Some ff_args ->
        PyStr.isdigit (Worker.sample_rate cfg) = false ->
        ff_args = Raising.ff_args_without_sample_rate cfg)
  /\ (Worker.mode cfg <> "audio" ->
      exists cmd,
        build_cmd_exn cfg = Some cmd
        /\ build_cmd_exn (Spec.with_mode cfg "video") = Some cmd).
Proof.
  split; [|split; [|split; [|split; [|split]]]].
  - intros Hl.
    destruct (build_cmd_cases cfg) as [(_ & _ & Hn & _) | (_ & H)]; [lia|].
    eexists. exact H.
  - destruct (build_cmd_cases cfg) as [(Hm & Hf & Hl & H) | (Hn & H)];
      rewrite H; split; try discriminate; tauto.
  - intros cmd Hcmd.
    destruct (build_cmd_cases cfg) as [(_ & _ & _ & H) | (_ & H)];
      rewrite H in Hcmd; [discriminate|].
    injection Hcmd as <-.
    rewrite (build_cmd_shape Path path_str sys_executable cfg).
    split.
    + unfold Spec.postprocessor_part, Spec.format_part.
      destruct (PyStr.join _ _), (Worker.mode cfg =? "audio")%string;
        simpl; lia.
    + rewrite !app_assoc. apply last_last.
  - intros ff_args Hff Hq.
    destruct (build_ff_args_cases cfg) as [(_ & _ & _ & H) | (_ & H)];
      rewrite H in Hff; [discriminate|].
    injection Hff as <-.
    rewrite (build_ff_args_ordered Path cfg).
    unfold Spec.ordered_ff_args, Raising.ff_args_without_quality,
      Spec.audio_tokens, Spec.quality_tokens.
    rewrite Hq, andb_false_r. reflexivity.
  - intros ff_args Hff Hr.
    destruct (build_ff_args_cases cfg) as [(_ & _ & _ & H) | (_ & H)];
      rewrite H in Hff; [discriminate|].
    injection Hff as <-.
    rewrite (build_ff_args_ordered Path cfg).
    unfold Spec.ordered_ff_args, Raising.ff_args_without_sample_rate,
      Spec.audio_tokens, Spec.sample_rate_tokens.
    rewrite Hr. reflexivity.
  - intros Hm.
    destruct (build_cmd_cases cfg) as [(Hm' & _) | (_ & H)]; [contradiction|].
    destruct (build_cmd_cases (Spec.with_mode cfg "video"))
      as [(Hm' & _) | (_ & H')]; [discriminate Hm'|].
    exists (build_cmd cfg). split; [assumption|].
    rewrite H'. f_equal.
    apply String.eqb_neq in Hm.
    rewrite !(build_cmd_shape Path path_str sys_executable).
    unfold Spec.postprocessor_part, Spec.ordered_ff_args, Spec.format_part.
    simpl Worker.mode. rewrite Hm. reflexivity.
Qed.

(** X1. A call of [run] that returns has sent [finished] exactly once, as its
    last event; a call that does not return has not sent it.  The call does
    not return in two cases: [build_cmd] raises, after the folder was made
    (line 143 is outside every [try]); or the process started, its output
    was read without cancellation or read error, and it does not close its
    output or does not exit. *)
Theorem run_finished_once_or_never cfg w (c : Raising.child) :
  (snd (run_exn cfg w c) = Raising.Returns ->
   exists pre ok msg,
     fst (run_exn cfg w c) = pre ++ [Worker.finished ok msg]
     /\ Trace.outcomes pre = [])
  /\ (snd (run_exn cfg w c) <> Raising.Returns ->
      Trace.outcomes (fst (run_exn cfg w c)) = [])
  /\ (snd (run_exn cfg w c) = Raising.Raises
      <-> PyStr.strip (Worker.url cfg) <> EmptyString
          /\ Worker.mkdir_error w = None
          /\ build_cmd_exn cfg = None)
  /\ (snd (run_exn cfg w c) = Raising.Blocks
      <-> Spec.started cfg w
          /\ build_cmd_exn cfg <> None
          /\ (exists texts, Worker.stdout w = Spec.uncancelled texts)
          /\ (Raising.closes_output c = false \/ Raising.exits c = false)).
Proof.
  pose proof (fun texts => proj1 (proj2 (line_events_views texts))) as Hle.
  destruct (run_courses cfg w c)
    as [[H Hc] | [(Hu & Hmk & Hb & H)
       | [(Hs & Hb & Hcl & Hex & texts & Hout & H)
         | (Hs & Hb & Hcl & texts & Hout & H)]]];
    rewrite H; cbn [fst snd].
  - split; [|split; [|split]].
    + intros _.
      destruct (run_single_outcome Path path_str sys_executable cfg w)
        as (pre & ok & msg & Hrun & Hpre & _).
      exists pre, ok, msg. split; assumption.
    + intros Hn. now destruct Hn.
    + split; [discriminate|]. intros (Hu & Hmk & Hb).
      destruct Hc as [Hc | [Hc | [Hc _]]]; congruence.
    + split; [discriminate|].
      intros ((Hu & Hmk & Hpo) & Hb & (texts & Hout) & Hch).
      destruct Hc as [Hc | [Hc | [_ [Hc | [Hc | [Hc1 Hc2]]]]]];
        first [ congruence
              | now apply (Hc texts)
              | destruct Hch; congruence ].
  - split; [|split; [|split]].
    + discriminate.
    + reflexivity.
    + split; [intros _; repeat split; assumption | reflexivity].
    + split; [discriminate|]. intros (_ & Hb' & _). congruence.
  - split; [|split; [|split]].
    + discriminate.
    + intros _. rewrite !outcomes_app, Hle. reflexivity.
    + split; [discriminate|]. intros (_ & _ & Hb'). congruence.
    + split; [|reflexivity]. intros _.
      split; [assumption|]. split; [congruence|]. split; [eauto | now right].
  - split; [|split; [|split]].
    + discriminate.
    + intros _. rewrite !outcomes_app, Hle. reflexivity.
    + split; [discriminate|]. intros (_ & _ & Hb'). congruence.
    + split; [|reflexivity]. intros _.
      split; [assumption|]. split; [congruence|]. split; [eauto | now left].
Qed.

(** X3. A call of [run] launches at most one process, with the command that
    [build_cmd] returned; it calls [Popen] exactly when the URL is not
    blank, the output folder could be made and [build_cmd] returned. *)
Theorem run_launches_built_command cfg w (c : Raising.child) :
  (forall cmd,
      PyStr.strip (Worker.url cfg) <> EmptyString ->
      Worker.mkdir_error w = None ->
      build_cmd_exn cfg = Some cmd ->
      Trace.launches (fst (run_exn cfg w c)) = [cmd])
  /\ (PyStr.strip (Worker.url cfg) = EmptyString
      \/ Worker.mkdir_error w <> None
      \/ build_cmd_exn cfg = None ->
      Trace.launches (fst (run_exn cfg w c)) = []).
Proof.
  pose proof (fun texts => proj1 (proj2 (proj2 (line_events_views texts)))) as Hle.
  assert (Hcmd : forall cmd, build_cmd_exn cfg = Some cmd -> cmd = build_cmd cfg).
  { intros cmd Hcmd.
    destruct (build_cmd_cases cfg) as [(_ & _ & _ & H) | (_ & H)];
      rewrite H in Hcmd; [discriminate | now injection Hcmd]. }
  destruct (run_courses cfg w c)
    as [[H Hc] | [(Hu & Hmk & Hb & H)
       | [((Hu & Hmk & Hpo) & Hb & Hcl & Hex & texts & Hout & H)
         | ((Hu & Hmk & Hpo) & Hb & Hcl & texts & Hout & H)]]];
    rewrite H; cbn [fst snd].
  - destruct (run_launches Path path_str sys_executable cfg w) as [Hyes Hno].
    split.
    + intros cmd Hu Hmk Hb. rewrite (Hcmd cmd Hb). apply Hyes. now split.
    + intros [Hu | [Hmk | Hb]].
      * apply Hno. intros [Hu' _]. contradiction.
      * apply Hno. intros [_ Hmk']. contradiction.
      * destruct Hc as [Hu | [Hmk | [Hb' _]]].
        -- apply Hno. intros [Hu' _]. contradiction.
        -- apply Hno. intros [_ Hmk']. contradiction.
        -- congruence.
  - split; [intros cmd _ _ Hb'; congruence | reflexivity].
  - split.
    + intros cmd _ _ Hb'. rewrite (Hcmd cmd Hb'), !launches_app, Hle.
      reflexivity.
    + intros [Hu' | [Hmk' | Hb']]; congruence.
  - split.
    + intros cmd _ _ Hb'. rewrite (Hcmd cmd Hb'), !launches_app, Hle.
      reflexivity.
    + intros [Hu' | [Hmk' | Hb']]; congruence.
Qed.

End RaisingProperties.

(** The compression level of 4301 digits is over the limit. *)
Lemma long_level_over_limit :
  10 ^ Raising.max_str_digits
  <= Z.abs (Worker.flac_comp_level Corner.long_level_cfg).
Proof.
  cbn [Worker.flac_comp_level Corner.long_level_cfg].
  unfold Corner.long_level, Raising.max_str_digits.
  rewrite Z.abs_eq by (apply Z.pow_nonneg; lia). apply Z.le_refl.
Qed.

Lemma long_level_build_cmd :
  Raising.build_cmd Sample.join_path Sample.python Corner.long_level_cfg = None.
Proof.
  destruct (build_cmd_cases string Sample.join_path Sample.python
              Corner.long_level_cfg) as [(_ & _ & _ & H) | (Hn & _)];
    [exact H|].
  exfalso. apply Hn. split; [reflexivity|]. split; [reflexivity|].
  exact long_level_over_limit.
Qed.

Lemma small_level_within_limit : Z.abs 5 < 10 ^ Raising.max_str_digits.
Proof.
  apply Z.lt_le_trans with (10 ^ 1); [reflexivity|].
  apply Z.pow_le_mono_r; unfold Raising.max_str_digits; lia.
Defined.

Lemma long_level_raises :
  Worker.mode Corner.long_level_cfg = "audio"
  /\ Worker.audio_format Corner.long_level_cfg = "flac"
  /\ Worker.flac_comp_level Corner.long_level_cfg = 10 ^ 4300
  /\ Raising.build_cmd Sample.join_path Sample.python Corner.long_level_cfg = None.
Proof.
  split; [reflexivity|]. split; [reflexivity|]. split; [reflexivity|].
  exact long_level_build_cmd.
Qed.

Lemma build_cmd_total_within_limit_witness :
  (exists cmd,
      Raising.build_cmd Sample.join_path Sample.python Sample.audio_cfg = Some cmd)
  /\ ["-ac"; "2"] = Raising.ff_args_without_quality Sample.audio_cfg
  /\ ["-ac"; "2"] = Raising.ff_args_without_sample_rate Sample.audio_cfg
  /\ exists cmd,
       Raising.build_cmd Sample.join_path Sample.python Sample.video_cfg = Some cmd
       /\ Raising.build_cmd Sample.join_path Sample.python
            (Spec.with_mode Sample.video_cfg "video") = Some cmd.
Proof.
  pose proof (build_cmd_total_within_limit string Sample.join_path Sample.python
                Sample.audio_cfg) as (Ht & _ & _ & Hq & Hr & _).
  pose proof (build_cmd_total_within_limit string Sample.join_path Sample.python
                Sample.video_cfg) as (_ & _ & _ & _ & _ & Hm).
  split; [exact (Ht small_level_within_limit)|].
  split; [apply Hq; reflexivity|].
  split; [apply Hr; reflexivity|].
  apply Hm. discriminate.
Defined.

Lemma run_finished_once_or_never_witness :
  Trace.outcomes
    (fst (Raising.run Sample.join_path Sample.python Corner.long_level_cfg
            Corner.quiet_world Raising.ends)) = []
  /\ Trace.outcomes
       (fst (Raising.run Sample.join_path Sample.python Sample.video_cfg
               Corner.quiet_world Corner.hangs)) = []
  /\ exists pre ok msg,
       fst (Raising.run Sample.join_path Sample.python Sample.video_cfg
              Corner.quiet_world Raising.ends)
       = pre ++ [Worker.finished ok msg]
       /\ Trace.outcomes pre = [].
Proof.
  split; [|split].
  - pose proof (run_finished_once_or_never string Sample.join_path Sample.python
                  Corner.long_level_cfg Corner.quiet_world Raising.ends)
      as (_ & Hnone & Hraises & _).
    apply Hnone.
    rewrite (proj2 Hraises); [discriminate|].
    split; [discriminate|]. split; [reflexivity | exact long_level_build_cmd].
  - pose proof (run_finished_once_or_never string Sample.join_path Sample.python
                  Sample.video_cfg Corner.quiet_world Corner.hangs)
      as (_ & Hnone & _ & Hblocks).
    apply Hnone.
    rewrite (proj2 Hblocks); [discriminate|].
    split; [repeat split; discriminate || reflexivity|].
    split; [discriminate|].
    split; [exists ["[download] 100% of 10MiB"]; reflexivity | now left].
  - apply (proj1 (run_finished_once_or_never string Sample.join_path Sample.python
                    Sample.video_cfg Corner.quiet_world Raising.ends)).
    reflexivity.
Defined.

Lemma run_launches_built_command_witness :
  Trace.launches
    (fst (Raising.run Sample.join_path Sample.python Sample.video_cfg
            Corner.quiet_world Corner.hangs))
  = [Worker.build_cmd Sample.join_path Sample.python Sample.video_cfg]
  /\ Trace.launches
       (fst (Raising.run Sample.join_path Sample.python Corner.long_level_cfg
               Corner.quiet_world Raising.ends)) = [].
Proof.
  split.
  - apply (proj1 (run_launches_built_command string Sample.join_path Sample.python
                    Sample.video_cfg Corner.quiet_world Corner.hangs)).
    + discriminate.
    + reflexivity.
    + reflexivity.
  - apply (proj2 (run_launches_built_command string Sample.join_path Sample.python
                    Corner.long_level_cfg Corner.quiet_world Raising.ends)).
    right; right. exact long_level_build_cmd.
Defined.
